(** * BigQuery -> Databricks pipeline: a shallow embedding

    The development follows the Python sources
    [databricks_upload.py] (class [DatabricksUploader]) and [run_all.py]
    (function [main]), then [config.py], [bigquery_extract.py] (class
    [BigQueryExtractor]) and [main.py].  Python text is modelled by [string], one character
    per code point below 256; byte payloads by [list byte]; the remote
    services (DBFS REST endpoints, the SQL warehouse, the BigQuery
    extractor) by an environment that answers every call from the history
    of the calls made so far. *)

From Stdlib Require Import ZArith Lia Bool Ascii List Strings.Byte.
From Stdlib Require String.
From stdpp Require Import base tactics option list strings pretty gmap.

Set Warnings "-register-all".

Open Scope Z_scope.

(** ** Python built-ins used by the sources *)

Module Py.

(** [sep.join(parts)] *)
Fixpoint join (sep : string) (parts : list string) : string :=
  match parts with
  | [] => ""
  | [p] => p
  | p :: rest => p +:+ sep +:+ join sep rest
  end.

(** [s.replace(c, new)] for a one-character pattern [c]. *)
Fixpoint replace_char (c : ascii) (new : string) (s : string) : string :=
  match s with
  | EmptyString => ""
  | String a s' =>
      if Ascii.eqb a c then new +:+ replace_char c new s'
      else String a (replace_char c new s')
  end.

(** [s.lstrip(c)], [s.rstrip(c)] and [s.strip(c)] for one character. *)
Fixpoint lstrip (c : ascii) (s : string) : string :=
  match s with
  | EmptyString => ""
  | String a s' => if Ascii.eqb a c then lstrip c s' else s
  end.

Fixpoint rstrip (c : ascii) (s : string) : string :=
  match s with
  | EmptyString => ""
  | String a s' =>
      match rstrip c s' with
      | EmptyString => if Ascii.eqb a c then "" else String a ""
      | r => String a r
      end
  end.

Definition strip (c : ascii) (s : string) : string := lstrip c (rstrip c s).

(** [sub in s] *)
Fixpoint contains (sub s : string) : bool :=
  String.prefix sub s ||
  match s with
  | EmptyString => false
  | String _ s' => contains sub s'
  end.

(** [s * n] *)
Fixpoint times (s : string) (n : nat) : string :=
  match n with
  | O => ""
  | S n' => s +:+ times s n'
  end.

(** [str(n)] for an [int]. *)
Definition str_int (n : Z) : string := pretty n.

(** [len(s)] as an [int]. *)
Definition len {A} (l : list A) : Z := Z.of_nat (length l).

(** [l[lo:hi]] for indices [0 <= lo]; an empty slice when [hi <= lo]. *)
Definition slice {A} (lo hi : Z) (l : list A) : list A :=
  take (Z.to_nat (hi - lo)) (drop (Z.to_nat lo) l).

(** [range(0, stop, step)] for a positive [step]; the fuel bounds the
    number of elements and [stop] itself is always enough. *)
Fixpoint range_from (fuel : nat) (start stop step : Z) : list Z :=
  match fuel with
  | O => []
  | S fuel' =>
      if start <? stop then start :: range_from fuel' (start + step) stop step
      else []
  end.

Definition range (stop step : Z) : list Z :=
  range_from (Z.to_nat stop) 0 stop step.

End Py.

(** ** [base64.standard_b64encode] *)

Module Base64.

Definition alphabet : string :=
  "ABCDEFGHIJKLMNOPQRSTUVWXYZabcdefghijklmnopqrstuvwxyz0123456789+/".

Definition digit (n : N) : ascii :=
  match String.get (N.to_nat n) alphabet with
  | Some c => c
  | None => "="%char
  end.

Definition b (x : byte) : N := Byte.to_N x.

Fixpoint encode (data : list byte) : string :=
  match data with
  | [] => ""
  | [x] =>
      String (digit (N.shiftr (b x) 2))
     (String (digit (N.shiftl (N.land (b x) 3) 4)) "==")
  | [x; y] =>
      String (digit (N.shiftr (b x) 2))
     (String (digit (N.lor (N.shiftl (N.land (b x) 3) 4) (N.shiftr (b y) 4)))
     (String (digit (N.shiftl (N.land (b y) 15) 2)) "="))
  | x :: y :: z :: rest =>
      String (digit (N.shiftr (b x) 2))
     (String (digit (N.lor (N.shiftl (N.land (b x) 3) 4) (N.shiftr (b y) 4)))
     (String (digit (N.lor (N.shiftl (N.land (b y) 15) 2) (N.shiftr (b z) 6)))
     (String (digit (N.land (b z) 63)) (encode rest))))
  end.

End Base64.

(** ** Row values

    The cells of a DataFrame as [iterrows] hands them to the literal
    encoder.  Scalars are the Python scalars; a structured cell is a
    [list], a [dict] with text keys, or a numpy array. *)

Inductive pyfloat :=
| FNaN
| FInf (negative : bool)
| FFinite (repr : string).

(** What [pd.isna] answers: a bool, or an array of bools whose truth value
    is ambiguous. *)
Inductive isna_answer := NaTrue | NaFalse | NaArray.

Inductive scalar :=
| SNone
| SBool (b : bool)
| SInt (n : Z)
| SFloat (f : pyfloat)
| SStr (s : string)
| SObject (str : string) (isna : isna_answer).

Inductive pyval :=
| PyScalar (s : scalar)
| PyList (items : list pyval)
| PyDict (items : list (string * pyval))
| PyNdarray (tolist : list pyval) (str : string).

Module Scalar.

Definition str_float (f : pyfloat) : string :=
  match f with
  | FNaN => "nan"
  | FInf false => "inf"
  | FInf true => "-inf"
  | FFinite r => r
  end.

(** [str(val)] *)
Definition str (v : scalar) : string :=
  match v with
  | SNone => "None"
  | SBool true => "True"
  | SBool false => "False"
  | SInt n => Py.str_int n
  | SFloat f => str_float f
  | SStr s => s
  | SObject s _ => s
  end.

(** [isinstance(val, bool)], [isinstance(val, (int, float))] (a [bool] is
    an [int]) and [isinstance(val, str)]. *)
Definition is_bool (v : scalar) : bool :=
  match v with SBool _ => true | _ => false end.

Definition is_int_or_float (v : scalar) : bool :=
  match v with SBool _ | SInt _ | SFloat _ => true | _ => false end.

Definition is_str (v : scalar) : bool :=
  match v with SStr _ => true | _ => false end.

(** The truth value of a [bool] scalar, as in ["TRUE" if val else "FALSE"]. *)
Definition truthy (v : scalar) : bool :=
  match v with SBool b => b | _ => true end.

(** [pd.isna(val)] on a scalar. *)
Definition isna (v : scalar) : isna_answer :=
  match v with
  | SNone => NaTrue
  | SFloat FNaN => NaTrue
  | SObject _ a => a
  | _ => NaFalse
  end.

End Scalar.

(** ** [json.dumps(val, default=str)] *)

Module Json.

Definition dquote : ascii := ascii_of_nat 34.
Definition backslash : ascii := ascii_of_nat 92.

Definition hex_digit (n : N) : ascii :=
  match String.get (N.to_nat n) "0123456789abcdef" with
  | Some c => c
  | None => "0"%char
  end.

(** One character of a JSON string under [ensure_ascii]. *)
Definition escape_char (c : ascii) : string :=
  let n := N_of_ascii c in
  if Ascii.eqb c dquote then String backslash (String dquote "")
  else if Ascii.eqb c backslash then String backslash (String backslash "")
  else if (n =? 8)%N then String backslash "b"
  else if (n =? 9)%N then String backslash "t"
  else if (n =? 10)%N then String backslash "n"
  else if (n =? 12)%N then String backslash "f"
  else if (n =? 13)%N then String backslash "r"
  else if ((32 <=? n) && (n <=? 126))%N then String c ""
  else String backslash
         ("u00" +:+ String (hex_digit (N.shiftr n 4))
                      (String (hex_digit (N.land n 15)) "")).

Fixpoint escape (s : string) : string :=
  match s with
  | EmptyString => ""
  | String c s' => escape_char c +:+ escape s'
  end.

Definition str (s : string) : string :=
  String dquote (escape s +:+ String dquote "").

Definition float (f : pyfloat) : string :=
  match f with
  | FNaN => "NaN"
  | FInf false => "Infinity"
  | FInf true => "-Infinity"
  | FFinite r => r
  end.

Definition dumps_scalar (v : scalar) : string :=
  match v with
  | SNone => "null"
  | SBool true => "true"
  | SBool false => "false"
  | SInt n => Py.str_int n
  | SFloat f => float f
  | SStr s => str s
  | SObject s _ => str s
  end.

Fixpoint dumps (v : pyval) : string :=
  match v with
  | PyScalar s => dumps_scalar s
  | PyList items => "[" +:+ Py.join ", " (map dumps items) +:+ "]"
  | PyDict items =>
      "{" +:+ Py.join ", "
                (map (fun kv => str (fst kv) +:+ ": " +:+ dumps (snd kv)) items)
          +:+ "}"
  | PyNdarray _ s => str s
  end.

End Json.

(** ** DataFrames *)

Record dataframe := DataFrame {
  columns : list string;          (* df.columns *)
  dtypes : list string;           (* str(dtype) of each column *)
  rows : list (list pyval)        (* the rows, as iterrows yields them *)
}.

Definition set_columns (df : dataframe) (cols : list string) : dataframe :=
  {| columns := cols; dtypes := dtypes df; rows := rows df |}.

(** ** Exceptions, calls on the outside world, and the monad of the code *)

Inductive exn_class :=
| ValueError | TypeError | KeyError | HTTPError | OtherException (name : string).

Record exn := Exn { exn_type : exn_class; exn_str : string }.

Inductive result (A : Type) :=
| Ok (a : A)
| Raise (e : exn).
Arguments Ok {A} a.
Arguments Raise {A} e.

(** Only subclasses of [Exception] are modelled.

    JSON bodies of the four DBFS requests: *)
Inductive dbfs_body :=
| BodyPut (path contents : string) (overwrite : bool)
| BodyCreate (path : string) (overwrite : bool)
| BodyAddBlock (handle : Z) (data : string)
| BodyClose (handle : Z).

(** What [requests.post] gives back: a response (status code and the
    [handle] field of its JSON body, when there is one) or an exception of
    the transport. *)
Record response := Response {
  status_code : Z;
  reason : string;
  json_handle : option Z
}.

Inductive http_reply :=
| HttpReturn (r : response)
| HttpRaise (e : exn).

Inductive event :=
| EvHttp (url : string) (body : dbfs_body) (reply : http_reply)
| EvConnect (reply : option exn)
| EvExecute (stmt : string) (reply : option exn)
| EvClose
| EvBigQueryExtractor (reply : result string)
| EvListTables (reply : result (list string))
| EvExtractTable (table_name : string) (reply : result dataframe)
| EvLog (level : string) (template : string) (args : list string).

Definition history := list event.

Record env := Env {
  http_post : history -> string -> dbfs_body -> http_reply;
  sql_connect : history -> option exn;
  sql_execute : history -> string -> option exn;
  bq_extractor : history -> result string;   (* BigQueryExtractor(): its dataset *)
  bq_list_tables : history -> result (list string);
  bq_extract_table : history -> string -> result dataframe;
  to_parquet : dataframe -> result (list byte);
  to_csv_utf8 : dataframe -> result (list byte)
}.

(** A computation reads the history, extends it, and returns or raises;
    [None] is a loop that ran out of fuel. *)
Definition M (A : Type) : Type := history -> option (history * result A).

Definition ret {A} (a : A) : M A := fun h => Some (h, Ok a).

Definition raise {A} (e : exn) : M A := fun h => Some (h, Raise e).

Definition bind {A B} (m : M A) (k : A -> M B) : M B := fun h =>
  match m h with
  | None => None
  | Some (h', Ok a) => k a h'
  | Some (h', Raise e) => Some (h', Raise e)
  end.

Notation "'do' x <- m ; k" := (bind m (fun x => k))
  (at level 10, x name, m at level 100, k at level 200).

(** [try: m except Exception: handler] *)
Definition try_except {A} (m : M A) (handler : exn -> M A) : M A := fun h =>
  match m h with
  | None => None
  | Some (h', Ok a) => Some (h', Ok a)
  | Some (h', Raise e) => handler e h'
  end.

Definition lift {A} (r : result A) : M A := fun h => Some (h, r).

Definition out_of_fuel {A} : M A := fun _ => None.

Definition emit (ev : event) : M unit := fun h => Some (h ++ [ev], Ok tt).

Definition log_info (template : string) (args : list string) : M unit :=
  emit (EvLog "INFO" template args).

Definition log_warning (template : string) (args : list string) : M unit :=
  emit (EvLog "WARNING" template args).

Definition log_error (template : string) (args : list string) : M unit :=
  emit (EvLog "ERROR" template args).

(** ** config.py : [DatabricksConfig] *)

Record DatabricksConfig := {
  HOST : option string;
  TOKEN : option string;
  HTTP_PATH : option string;
  CATALOG : string;
  SCHEMA : string
}.

(** [not value] for a value read with [os.getenv]. *)
Definition unset (v : option string) : bool :=
  match v with
  | None => true
  | Some EmptyString => true
  | Some _ => false
  end.

Definition validate (cfg : DatabricksConfig) : result unit :=
  let missing :=
    (if unset (HOST cfg) then ["DATABRICKS_HOST"] else []) ++
    (if unset (TOKEN cfg) then ["DATABRICKS_TOKEN"] else []) ++
    (if unset (HTTP_PATH cfg) then ["DATABRICKS_HTTP_PATH"] else []) in
  match missing with
  | [] => Ok tt
  | _ => Raise (Exn ValueError
                  ("Missing Databricks config: " +:+ Py.join ", " missing
                   +:+ ". Please check your .env file."))
  end.

(** ** databricks_upload.py : [DatabricksUploader] *)

Record uploader := {
  host : string;
  token : string;
  http_path : string;
  catalog : string;
  schema : string
}.

Definition MiB : Z := 1 * 1024 * 1024.

Definition batch_size : Z := 1000.

Definition sql_quote (s : string) : string :=
  "'" +:+ Py.replace_char "'" "''" s +:+ "'".

(** [if pd.isna(val)]: the truth value of the answer. *)
Definition truth (a : isna_answer) : result bool :=
  match a with
  | NaTrue => Ok true
  | NaFalse => Ok false
  | NaArray =>
      Raise (Exn ValueError "The truth value of an array is ambiguous.")
  end.

(** The [if pd.isna ... elif ... else] chain of [write_with_sql_connector]. *)
Definition scalar_literal (val : scalar) : result string :=
  match truth (Scalar.isna val) with
  | Raise e => Raise e
  | Ok true => Ok "NULL"
  | Ok false =>
      if Scalar.is_bool val then
        Ok (if Scalar.truthy val then "TRUE" else "FALSE")
      else if Scalar.is_int_or_float val then Ok (Scalar.str val)
      else if Scalar.is_str val then Ok (sql_quote (Scalar.str val))
      else Ok (sql_quote (Scalar.str val))
  end.

(** The body of [for val in row]: the three tests that [continue], then the
    scalar chain under [except (ValueError, TypeError)].  [json.dumps] with
    [default=str] does not raise on the values modelled, so the handler is
    entered from the scalar chain only. *)
Definition sql_literal (val : pyval) : result string :=
  match val with
  | PyScalar SNone => Ok "NULL"
  | PyList _ | PyDict _ => Ok (sql_quote (Json.dumps val))
  | PyNdarray tolist _ => Ok (sql_quote (Json.dumps (PyList tolist)))
  | PyScalar s =>
      match scalar_literal s with
      | Ok lit => Ok lit
      | Raise (Exn ValueError _) | Raise (Exn TypeError _) =>
          Ok (sql_quote (Scalar.str s))
      | Raise e => Raise e
      end
  end.

Fixpoint collect {A B} (f : A -> result B) (l : list A) : result (list B) :=
  match l with
  | [] => Ok []
  | x :: rest =>
      match f x with
      | Raise e => Raise e
      | Ok y =>
          match collect f rest with
          | Raise e => Raise e
          | Ok ys => Ok (y :: ys)
          end
      end
  end.

(** One element of [values_list]. *)
Definition row_values (row : list pyval) : result string :=
  match collect sql_literal row with
  | Raise e => Raise e
  | Ok values => Ok ("(" +:+ Py.join ", " values +:+ ")")
  end.

Definition _pandas_to_sql_type (dtype_str : string) : string :=
  if Py.contains "int" dtype_str then "BIGINT"
  else if Py.contains "float" dtype_str then "DOUBLE"
  else if Py.contains "bool" dtype_str then "BOOLEAN"
  else if Py.contains "datetime" dtype_str then "TIMESTAMP"
  else "STRING".

Definition full_table_name (up : uploader) (table_name : string) : string :=
  catalog up +:+ "." +:+ schema up +:+ "." +:+ table_name.

Definition drop_sql (full : string) : string :=
  "DROP TABLE IF EXISTS " +:+ full.

Definition create_sql (full : string) (df : dataframe) : string :=
  let col_defs :=
    map (fun cd => "`" +:+ fst cd +:+ "` " +:+ _pandas_to_sql_type (snd cd))
        (zip (columns df) (dtypes df)) in
  "CREATE TABLE IF NOT EXISTS " +:+ full +:+ " ("
    +:+ Py.join ", " col_defs +:+ ")".

Definition insert_sql (full : string) (df : dataframe)
    (values_list : list string) : string :=
  let cols := Py.join ", " (map (fun c => "`" +:+ c +:+ "`") (columns df)) in
  "INSERT INTO " +:+ full +:+ " (" +:+ cols +:+ ") VALUES "
    +:+ Py.join ", " values_list.

Definition nl : string := String (ascii_of_nat 10) "".
Definition sp24 : string := "                        ".
Definition sp28 : string := "                            ".

(** The three triple-quoted statements of [upload_to_delta_table]. *)
Definition create_parquet_sql (indent full staging_path : string) : string :=
  nl +:+ indent +:+ "CREATE TABLE " +:+ full
  +:+ nl +:+ indent +:+ "USING PARQUET"
  +:+ nl +:+ indent +:+ "LOCATION 'dbfs:" +:+ staging_path +:+ "'"
  +:+ nl +:+ indent.

Definition insert_parquet_sql (full staging_path : string) : string :=
  nl +:+ sp28 +:+ "INSERT INTO " +:+ full
  +:+ nl +:+ sp28 +:+ "SELECT * FROM parquet.`dbfs:" +:+ staging_path +:+ "`"
  +:+ nl +:+ sp28.

Definition describe_sql (full : string) : string :=
  "DESCRIBE TABLE " +:+ full.

(** The [HTTPError] that [raise_for_status] raises for a 4xx or 5xx
    response. *)
Definition status_error (url : string) (r : response) : option exn :=
  let code := status_code r in
  if (400 <=? code) && (code <? 500) then
    Some (Exn HTTPError (Py.str_int code +:+ " Client Error: " +:+ reason r
                         +:+ " for url: " +:+ url))
  else if (500 <=? code) && (code <? 600) then
    Some (Exn HTTPError (Py.str_int code +:+ " Server Error: " +:+ reason r
                         +:+ " for url: " +:+ url))
  else None.

Section Uploader.

Context (E : env).

Definition DatabricksUploader_init (cfg : DatabricksConfig) : M uploader :=
  do _ <- lift (validate cfg);
  let up := {| host := Py.rstrip "/" (default "" (HOST cfg));
               token := default "" (TOKEN cfg);
               http_path := default "" (HTTP_PATH cfg);
               catalog := CATALOG cfg;
               schema := SCHEMA cfg |} in
  do _ <- log_info "Databricks uploader initialized for: {}" [host up];
  ret up.

(** [requests.post(url, headers=self.headers, json=body)] *)
Definition requests_post (url : string) (body : dbfs_body) : M response :=
  fun h =>
    let reply := http_post E h url body in
    Some (h ++ [EvHttp url body reply],
          match reply with
          | HttpReturn r => Ok r
          | HttpRaise e => Raise e
          end).

(** [response.raise_for_status()] *)
Definition raise_for_status (url : string) (r : response) : M unit :=
  match status_error url r with
  | Some e => raise e
  | None => ret tt
  end.

Definition _dbfs_put (up : uploader) (dbfs_path : string)
    (file_bytes : list byte) : M unit :=
  let encoded := Base64.encode file_bytes in
  let url := host up +:+ "/api/2.0/dbfs/put" in
  do response <- requests_post url (BodyPut dbfs_path encoded true);
  raise_for_status url response.

(** The [while offset < len(file_bytes)] loop. *)
Fixpoint add_blocks (fuel : nat) (up : uploader) (handle : Z)
    (file_bytes : list byte) (chunk_size offset : Z) : M unit :=
  match fuel with
  | O => out_of_fuel
  | S fuel' =>
      if offset <? Py.len file_bytes then
        let chunk := Py.slice offset (offset + chunk_size) file_bytes in
        let encoded_chunk := Base64.encode chunk in
        let url := host up +:+ "/api/2.0/dbfs/add-block" in
        do response <- requests_post url (BodyAddBlock handle encoded_chunk);
        do _ <- raise_for_status url response;
        let offset := offset + chunk_size in
        do _ <- log_info "  Uploaded {} / {} bytes"
                  [Py.str_int (Z.min offset (Py.len file_bytes));
                   Py.str_int (Py.len file_bytes)];
        add_blocks fuel' up handle file_bytes chunk_size offset
      else ret tt
  end.

Definition _dbfs_stream_upload (up : uploader) (dbfs_path : string)
    (file_bytes : list byte) (chunk_size : Z) : M unit :=
  let url_create := host up +:+ "/api/2.0/dbfs/create" in
  let url_close := host up +:+ "/api/2.0/dbfs/close" in
  do response <- requests_post url_create (BodyCreate dbfs_path true);
  do _ <- raise_for_status url_create response;
  do handle <- match json_handle response with
               | Some handle => ret handle
               | None => raise (Exn KeyError "'handle'")
               end;
  try_except
    (do _ <- add_blocks (S (length file_bytes)) up handle file_bytes
               chunk_size 0;
     do response <- requests_post url_close (BodyClose handle);
     raise_for_status url_close response)
    (fun e =>
       do _ <- requests_post url_close (BodyClose handle);
       raise e).

(** The size test shared by [upload_to_dbfs] and [upload_to_delta_table]. *)
Definition dbfs_upload (up : uploader) (dbfs_path : string)
    (file_bytes : list byte) : M unit :=
  if Py.len file_bytes <=? MiB then _dbfs_put up dbfs_path file_bytes
  else _dbfs_stream_upload up dbfs_path file_bytes (1024 * 1024).

(** The "Convert DataFrame to bytes" step of [upload_to_dbfs]. *)
Definition to_bytes (df : dataframe) (file_format : string)
    : result (list byte) :=
  if String.eqb file_format "parquet" then to_parquet E df
  else if String.eqb file_format "csv" then to_csv_utf8 E df
  else Raise (Exn ValueError
                ("Unsupported format: " +:+ file_format
                 +:+ ". Use 'parquet' or 'csv'.")).

Definition upload_to_dbfs (up : uploader) (df : dataframe)
    (dbfs_path file_format : string) : M unit :=
  do _ <- log_info "Uploading {} rows to DBFS: {}"
            [Py.str_int (Py.len (rows df)); dbfs_path];
  do file_bytes <- lift (to_bytes df file_format);
  let file_size := Py.len file_bytes in
  do _ <- log_info "File size: {:.2f} MB" [Py.str_int file_size];
  do _ <- dbfs_upload up dbfs_path file_bytes;
  log_info "Successfully uploaded to DBFS: {}" [dbfs_path].

(** [cursor.execute(stmt)] *)
Definition cursor_execute (stmt : string) : M unit := fun h =>
  let reply := sql_execute E h stmt in
  Some (h ++ [EvExecute stmt reply],
        match reply with
        | None => Ok tt
        | Some e => Raise e
        end).

(** [with databricks_sql.connect(...) as connection:
       with connection.cursor() as cursor: body]
    The session is released when the block is left, normally or not. *)
Definition with_connection {A} (body : M A) : M A := fun h =>
  match sql_connect E h with
  | Some e => Some (h ++ [EvConnect (Some e)], Raise e)
  | None =>
      match body (h ++ [EvConnect None]) with
      | None => None
      | Some (h', r) => Some (h' ++ [EvClose], r)
      end
  end.

Definition upload_to_delta_table (up : uploader) (df : dataframe)
    (table_name mode : string) : M unit :=
  let full := full_table_name up table_name in
  do _ <- log_info "Writing {} rows to Delta Table: {} (mode={})"
            [Py.str_int (Py.len (rows df)); full; mode];
  do file_bytes <- lift (to_parquet E df);
  let staging_path := "/FileStore/staging/" +:+ table_name +:+ ".parquet" in
  do _ <- log_info "Uploading staging file to DBFS..." [];
  do _ <- dbfs_upload up staging_path file_bytes;
  with_connection
    (if String.eqb mode "overwrite" then
       do _ <- cursor_execute (drop_sql full);
       do _ <- cursor_execute (create_parquet_sql sp24 full staging_path);
       log_info "Table {} created (overwrite mode)" [full]
     else if String.eqb mode "append" then
       try_except
         (do _ <- cursor_execute (describe_sql full);
          do _ <- cursor_execute (insert_parquet_sql full staging_path);
          log_info "Appended data to {}" [full])
         (fun _ =>
            do _ <- cursor_execute (create_parquet_sql sp28 full staging_path);
            log_info "Table {} created (new)" [full])
     else
       raise (Exn ValueError
                ("Invalid mode: " +:+ mode
                 +:+ ". Use 'overwrite' or 'append'."))).

(** The [for start in range(0, len(df), batch_size)] loop. *)
Fixpoint insert_batches (full : string) (df : dataframe) (starts : list Z)
    : M unit :=
  match starts with
  | [] => ret tt
  | start :: rest =>
      let batch := Py.slice start (start + batch_size) (rows df) in
      do values_list <- lift (collect row_values batch);
      do _ <- cursor_execute (insert_sql full df values_list);
      do _ <- log_info "  Inserted batch {} ({} rows)"
                [Py.str_int (start / batch_size + 1);
                 Py.str_int (Py.len batch)];
      insert_batches full df rest
  end.

(** How the [with] block of [write_with_sql_connector] is left. *)
Inductive leave := Returned | FellThrough.

Definition write_with_sql_connector (up : uploader) (df : dataframe)
    (table_name mode : string) : M unit :=
  let full := full_table_name up table_name in
  do _ <- log_info "Writing {} rows via SQL INSERT to: {}"
            [Py.str_int (Py.len (rows df)); full];
  do left <- with_connection
    (do _ <- (if String.eqb mode "overwrite"
              then cursor_execute (drop_sql full) else ret tt);
     do _ <- cursor_execute (create_sql full df);
     if Py.len (rows df) =? 0 then
       do _ <- log_info "DataFrame is empty, no data to insert." [];
       ret Returned
     else
       do _ <- insert_batches full df (Py.range (Py.len (rows df)) batch_size);
       ret FellThrough);
  match left with
  | Returned => ret tt
  | FellThrough =>
      log_info "Successfully wrote {} rows to {}"
        [Py.str_int (Py.len (rows df)); full]
  end.

End Uploader.

(** ** run_all.py *)

(** A character of the class [[a-zA-Z0-9_]]. *)
Definition is_word (c : ascii) : bool :=
  let n := N_of_ascii c in
  (((97 <=? n) && (n <=? 122)) || ((65 <=? n) && (n <=? 90))
   || ((48 <=? n) && (n <=? 57)) || (n =? 95))%N.

(** [re.sub(r'[^a-zA-Z0-9_]', '_', col)] *)
Fixpoint re_sub_nonword (col : string) : string :=
  match col with
  | EmptyString => ""
  | String c rest =>
      String (if is_word c then c else "_"%char) (re_sub_nonword rest)
  end.

Definition sanitize (col : string) : string :=
  Py.strip "_" (re_sub_nonword col).

(** One turn of the [for col in df.columns] loop that renames duplicates:
    the dict [seen] and the list [new_cols]. *)
Definition dedup_step (st : gmap string Z * list string) (col : string)
    : gmap string Z * list string :=
  let '(seen, new_cols) := st in
  match seen !! col with
  | Some n =>
      (<[col := n + 1]> seen, new_cols ++ [col +:+ "_" +:+ Py.str_int (n + 1)])
  | None => (<[col := 0]> seen, new_cols ++ [col])
  end.

Definition dedup (cols : list string) : list string :=
  snd (fold_left dedup_step cols (∅, [])).

Definition sanitize_columns (df : dataframe) : dataframe :=
  let df := set_columns df (map sanitize (columns df)) in
  set_columns df (dedup (columns df)).

Record report := Report {
  success_count : Z;
  error_count : Z;
  errors : list (string * string)
}.

Definition add_success (rep : report) : report :=
  {| success_count := success_count rep + 1;
     error_count := error_count rep;
     errors := errors rep |}.

Definition add_error (rep : report) (table_name msg : string) : report :=
  {| success_count := success_count rep;
     error_count := error_count rep + 1;
     errors := errors rep ++ [(table_name, msg)] |}.

(** [main] returns, or leaves through [sys.exit(0)]. *)
Inductive main_outcome :=
| Exit0
| Finished (rep : report).

Section RunAll.

Context (E : env).

Definition BigQueryExtractor : M string := fun h =>
  let reply := bq_extractor E h in
  Some (h ++ [EvBigQueryExtractor reply], reply).

Definition list_tables : M (list string) := fun h =>
  let reply := bq_list_tables E h in
  Some (h ++ [EvListTables reply], reply).

Definition extract_table (table_name : string) : M dataframe := fun h =>
  let reply := bq_extract_table E h table_name in
  Some (h ++ [EvExtractTable table_name reply], reply).

(** The body of the [try] for one table. *)
Definition process_table (up : uploader) (table_name : string) : M unit :=
  do _ <- log_info "   Extracting from BigQuery..." [];
  do df <- extract_table table_name;
  do _ <- log_info "   Extracted {} rows, {} columns"
            [Py.str_int (Py.len (rows df)); Py.str_int (Py.len (columns df))];
  if Py.len (rows df) =? 0 then
    log_info "   Table is empty, skipping upload." []
  else
    let df := sanitize_columns df in
    do _ <- log_info "   Uploading to Databricks table: {}..." [table_name];
    do _ <- write_with_sql_connector E up df table_name "overwrite";
    log_info "   Uploaded successfully!" [].

(** One turn of [for i, table_name in enumerate(tables, 1)]. *)
Definition iteration (up : uploader) (n_tables i : Z) (table_name : string)
    (rep : report) : M report :=
  do _ <- log_info (Py.times "-" 50) [];
  do _ <- log_info "[{}/{}] Processing table: {}"
            [Py.str_int i; Py.str_int n_tables; table_name];
  try_except
    (do _ <- process_table up table_name;
     ret (add_success rep))
    (fun e =>
       do _ <- log_error "   Error processing {}: {}" [table_name; exn_str e];
       ret (add_error rep table_name (exn_str e))).

Fixpoint table_loop (up : uploader) (n_tables i : Z) (tables : list string)
    (rep : report) : M report :=
  match tables with
  | [] => ret rep
  | table_name :: rest =>
      do rep' <- iteration up n_tables i table_name rep;
      table_loop up n_tables (i + 1) rest rep'
  end.

Fixpoint log_failed (errs : list (string * string)) : M unit :=
  match errs with
  | [] => ret tt
  | (tbl, err) :: rest =>
      do _ <- log_info "     - {}: {}" [tbl; err];
      log_failed rest
  end.

Definition main (cfg : DatabricksConfig) : M main_outcome :=
  do _ <- log_info (Py.times "=" 60) [];
  do _ <- log_info "PIPELINE: BigQuery -> Databricks (ALL TABLES)" [];
  do _ <- log_info (Py.times "=" 60) [];
  do _ <- log_info "Connecting to BigQuery..." [];
  do dataset <- BigQueryExtractor;
  do _ <- log_info "Listing tables in dataset: {}" [dataset];
  do tables <- list_tables;
  match tables with
  | [] =>
      do _ <- log_warning "No tables found in dataset!" [];
      ret Exit0
  | _ =>
      do _ <- log_info "Found {} tables: {}"
                (Py.str_int (Py.len tables) :: tables);
      do _ <- log_info "Connecting to Databricks..." [];
      do up <- DatabricksUploader_init cfg;
      do rep <- table_loop up (Py.len tables) 1 tables (Report 0 0 []);
      do _ <- log_info (Py.times "=" 60) [];
      do _ <- log_info "PIPELINE COMPLETED in {:.1f}s" [];
      do _ <- log_info "   Success: {}/{} tables"
                [Py.str_int (success_count rep); Py.str_int (Py.len tables)];
      do _ <- log_info "   Errors:  {}/{} tables"
                [Py.str_int (error_count rep); Py.str_int (Py.len tables)];
      do _ <- match errors rep with
              | [] => ret tt
              | errs =>
                  do _ <- log_info (nl +:+ "   Failed tables:") [];
                  log_failed errs
              end;
      do _ <- log_info (Py.times "=" 60) [];
      ret (Finished rep)
  end.

End RunAll.

(** ** Observations on a history *)

Definition http_bodies (t : history) : list dbfs_body :=
  omap (fun ev => match ev with EvHttp _ b _ => Some b | _ => None end) t.

Definition sql_events (t : history) : list (string * option exn) :=
  omap (fun ev => match ev with EvExecute s r => Some (s, r) | _ => None end) t.

Definition connects (t : history) : list (option exn) :=
  omap (fun ev => match ev with EvConnect r => Some r | _ => None end) t.

Definition extracts (t : history) : list (string * result dataframe) :=
  omap (fun ev => match ev with
                  | EvExtractTable n r => Some (n, r)
                  | _ => None
                  end) t.

Definition logs (t : history) : list (string * string) :=
  omap (fun ev => match ev with
                  | EvLog level template _ => Some (level, template)
                  | _ => None
                  end) t.

Definition is_close (b : dbfs_body) : bool :=
  match b with BodyClose _ => true | _ => false end.

Definition is_drop (stmt : string) : bool := String.prefix "DROP TABLE" stmt.

Definition is_insert (stmt : string) : bool := String.prefix "INSERT INTO" stmt.

(** ** Vocabulary of the specifications *)

(** The pieces [l[0:size]], [l[size:2*size]], ... cut by a loop that
    advances an index by [size]: the chunks of a payload, the batches of a
    table. *)
Definition pieces {A} (size : Z) (l : list A) : list (list A) :=
  map (fun start => Py.slice start (start + size) l)
      (Py.range (Py.len l) size).

Definition ceil_div (a b : Z) : Z := (a + b - 1) / b.

(** [wp m h Q]: from history [h] the computation [m] terminates, having
    appended the events [t] and produced [r], with [Q t r]. *)
Definition wp {A} (m : M A) (h : history)
    (Q : history -> result A -> Prop) : Prop :=
  exists t r, m h = Some (h ++ t, r) /\ Q t r.

(** A plan of calls carried out in order until the first failure: the calls
    before it succeeded, its error is the result, the calls after it were
    never made. *)
Definition run_of {C} (plan : list C) (made : list (C * option exn))
    (r : result unit) : Prop :=
  (r = Ok tt /\ made = map (fun c => (c, None)) plan) \/
  (exists k c e,
      plan !! k = Some c /\
      made = map (fun c => (c, None)) (take k plan) ++ [(c, Some e)] /\
      r = Raise e).

(** The exception a reply to [requests.post] leads to once
    [raise_for_status] has been called on it. *)
Definition reply_error (url : string) (reply : http_reply) : option exn :=
  match reply with
  | HttpRaise e => Some e
  | HttpReturn r => status_error url r
  end.

(** The requests of a history, each with the error it ended in, if any. *)
Definition http_made (t : history) : list (dbfs_body * option exn) :=
  omap (fun ev => match ev with
                  | EvHttp url b reply => Some (b, reply_error url reply)
                  | _ => None
                  end) t.

(** What the [create] step makes of its reply: the handle, or the error. *)
Definition open_result (url : string) (reply : http_reply) : result Z :=
  match reply with
  | HttpRaise e => Raise e
  | HttpReturn r =>
      match status_error url r with
      | Some e => Raise e
      | None =>
          match json_handle r with
          | Some handle => Ok handle
          | None => Raise (Exn KeyError "'handle'")
          end
      end
  end.

(** An environment whose DBFS endpoints answer every request with a
    success status, and every [create] with a handle. *)
Definition http_ok (E : env) : Prop :=
  forall h url body, exists r,
    http_post E h url body = HttpReturn r /\
    status_error url r = None /\
    (forall path o, body = BodyCreate path o -> is_Some (json_handle r)).

(** An environment whose SQL warehouse accepts the connection and every
    statement. *)
Definition sql_ok (E : env) : Prop :=
  (forall h, sql_connect E h = None) /\
  (forall h stmt, sql_execute E h stmt = None).

Global Arguments Py.slice : simpl never.
Global Arguments pieces : simpl never.
Global Arguments Py.range : simpl never.
Global Arguments Base64.encode : simpl never.
Global Arguments Py.str_int : simpl never.
Global Arguments Py.times : simpl never.

(** The requests of a streaming upload once the handle is known: one
    [add-block] per chunk, then [close]. *)
Definition stream_plan (handle : Z) (chunk_size : Z) (file_bytes : list byte)
    : list dbfs_body :=
  map (fun chunk => BodyAddBlock handle (Base64.encode chunk))
      (pieces chunk_size file_bytes)
  ++ [BodyClose handle].

Definition url_create (up : uploader) : string := host up +:+ "/api/2.0/dbfs/create".
Definition url_close (up : uploader) : string := host up +:+ "/api/2.0/dbfs/close".

(** The two ways a streaming upload ends in an error [e], read off the
    events [t] it appended. *)
Definition failed_at_open (up : uploader) (dbfs_path : string)
    (t : history) (e : exn) : Prop :=
  exists reply,
    t = [EvHttp (url_create up) (BodyCreate dbfs_path true) reply] /\
    open_result (url_create up) reply = Raise e.

Definition failed_after_open (up : uploader) (dbfs_path : string)
    (file_bytes : list byte) (chunk_size : Z) (t : history) (e : exn) : Prop :=
  exists handle reply body k c e0 cleanup,
    open_result (url_create up) reply = Ok handle /\
    t = EvHttp (url_create up) (BodyCreate dbfs_path true) reply
        :: body ++ [EvHttp (url_close up) (BodyClose handle) cleanup] /\
    stream_plan handle chunk_size file_bytes !! k = Some c /\
    http_made body
    = map (fun c => (c, None)) (take k (stream_plan handle chunk_size file_bytes))
      ++ [(c, Some e0)] /\
    match cleanup with
    | HttpReturn _ => e = e0
    | HttpRaise e2 => e = e2
    end.

Definition stream_post (up : uploader) (dbfs_path : string)
    (file_bytes : list byte) (chunk_size : Z) (t : history) (r : result unit)
    : Prop :=
  match r with
  | Ok _ =>
      exists handle reply body,
        open_result (url_create up) reply = Ok handle /\
        t = EvHttp (url_create up) (BodyCreate dbfs_path true) reply :: body /\
        http_made body
        = map (fun c => (c, None)) (stream_plan handle chunk_size file_bytes)
  | Raise e =>
      failed_at_open up dbfs_path t e \/
      failed_after_open up dbfs_path file_bytes chunk_size t e
  end.

(** The first error among the requests made. *)
Fixpoint first_error (made : list (dbfs_body * option exn)) : option exn :=
  match made with
  | [] => None
  | (_, Some e) :: _ => Some e
  | (_, None) :: rest => first_error rest
  end.

(** What is known when a streaming upload ends, having appended the events
    [t].  The run is accounted for in full ([stream_post]): it returns only
    when [create], every [add-block] and [close] were requested and
    succeeded; when it raises [e], either the [create] request failed, it
    is the only request, no handle exists and [e] is its error; or a handle
    was obtained and a request of the plan failed with [e0], the requests
    before it succeeded, exactly one more request follows, the [close] of
    the handle, nothing follows that one, and [e] is [e0] when that request
    returns a response, of whatever status, and its own error otherwise.
    So no failed request is passed over in silence, and a run that returns
    has closed its handle with its last request. *)
Definition cleanup_post (up : uploader) (dbfs_path : string)
    (file_bytes : list byte) (chunk_size : Z) (t : history) (r : result unit)
    : Prop :=
  stream_post up dbfs_path file_bytes chunk_size t r /\
  (forall c e0, (c, Some e0) ∈ http_made t -> exists e, r = Raise e) /\
  (r = Ok tt ->
   exists handle, last (http_made t) = Some (BodyClose handle, None)) /\
  (forall e,
     r = Raise e ->
     failed_at_open up dbfs_path t e \/
     exists handle cleanup rest,
       t = rest ++ [EvHttp (url_close up) (BodyClose handle) cleanup] /\
       (forall resp,
          cleanup = HttpReturn resp ->
          first_error (http_made t) = Some e)).

(** For a streaming upload that raised [e] after the events [t]: a cleanup
    [close] was the last request made, and [e] is the error of the first
    request that failed. *)
Definition closed_and_original (t : history) (e : exn) : Prop :=
  (exists handle, last (http_bodies t) = Some (BodyClose handle)) /\
  first_error (http_made t) = Some e.

(** Reading a quoted SQL text literal back: the inverse of [sql_quote]. *)
Fixpoint sql_unescape (s : string) : option string :=
  match s with
  | EmptyString => None
  | String c rest =>
      if Ascii.eqb c "'" then
        match rest with
        | EmptyString => Some ""
        | String c' rest' =>
            if Ascii.eqb c' "'" then String "'"%char <$> sql_unescape rest'
            else None
        end
      else String c <$> sql_unescape rest
  end.

Definition sql_unquote (s : string) : option string :=
  match s with
  | EmptyString => None
  | String c rest => if Ascii.eqb c "'" then sql_unescape rest else None
  end.

(** The literal encoding as the specification words it, by kind of value:
    null (a missing value: [None], NaN, or a scalar that [pd.isna] calls
    missing), structured, boolean, numeric, text, anything else. *)
Definition encode (v : pyval) : string :=
  match v with
  | PyScalar SNone => "NULL"
  | PyScalar (SFloat FNaN) => "NULL"
  | PyScalar (SObject _ NaTrue) => "NULL"
  | PyList _ | PyDict _ => sql_quote (Json.dumps v)
  | PyNdarray tolist _ => sql_quote (Json.dumps (PyList tolist))
  | PyScalar (SBool true) => "TRUE"
  | PyScalar (SBool false) => "FALSE"
  | PyScalar (SInt n) => Py.str_int n
  | PyScalar (SFloat f) => Scalar.str_float f
  | PyScalar (SStr s) => sql_quote s
  | PyScalar (SObject s _) => sql_quote s
  end.

(** The text of one row in a [VALUES] list, and the statement for a batch. *)
Definition row_text (row : list pyval) : string :=
  "(" +:+ Py.join ", " (map encode row) +:+ ")".

Definition insert_stmt (full : string) (df : dataframe)
    (batch : list (list pyval)) : string :=
  insert_sql full df (map row_text batch).

(** The statements [write_with_sql_connector] sets out to execute. *)
Definition ddl_plan (up : uploader) (df : dataframe) (table_name mode : string)
    : list string :=
  let full := full_table_name up table_name in
  (if String.eqb mode "overwrite" then [drop_sql full] else [])
  ++ [create_sql full df].

Definition insert_plan (up : uploader) (df : dataframe) (table_name : string)
    : list string :=
  map (insert_stmt (full_table_name up table_name) df)
      (pieces batch_size (rows df)).

Definition sql_plan (up : uploader) (df : dataframe) (table_name mode : string)
    : list string :=
  ddl_plan up df table_name mode ++ insert_plan up df table_name.

(** [write_with_sql_connector] connects once; without a connection nothing
    is executed, with one the plan is run until its first failure. *)
Definition write_post (up : uploader) (df : dataframe)
    (table_name mode : string) (t : history) (r : result unit) : Prop :=
  exists c,
    connects t = [c] /\
    match c with
    | Some e => r = Raise e /\ sql_events t = []
    | None => run_of (sql_plan up df table_name mode) (sql_events t) r
    end.

(** Kinds of events. *)
Definition dbfs_event (ev : event) : Prop :=
  match ev with EvHttp _ _ _ | EvLog _ _ _ => True | _ => False end.

Definition cursor_event (ev : event) : Prop :=
  match ev with EvExecute _ _ | EvLog _ _ _ => True | _ => False end.

(** [emits P m]: every event [m] appends satisfies [P]. *)
Definition emits {A} (P : event -> Prop) (m : M A) : Prop :=
  forall h h' r, m h = Some (h', r) -> exists t, h' = h ++ t /\ Forall P t.

Definition staging_path (table_name : string) : string :=
  "/FileStore/staging/" +:+ table_name +:+ ".parquet".

Definition invalid_mode (mode : string) : exn :=
  Exn ValueError ("Invalid mode: " +:+ mode +:+ ". Use 'overwrite' or 'append'.").

(** What [upload_to_delta_table] executes on its cursor, by mode. *)
Definition delta_session (up : uploader) (table_name mode : string)
    (made : list (string * option exn)) (r : result unit) : Prop :=
  let full := full_table_name up table_name in
  let staged := staging_path table_name in
  if String.eqb mode "overwrite" then
    run_of [drop_sql full; create_parquet_sql sp24 full staged] made r
  else if String.eqb mode "append" then
    exists made1 r1,
      run_of [describe_sql full; insert_parquet_sql full staged] made1 r1 /\
      match r1 with
      | Ok _ => made = made1 /\ r = Ok tt
      | Raise _ =>
          exists reply,
            made = made1 ++ [(create_parquet_sql sp28 full staged, reply)] /\
            r = match reply with None => Ok tt | Some e => Raise e end
      end
  else made = [] /\ r = Raise (invalid_mode mode).

(** [upload_to_delta_table] first stages the file on DBFS, then connects,
    then runs its statements. *)
Definition delta_post (up : uploader) (table_name mode : string)
    (t : history) (r : result unit) : Prop :=
  exists staging session,
    t = staging ++ session /\ Forall dbfs_event staging /\
    ((session = [] /\ exists e, r = Raise e) \/
     (http_bodies staging <> [] /\
      exists e, session = [EvConnect (Some e)] /\ r = Raise e) \/
     (http_bodies staging <> [] /\
      exists body,
        session = EvConnect None :: body ++ [EvClose] /\
        Forall cursor_event body /\
        delta_session up table_name mode (sql_events body) r)).

(** How one extraction outcome enters the report when nothing else goes
    wrong for that table. *)
Definition tally (rep : report) (x : string * result dataframe) : report :=
  match snd x with
  | Ok _ => add_success rep
  | Raise e => add_error rep (fst x) (exn_str e)
  end.

(** An extraction that is followed by an upload: it returned rows. *)
Definition uploadable (x : string * result dataframe) : bool :=
  match snd x with
  | Ok df => negb (Py.len (rows df) =? 0)
  | Raise _ => false
  end.

(** No connection attempt and no statement of the history failed. *)
Definition clean (t : history) : Prop :=
  Forall (fun c => c = None) (connects t) /\
  Forall (fun ev => snd ev = None) (sql_events t).

Definition skip_log : string * string :=
  ("INFO", "   Table is empty, skipping upload.").

(** Events of the SQL session and of the log. *)
Definition session_event (ev : event) : Prop :=
  match ev with
  | EvConnect _ | EvExecute _ _ | EvClose | EvLog _ _ _ => True
  | _ => False
  end.

(** One turn of the loop of [main], for the table [table_name]: the table
    is extracted once; a failed extraction is recorded under its name; an
    empty table is counted as a success without any upload; otherwise the
    sanitized DataFrame is written in overwrite mode and the outcome of
    that write is recorded.  The turn itself never raises. *)
Definition item_post (up : uploader) (table_name : string) (rep : report)
    (t : history) (r : result report) : Prop :=
  exists reply,
    extracts t = [(table_name, reply)] /\
    http_bodies t = [] /\
    match reply with
    | Raise e =>
        connects t = [] /\ sql_events t = [] /\
        r = Ok (add_error rep table_name (exn_str e))
    | Ok df =>
        if Py.len (rows df) =? 0 then
          connects t = [] /\ sql_events t = [] /\ skip_log ∈ logs t /\
          r = Ok (add_success rep)
        else
          exists rw,
            write_post up (sanitize_columns df) table_name "overwrite" t rw /\
            r = Ok (match rw with
                    | Ok _ => add_success rep
                    | Raise e => add_error rep table_name (exn_str e)
                    end)
    end.

(** The turns of the loop, one after the other. *)
Fixpoint items_post (up : uploader) (tables : list string) (rep : report)
    (t : history) (rep' : report) : Prop :=
  match tables with
  | [] => t = [] /\ rep' = rep
  | table_name :: rest =>
      exists t1 t2 rep1,
        t = t1 ++ t2 /\
        item_post up table_name rep t1 (Ok rep1) /\
        items_post up rest rep1 t2 rep'
  end.

(** Names over [[a-zA-Z0-9_]], and their first and last characters. *)
Fixpoint all_word (s : string) : bool :=
  match s with
  | EmptyString => true
  | String c rest => is_word c && all_word rest
  end.

Definition first_char (s : string) : option ascii :=
  match s with
  | EmptyString => None
  | String c _ => Some c
  end.

Fixpoint last_char (s : string) : option ascii :=
  match s with
  | EmptyString => None
  | String c EmptyString => Some c
  | String _ rest => last_char rest
  end.

(** ** Sample inputs and environments *)

Module Sample.

Definition up : uploader :=
  {| host := "https://dbx"; token := "tok"; http_path := "/sql/1";
     catalog := "hive_metastore"; schema := "default" |}.

Definition cfg : DatabricksConfig :=
  {| HOST := Some "https://dbx/"; TOKEN := Some "tok";
     HTTP_PATH := Some "/sql/1"; CATALOG := "hive_metastore";
     SCHEMA := "default" |}.

Definition payload : list byte :=
  ["h"%byte; "e"%byte; "l"%byte; "l"%byte; "o"%byte].

Definition big_payload : list byte :=
  replicate (Z.to_nat 1048577) "0"%byte.

Definition row (n : Z) : list pyval :=
  [PyScalar (SInt n); PyScalar (SStr "it's")].

Definition df : dataframe :=
  {| columns := ["id"; "note"]; dtypes := ["int64"; "object"];
     rows := [row 1; row 2] |}.

Definition empty_df : dataframe :=
  {| columns := ["id"; "note"]; dtypes := ["int64"; "object"]; rows := [] |}.

Definition ok : response :=
  {| status_code := 200; reason := "OK"; json_handle := Some 7 |}.

Definition status (code : Z) (why : string) : http_reply :=
  HttpReturn {| status_code := code; reason := why; json_handle := None |}.

Definition unreachable : exn :=
  Exn (OtherException "ConnectionError") "connection reset".

(** Everything succeeds; the payload is [payload]. *)
Definition env_ok : env :=
  {| http_post := fun _ _ _ => HttpReturn ok;
     sql_connect := fun _ => None;
     sql_execute := fun _ _ => None;
     bq_extractor := fun _ => Ok "sales";
     bq_list_tables := fun _ => Ok ["A"; "B"; "C"];
     bq_extract_table := fun _ _ => Ok df;
     to_parquet := fun _ => Ok payload;
     to_csv_utf8 := fun _ => Ok payload |}.

(** As [env_ok], with a payload of 1,048,577 bytes. *)
Definition env_big : env :=
  {| http_post := http_post env_ok;
     sql_connect := sql_connect env_ok;
     sql_execute := sql_execute env_ok;
     bq_extractor := bq_extractor env_ok;
     bq_list_tables := bq_list_tables env_ok;
     bq_extract_table := bq_extract_table env_ok;
     to_parquet := fun _ => Ok big_payload;
     to_csv_utf8 := fun _ => Ok big_payload |}.

(** The DBFS service refuses [create]. *)
Definition env_open_denied : env :=
  {| http_post := fun _ _ _ => status 403 "Forbidden";
     sql_connect := sql_connect env_ok;
     sql_execute := sql_execute env_ok;
     bq_extractor := bq_extractor env_ok;
     bq_list_tables := bq_list_tables env_ok;
     bq_extract_table := bq_extract_table env_ok;
     to_parquet := to_parquet env_ok;
     to_csv_utf8 := to_csv_utf8 env_ok |}.

(** [create] succeeds, every [add-block] is answered 500, and the
    [close] request is answered [on_close]. *)
Definition env_block_fails (on_close : http_reply) : env :=
  {| http_post := fun _ _ body =>
       match body with
       | BodyAddBlock _ _ => status 500 "Internal Server Error"
       | BodyClose _ => on_close
       | _ => HttpReturn ok
       end;
     sql_connect := sql_connect env_ok;
     sql_execute := sql_execute env_ok;
     bq_extractor := bq_extractor env_ok;
     bq_list_tables := bq_list_tables env_ok;
     bq_extract_table := bq_extract_table env_ok;
     to_parquet := to_parquet env_ok;
     to_csv_utf8 := to_csv_utf8 env_ok |}.


Definition not_found : exn :=
  Exn (OtherException "NotFound") "404 Not found: Table sales.B".

(** Tables A, B, C; the extraction of B raises. *)
Definition env_abc : env :=
  {| http_post := http_post env_ok;
     sql_connect := sql_connect env_ok;
     sql_execute := sql_execute env_ok;
     bq_extractor := bq_extractor env_ok;
     bq_list_tables := bq_list_tables env_ok;
     bq_extract_table := fun _ table_name =>
       if String.eqb table_name "B" then Raise not_found else Ok df;
     to_parquet := to_parquet env_ok;
     to_csv_utf8 := to_csv_utf8 env_ok |}.

Definition rejected : exn :=
  Exn (OtherException "ServerOperationError") "statement rejected".

(** The warehouse rejects the INSERT that follows a successful INSERT. *)
Definition env_second_insert_fails : env :=
  {| http_post := http_post env_ok;
     sql_connect := sql_connect env_ok;
     sql_execute := fun h stmt =>
       if is_insert stmt
          && existsb (fun ev => is_insert (fst ev)) (sql_events h)
       then Some rejected else None;
     bq_extractor := bq_extractor env_ok;
     bq_list_tables := bq_list_tables env_ok;
     bq_extract_table := bq_extract_table env_ok;
     to_parquet := to_parquet env_ok;
     to_csv_utf8 := to_csv_utf8 env_ok |}.

(** A table of 2500 rows. *)
Definition df_2500 : dataframe :=
  {| columns := ["id"; "note"]; dtypes := ["int64"; "object"];
     rows := map row (seqZ 1 2500) |}.

(** Columns whose sanitized names collide with a suffixed name. *)
Definition df_collision : dataframe :=
  {| columns := ["a b"; "a_b"; "a_b_1"];
     dtypes := ["int64"; "int64"; "int64"];
     rows := [[PyScalar (SInt 1); PyScalar (SInt 2); PyScalar (SInt 3)]] |}.

End Sample.

(** * Further vocabulary

    Definitions used by the properties of the code beyond the sentences of
    the specification. *)

(** ** Column names, continued *)

Definition is_digit (c : ascii) : bool :=
  let n := N_of_ascii c in ((48 <=? n) && (n <=? 57))%N.

Fixpoint all_digit (s : string) : bool :=
  match s with
  | EmptyString => true
  | String c rest => is_digit c && all_digit rest
  end.

(** How often the name [col] occurs in [cols]. *)
Fixpoint occurrences (col : string) (cols : list string) : nat :=
  match cols with
  | [] => 0
  | c :: rest => (if String.eqb c col then 1 else 0) + occurrences col rest
  end.

(** The name a column gets when [k] columns of that name came before it. *)
Definition renamed (col : string) (k : nat) : string :=
  match k with
  | O => col
  | S _ => col +:+ "_" +:+ Py.str_int (Z.of_nat k)
  end.

(** The renaming loop of [main] from a given dict [seen], as a recursion on
    the remaining columns. *)
Fixpoint dedup_from (seen : gmap string Z) (cols : list string) : list string :=
  match cols with
  | [] => []
  | col :: rest =>
      match seen !! col with
      | Some n =>
          (col +:+ "_" +:+ Py.str_int (n + 1))
          :: dedup_from (<[col := n + 1]> seen) rest
      | None => col :: dedup_from (<[col := 0]> seen) rest
      end
  end.

(** [seen] after the columns [pre]: a name that occurred [k + 1] times is
    mapped to [k]. *)
Definition seen_counts (seen : gmap string Z) (pre : list string) : Prop :=
  forall col,
    seen !! col = match occurrences col pre with
                  | O => None
                  | S k => Some (Z.of_nat k)
                  end.

(** No name of the list is another name of the list with a numeric suffix. *)
Definition suffix_free (cols : list string) : Prop :=
  forall col (k : nat),
    col ∈ cols -> (1 <= k)%nat ->
    col +:+ "_" +:+ Py.str_int (Z.of_nat k) ∉ cols.

(** ** Sessions *)

Definition is_log (ev : event) : bool :=
  match ev with EvLog _ _ _ => true | _ => false end.

(** The history without its log lines: the calls made to the outside. *)
Definition calls (t : history) : history :=
  List.filter (fun ev => negb (is_log ev)) t.

Definition statements (made : list (string * option exn)) : history :=
  map (fun x => EvExecute (fst x) (snd x)) made.

(** One attempt to connect; when it succeeds, statements on the cursor and
    then the release of the session, after which nothing else is done. *)
Definition session_calls (t : history) : Prop :=
  (exists e, calls t = [EvConnect (Some e)]) \/
  calls t = EvConnect None :: statements (sql_events t) ++ [EvClose].

(** ** The run over all tables *)

Definition bq_inits (t : history) : list (result string) :=
  omap (fun ev => match ev with
                  | EvBigQueryExtractor r => Some r
                  | _ => None
                  end) t.

Definition listings (t : history) : list (result (list string)) :=
  omap (fun ev => match ev with EvListTables r => Some r | _ => None end) t.

(** Nothing was extracted and Databricks was not contacted. *)
Definition quiet (t : history) : Prop :=
  extracts t = [] /\ connects t = [] /\ sql_events t = [] /\ http_bodies t = [].

(** The lines that close a run over [n] tables with the report [rep]. *)
Definition summary (n : Z) (rep : report) : history :=
  [EvLog "INFO" (Py.times "=" 60) [];
   EvLog "INFO" "PIPELINE COMPLETED in {:.1f}s" [];
   EvLog "INFO" "   Success: {}/{} tables"
     [Py.str_int (success_count rep); Py.str_int n];
   EvLog "INFO" "   Errors:  {}/{} tables"
     [Py.str_int (error_count rep); Py.str_int n]]
  ++ match errors rep with
     | [] => []
     | errs =>
         EvLog "INFO" (nl +:+ "   Failed tables:") []
         :: map (fun x => EvLog "INFO" "     - {}: {}" [fst x; snd x]) errs
     end
  ++ [EvLog "INFO" (Py.times "=" 60) []].

(** The events of the loop over the tables: everything but the start of the
    extractor and the listing of the dataset. *)
Definition loop_event (ev : event) : Prop :=
  match ev with
  | EvBigQueryExtractor _ | EvListTables _ => False
  | _ => True
  end.

(** * bigquery_extract.py and main.py

    These sources also call the file system, the BigQuery client and the
    terminal.  Their history records those calls next to the events of the
    uploader; the uploader keeps its own view of it, and its environment
    answers from the events of the uploader and the log lines. *)

(** [field.name], [field.field_type] and [field.mode] of a schema field;
    also the dict that [get_table_schema] makes of them. *)
Record schema_field := SchemaField {
  field_name : string;
  field_type : string;
  field_mode : string
}.

Inductive call :=
| Uploader (ev : event)
| EvPathExists (path : string) (answer : bool)
| EvCredentials (path : string) (reply : option exn)
| EvClient (project : string) (reply : option exn)
| EvQuery (query : string) (reply : result dataframe)
| EvClientListTables (dataset_ref : string) (reply : result (list string))
| EvGetTable (table_ref : string) (reply : result (list schema_field))
| EvPrint (line : string)
| EvPrintHelp.

Definition trace := list call.

Record bq_env := BqEnv {
  (* os.path.exists(path) *)
  os_path_exists : trace -> string -> bool;
  (* service_account.Credentials.from_service_account_file(path, scopes) *)
  from_service_account_file : trace -> string -> option exn;
  (* bigquery.Client(project, credentials) *)
  bigquery_Client : trace -> string -> option exn;
  (* client.query(query).to_dataframe() *)
  client_query : trace -> string -> result dataframe;
  (* [table.table_id for table in list(client.list_tables(dataset_ref))] *)
  client_list_tables : trace -> string -> result (list string);
  (* client.get_table(table_ref).schema *)
  client_get_table : trace -> string -> result (list schema_field)
}.

(** The monad of the code, over the wider history. *)
Module W.

Definition M (A : Type) : Type := trace -> option (trace * result A).

Definition ret {A} (a : A) : M A := fun h => Some (h, Ok a).

Definition raise {A} (e : exn) : M A := fun h => Some (h, Raise e).

Definition bind {A B} (m : M A) (k : A -> M B) : M B := fun h =>
  match m h with
  | None => None
  | Some (h', Ok a) => k a h'
  | Some (h', Raise e) => Some (h', Raise e)
  end.

(** [try: m except Exception as e: handler] *)
Definition try_except {A} (m : M A) (handler : exn -> M A) : M A := fun h =>
  match m h with
  | None => None
  | Some (h', Ok a) => Some (h', Ok a)
  | Some (h', Raise e) => handler e h'
  end.

Definition emit (c : call) : M unit := fun h => Some (h ++ [c], Ok tt).

Definition log_info (template : string) (args : list string) : M unit :=
  emit (Uploader (EvLog "INFO" template args)).

Definition log_warning (template : string) (args : list string) : M unit :=
  emit (Uploader (EvLog "WARNING" template args)).

Definition log_error (template : string) (args : list string) : M unit :=
  emit (Uploader (EvLog "ERROR" template args)).

Definition print (line : string) : M unit := emit (EvPrint line).

(** [wp m h Q]: from history [h] the computation [m] terminates, having
    appended the calls [t] and produced [r], with [Q t r]. *)
Definition wp {A} (m : M A) (h : trace) (Q : trace -> result A -> Prop)
    : Prop :=
  exists t r, m h = Some (h ++ t, r) /\ Q t r.

End W.

Notation "'run' x <- m ; k" := (W.bind m (fun x => k))
  (at level 10, x name, m at level 100, k at level 200).

(** The uploader's view of the history. *)
Definition uploader_part (h : trace) : history :=
  omap (fun c => match c with Uploader ev => Some ev | _ => None end) h.

(** A computation of the uploader, run from its view of the history; the
    events it appends are appended to the history. *)
Definition of_uploader {A} (m : M A) : W.M A := fun h =>
  let h0 := uploader_part h in
  match m h0 with
  | None => None
  | Some (h', r) => Some (h ++ map Uploader (drop (length h0) h'), r)
  end.

(** [str(v)] for a value that is a [str] or [None]. *)
Definition str_opt (v : option string) : string := default "None" v.

(** [a or b] for values that are a [str] or [None]. *)
Definition py_or (a b : option string) : option string :=
  if unset a then b else a.

(** ** config.py : [BigQueryConfig] *)

Module BigQueryConfig.

Record t := {
  PROJECT_ID : option string;
  CREDENTIALS_PATH : option string;
  DATASET : option string
}.

(** [os.path.exists(path)] *)
Definition path_exists (B : bq_env) (path : string) : W.M bool := fun h =>
  let found := os_path_exists B h path in
  Some (h ++ [EvPathExists path found], Ok found).

Definition validate (B : bq_env) (cfg : t) : W.M unit :=
  let missing :=
    (if unset (PROJECT_ID cfg) then ["BIGQUERY_PROJECT_ID"] else []) ++
    (if unset (CREDENTIALS_PATH cfg) then ["BIGQUERY_CREDENTIALS_PATH"] else [])
  in
  match missing with
  | [] =>
      let path := str_opt (CREDENTIALS_PATH cfg) in
      run found <- path_exists B path;
      if found then W.ret tt
      else W.raise (Exn (OtherException "FileNotFoundError")
                      ("BigQuery credentials file not found: " +:+ path))
  | _ =>
      W.raise (Exn ValueError
                 ("Missing BigQuery config: " +:+ Py.join ", " missing
                  +:+ ". Please check your .env file."))
  end.

End BigQueryConfig.

(** ** bigquery_extract.py : [BigQueryExtractor] *)

Module Extractor.

Record extractor := {
  project_id : string;
  dataset : option string
}.

Section Methods.

Context (B : bq_env).

Definition credentials (path : string) : W.M unit := fun h =>
  let reply := from_service_account_file B h path in
  Some (h ++ [EvCredentials path reply],
        match reply with None => Ok tt | Some e => Raise e end).

Definition client (project : string) : W.M unit := fun h =>
  let reply := bigquery_Client B h project in
  Some (h ++ [EvClient project reply],
        match reply with None => Ok tt | Some e => Raise e end).

(** [self.client.query(query).to_dataframe()] *)
Definition query_to_dataframe (query : string) : W.M dataframe := fun h =>
  let reply := client_query B h query in
  Some (h ++ [EvQuery query reply], reply).

Definition table_ids (dataset_ref : string) : W.M (list string) := fun h =>
  let reply := client_list_tables B h dataset_ref in
  Some (h ++ [EvClientListTables dataset_ref reply], reply).

Definition get_table (table_ref : string) : W.M (list schema_field) := fun h =>
  let reply := client_get_table B h table_ref in
  Some (h ++ [EvGetTable table_ref reply], reply).

(** [BigQueryExtractor()] *)
Definition init (cfg : BigQueryConfig.t) : W.M extractor :=
  run _ <- BigQueryConfig.validate B cfg;
  run _ <- credentials (str_opt (BigQueryConfig.CREDENTIALS_PATH cfg));
  run _ <- client (str_opt (BigQueryConfig.PROJECT_ID cfg));
  let self := {| project_id := str_opt (BigQueryConfig.PROJECT_ID cfg);
                 dataset := BigQueryConfig.DATASET cfg |} in
  run _ <- W.log_info "BigQuery client initialized for project: {}"
             [project_id self];
  W.ret self.

Definition extract_by_query (self : extractor) (query : string)
    : W.M dataframe :=
  run _ <- W.log_info ("Executing query:" +:+ nl +:+ "{}") [query];
  W.try_except
    (run df <- query_to_dataframe query;
     run _ <- W.log_info "Query completed. Rows returned: {}"
                [Py.str_int (Py.len (rows df))];
     W.ret df)
    (fun e =>
       run _ <- W.log_error "BigQuery query failed: {}" [exn_str e];
       W.raise e).

Definition extract_table (self : extractor) (table_name : string)
    (limit : option Z) : W.M dataframe :=
  let full_table :=
    if negb (Py.contains "." table_name) then
      "`" +:+ project_id self +:+ "." +:+ str_opt (dataset self) +:+ "."
      +:+ table_name +:+ "`"
    else "`" +:+ project_id self +:+ "." +:+ table_name +:+ "`" in
  let query := "SELECT * FROM " +:+ full_table in
  let query :=
    match limit with
    | Some n => if n =? 0 then query else query +:+ " LIMIT " +:+ Py.str_int n
    | None => query
    end in
  extract_by_query self query.

Definition list_tables (self : extractor) (dataset_arg : option string)
    : W.M (list string) :=
  let dataset := py_or dataset_arg (dataset self) in
  if unset dataset then
    W.raise (Exn ValueError "No dataset specified. Set BIGQUERY_DATASET in .env")
  else
    let dataset_ref := project_id self +:+ "." +:+ str_opt dataset in
    run table_names <- table_ids dataset_ref;
    run _ <- W.log_info "Found {} tables in {}"
               [Py.str_int (Py.len table_names); dataset_ref];
    W.ret table_names.

Definition get_table_schema (self : extractor) (table_name : string)
    (dataset_arg : option string) : W.M (list schema_field) :=
  let dataset := py_or dataset_arg (dataset self) in
  let table_ref :=
    project_id self +:+ "." +:+ str_opt dataset +:+ "." +:+ table_name in
  run schema <- get_table table_ref;
  run _ <- W.log_info "Schema for {}: {} columns"
             [table_ref; Py.str_int (Py.len schema)];
  W.ret schema.

End Methods.

End Extractor.

(** ** main.py *)

Module Pipeline.

(** The namespace that [parser.parse_args()] returns. *)
Record Args := {
  query : option string;
  table : option string;
  method : string;
  target : option string;
  mode : string;
  format : option string;
  limit : option Z;
  list_tables_flag : bool          (* args.list_tables *)
}.

(** How a function of [main.py] is left: it returns, or [sys.exit(code)]. *)
Inductive outcome := Returned | SysExit (code : Z).

Section Commands.

Context (E : env) (B : bq_env).
Context (bq_cfg : BigQueryConfig.t) (dbx_cfg : DatabricksConfig).

(** The "Done" lines of [run_pipeline]. *)
Definition completed (args : Args) (df : dataframe) : W.M outcome :=
  run _ <- W.log_info (Py.times "=" 60) [];
  run _ <- W.log_info "PIPELINE COMPLETED in {:.1f}s" [];
  run _ <- W.log_info "   Rows transferred: {}" [Py.str_int (Py.len (rows df))];
  run _ <- W.log_info "   Method: {}" [method args];
  run _ <- W.log_info (Py.times "=" 60) [];
  W.ret Returned.

(** [run_pipeline] once [df] has been extracted: the lines that describe
    it, step 2 and the "Done" lines. *)
Definition upload (args : Args) (df : dataframe) : W.M outcome :=
  run _ <- W.log_info "   Extracted {} rows, {} columns"
             [Py.str_int (Py.len (rows df)); Py.str_int (Py.len (columns df))];
  run _ <- W.log_info "   Columns: {}" (columns df);
  run _ <- W.log_info "   Memory usage: {:.2f} MB" [];
  run _ <- W.log_info "Step 2: Uploading data to Databricks..." [];
  run uploader <- of_uploader (DatabricksUploader_init dbx_cfg);
  let method := method args in
  let target :=
    str_opt (py_or (py_or (target args) (table args)) (Some "bigquery_data")) in
  let write_mode := mode args in
  if String.eqb method "dbfs" then
    let file_format := str_opt (py_or (format args) (Some "parquet")) in
    let dbfs_path :=
      "/FileStore/bigquery_data/" +:+ target +:+ "." +:+ file_format in
    run _ <- of_uploader (upload_to_dbfs E uploader df dbfs_path file_format);
    run _ <- W.log_info "   File uploaded to: dbfs:{}" [dbfs_path];
    completed args df
  else if String.eqb method "delta" then
    run _ <- of_uploader (upload_to_delta_table E uploader df target write_mode);
    completed args df
  else if String.eqb method "sql_insert" then
    run _ <- (if 50000 <? Py.len (rows df) then
                W.log_warning
                  ("DataFrame has {} rows. sql_insert is slow for large "
                   +:+ "datasets. Consider using 'delta' method.")
                  [Py.str_int (Py.len (rows df))]
              else W.ret tt);
    run _ <- of_uploader
               (write_with_sql_connector E uploader df target write_mode);
    completed args df
  else
    run _ <- W.log_error
               "Unknown method: {}. Use 'dbfs', 'delta', or 'sql_insert'."
               [method];
    W.ret (SysExit 1).

Definition run_pipeline (args : Args) : W.M outcome :=
  run _ <- W.log_info (Py.times "=" 60) [];
  run _ <- W.log_info "PIPELINE START: BigQuery -> Databricks" [];
  run _ <- W.log_info (Py.times "=" 60) [];
  run _ <- W.log_info "Step 1: Extracting data from BigQuery..." [];
  run extractor <- Extractor.init B bq_cfg;
  if negb (unset (query args)) then
    run df <- Extractor.extract_by_query B extractor (str_opt (query args));
    upload args df
  else if negb (unset (table args)) then
    run df <- Extractor.extract_table B extractor (str_opt (table args))
                (limit args);
    upload args df
  else
    run _ <- W.log_error "Please provide --query or --table argument." [];
    W.ret (SysExit 1).

(** The [for i, table in enumerate(tables, 1)] loop of [list_tables]. *)
Fixpoint print_tables (i : Z) (tables : list string) : W.M unit :=
  match tables with
  | [] => W.ret tt
  | table :: rest =>
      run _ <- W.print ("  " +:+ Py.str_int i +:+ ". " +:+ table);
      print_tables (i + 1) rest
  end.

Definition list_tables : W.M unit :=
  run extractor <- Extractor.init B bq_cfg;
  run tables <- Extractor.list_tables B extractor None;
  run _ <- W.print (nl +:+ "Tables in BigQuery dataset:");
  run _ <- W.print (Py.times "-" 40);
  run _ <- print_tables 1 tables;
  W.print (nl +:+ "Total: " +:+ Py.str_int (Py.len tables) +:+ " tables").

(** [main], from the namespace that the parser has returned. *)
Definition main (args : Args) : W.M outcome :=
  if list_tables_flag args then
    run _ <- list_tables;
    W.ret Returned
  else if negb (unset (query args)) || negb (unset (table args)) then
    run_pipeline args
  else
    run _ <- W.emit EvPrintHelp;
    W.ret Returned.

End Commands.

End Pipeline.

(** ** Observations on the wider history *)

Definition queries (t : trace) : list (string * result dataframe) :=
  omap (fun c => match c with EvQuery q r => Some (q, r) | _ => None end) t.

(** The query that [extract_table] sends for a table and a limit. *)
Definition table_query (self : Extractor.extractor) (table_name : string)
    (limit : option Z) : string :=
  "SELECT * FROM `" +:+ Extractor.project_id self +:+ "."
  +:+ (if Py.contains "." table_name then table_name
       else str_opt (Extractor.dataset self) +:+ "." +:+ table_name)
  +:+ "`"
  +:+ match limit with
      | Some n => if n =? 0 then "" else " LIMIT " +:+ Py.str_int n
      | None => ""
      end.

(** The lines that [extract_by_query] logs around its query. *)
Definition query_log (query : string) : call :=
  Uploader (EvLog "INFO" ("Executing query:" +:+ nl +:+ "{}") [query]).

Definition query_end (reply : result dataframe) : call :=
  match reply with
  | Ok df =>
      Uploader (EvLog "INFO" "Query completed. Rows returned: {}"
                  [Py.str_int (Py.len (rows df))])
  | Raise e => Uploader (EvLog "ERROR" "BigQuery query failed: {}" [exn_str e])
  end.

(** ** Vocabulary for the command line *)

(** The calls made to Databricks: the events of the uploader that are not
    log lines. *)
Definition databricks_calls (t : trace) : history := calls (uploader_part t).

Definition prints (t : trace) : list string :=
  omap (fun c => match c with EvPrint line => Some line | _ => None end) t.

(** The uploader that [DatabricksUploader()] makes of a configuration. *)
Definition configured (cfg : DatabricksConfig) : uploader :=
  {| host := Py.rstrip "/" (default "" (HOST cfg));
     token := default "" (TOKEN cfg);
     http_path := default "" (HTTP_PATH cfg);
     catalog := CATALOG cfg;
     schema := SCHEMA cfg |}.

(** [args.target or args.table or "bigquery_data"] *)
Definition target_of (args : Pipeline.Args) : string :=
  str_opt (py_or (py_or (Pipeline.target args) (Pipeline.table args))
             (Some "bigquery_data")).

(** The query that [run_pipeline] sends: the one given, else the one for
    the table given, else none. *)
Definition source_query (args : Pipeline.Args) (self : Extractor.extractor)
    : option string :=
  if negb (unset (Pipeline.query args)) then
    Some (str_opt (Pipeline.query args))
  else if negb (unset (Pipeline.table args)) then
    Some (table_query self (str_opt (Pipeline.table args)) (Pipeline.limit args))
  else None.

Definition known_method (method : string) : bool :=
  String.eqb method "dbfs" || String.eqb method "delta"
  || String.eqb method "sql_insert".

(** The path that a DBFS request names, when it names one. *)
Definition body_path (b : dbfs_body) : option string :=
  match b with
  | BodyPut path _ _ | BodyCreate path _ => Some path
  | _ => None
  end.

Definition paths (t : history) : list string := omap body_path (http_bodies t).

(** An event that writes to no other DBFS path than [dest]. *)
Definition writes_to (dest : string) (ev : event) : Prop :=
  match ev with
  | EvHttp _ b _ => body_path b = None \/ body_path b = Some dest
  | _ => True
  end.

(** The DBFS path that a run of [run_pipeline] writes to: the file of the
    method 'dbfs', the staging file of the method 'delta'. *)
Definition destination (args : Pipeline.Args) : string :=
  if String.eqb (Pipeline.method args) "dbfs" then
    "/FileStore/bigquery_data/" +:+ target_of args +:+ "."
    +:+ str_opt (py_or (Pipeline.format args) (Some "parquet"))
  else staging_path (target_of args).

(** What the upload method chosen has done, as events [u] of the uploader
    with outcome [r1]. *)
Definition method_shape (up : uploader) (args : Pipeline.Args) (df : dataframe)
    (u : history) (r1 : result unit) : Prop :=
  if String.eqb (Pipeline.method args) "dbfs" then Forall dbfs_event u
  else if String.eqb (Pipeline.method args) "delta" then
    delta_post up (target_of args) (Pipeline.mode args) u r1
  else
    write_post up df (target_of args) (Pipeline.mode args) u r1 /\
    Forall session_event u.

Definition method_post (up : uploader) (args : Pipeline.Args) (df : dataframe)
    (u : history) (r1 : result unit) : Prop :=
  method_shape up args df u r1 /\ Forall (writes_to (destination args)) u.

(** The second step of [run_pipeline], for the DataFrame [df]: log lines
    [pre], then the uploader is created and the method chosen runs, then
    log lines [post]. *)
Definition upload_post (dbx_cfg : DatabricksConfig) (args : Pipeline.Args)
    (df : dataframe) (u : history) (r : result Pipeline.outcome) : Prop :=
  exists pre,
    Forall (fun ev => is_log ev = true) pre /\
    match validate dbx_cfg with
    | Raise e => u = pre /\ r = Raise e
    | Ok _ =>
        if known_method (Pipeline.method args) then
          exists u1 r1 post,
            u = pre ++ u1 ++ post /\
            Forall (fun ev => is_log ev = true) post /\
            method_post (configured dbx_cfg) args df u1 r1 /\
            r = match r1 with
                | Ok _ => Ok Pipeline.Returned
                | Raise e => Raise e
                end
        else u = pre /\ r = Ok (Pipeline.SysExit 1)
    end.

(** What is known when [BigQueryExtractor()] returns [r], having made the
    calls [t]. *)
Definition init_post (cfg : BigQueryConfig.t) (t : trace)
    (r : result Extractor.extractor) : Prop :=
  let path := str_opt (BigQueryConfig.CREDENTIALS_PATH cfg) in
  let project := str_opt (BigQueryConfig.PROJECT_ID cfg) in
  match r with
  | Ok self =>
      unset (BigQueryConfig.PROJECT_ID cfg) = false /\
      unset (BigQueryConfig.CREDENTIALS_PATH cfg) = false /\
      self = {| Extractor.project_id := project;
                Extractor.dataset := BigQueryConfig.DATASET cfg |} /\
      t = [EvPathExists path true; EvCredentials path None;
           EvClient project None;
           Uploader (EvLog "INFO"
                       "BigQuery client initialized for project: {}"
                       [project])]
  | Raise e =>
      (t = [] /\ exn_type e = ValueError /\
       (unset (BigQueryConfig.PROJECT_ID cfg) = true \/
        unset (BigQueryConfig.CREDENTIALS_PATH cfg) = true)) \/
      (unset (BigQueryConfig.PROJECT_ID cfg) = false /\
       unset (BigQueryConfig.CREDENTIALS_PATH cfg) = false /\
       ((t = [EvPathExists path false] /\
         exn_type e = OtherException "FileNotFoundError") \/
        t = [EvPathExists path true; EvCredentials path (Some e)] \/
        t = [EvPathExists path true; EvCredentials path None;
             EvClient project (Some e)]))
  end.

(** The four lines that open [run_pipeline]. *)
Definition pipeline_start : trace :=
  [Uploader (EvLog "INFO" (Py.times "=" 60) []);
   Uploader (EvLog "INFO" "PIPELINE START: BigQuery -> Databricks" []);
   Uploader (EvLog "INFO" (Py.times "=" 60) []);
   Uploader (EvLog "INFO" "Step 1: Extracting data from BigQuery..." [])].

(** A run of [run_pipeline]: the extractor is created; then the source is
    queried once, or the run ends with status 1 when there is none; then,
    when the query has returned a DataFrame, the upload step. *)
Definition pipeline_post (bq_cfg : BigQueryConfig.t)
    (dbx_cfg : DatabricksConfig) (args : Pipeline.Args)
    (t : trace) (r : result Pipeline.outcome) : Prop :=
  exists t_init r_init rest,
    init_post bq_cfg t_init r_init /\
    t = pipeline_start ++ t_init ++ rest /\
    match r_init with
    | Raise e => rest = [] /\ r = Raise e
    | Ok self =>
        match source_query args self with
        | None =>
            rest = [Uploader (EvLog "ERROR"
                                "Please provide --query or --table argument."
                                [])] /\
            r = Ok (Pipeline.SysExit 1)
        | Some q =>
            exists reply t_up,
              rest = [query_log q; EvQuery q reply; query_end reply] ++ t_up /\
              match reply with
              | Raise e => t_up = [] /\ r = Raise e
              | Ok df =>
                  exists u, t_up = map Uploader u /\
                            upload_post dbx_cfg args df u r
              end
        end
    end.

(** The extractor that [BigQueryExtractor()] makes of a configuration. *)
Definition extractor_of (cfg : BigQueryConfig.t) : Extractor.extractor :=
  {| Extractor.project_id := str_opt (BigQueryConfig.PROJECT_ID cfg);
     Extractor.dataset := BigQueryConfig.DATASET cfg |}.

(** Only log lines. *)
Definition only_logs (u : history) : Prop :=
  Forall (fun ev => is_log ev = true) u.

Definition listed (t : trace) : list (string * result (list string)) :=
  omap (fun c => match c with
                 | EvClientListTables ref r => Some (ref, r)
                 | _ => None
                 end) t.


(** ** A sample command line *)

Module SampleCli.

Definition bq : bq_env :=
  {| os_path_exists := fun _ _ => true;
     from_service_account_file := fun _ _ => None;
     bigquery_Client := fun _ _ => None;
     client_query := fun _ _ => Ok Sample.df;
     client_list_tables := fun _ _ => Ok ["orders"; "users"];
     client_get_table := fun _ _ => Ok [] |}.

Definition bq_cfg : BigQueryConfig.t :=
  {| BigQueryConfig.PROJECT_ID := Some "proj";
     BigQueryConfig.CREDENTIALS_PATH := Some "key.json";
     BigQueryConfig.DATASET := Some "sales" |}.

(** [python main.py --table orders --method sql_insert --limit 10] *)
Definition args : Pipeline.Args :=
  {| Pipeline.query := None;
     Pipeline.table := Some "orders";
     Pipeline.method := "sql_insert";
     Pipeline.target := None;
     Pipeline.mode := "overwrite";
     Pipeline.format := Some "parquet";
     Pipeline.limit := Some 10;
     Pipeline.list_tables_flag := false |}.

(** [python main.py --list-tables] *)
Definition args_list : Pipeline.Args :=
  {| Pipeline.query := None;
     Pipeline.table := None;
     Pipeline.method := "dbfs";
     Pipeline.target := None;
     Pipeline.mode := "overwrite";
     Pipeline.format := Some "parquet";
     Pipeline.limit := None;
     Pipeline.list_tables_flag := true |}.

End SampleCli.

(** ** Statements as the specification words them *)

(** One multi-row INSERT: the table, the column names between backquotes,
    and one tuple of encoded values per row of the batch. *)
Definition multi_row_insert (full : string) (cols : list string)
    (batch : list (list pyval)) : string :=
  "INSERT INTO " +:+ full
  +:+ " (" +:+ Py.join ", " (map (fun c => "`" +:+ c +:+ "`") cols)
  +:+ ") VALUES "
  +:+ Py.join ", "
        (map (fun row => "(" +:+ Py.join ", " (map encode row) +:+ ")") batch).

(** White space before a statement, and the keyword it starts with. *)
Definition is_blank (c : ascii) : bool :=
  Ascii.eqb c " " || Ascii.eqb c (ascii_of_nat 10) || Ascii.eqb c (ascii_of_nat 9)
  || Ascii.eqb c (ascii_of_nat 13).

Fixpoint skip_blank (s : string) : string :=
  match s with
  | EmptyString => ""
  | String c rest => if is_blank c then skip_blank rest else s
  end.

Fixpoint first_word (s : string) : string :=
  match s with
  | EmptyString => ""
  | String c rest => if is_blank c then "" else String c (first_word rest)
  end.

Definition sql_verb (stmt : string) : string := first_word (skip_blank stmt).

(** ** Sample warehouses for the append mode *)

Module SampleDelta.

Definition no_such_table : exn :=
  Exn (OtherException "ServerOperationError") "TABLE_OR_VIEW_NOT_FOUND".

(** The table does not exist: DESCRIBE is refused. *)
Definition env_no_table : env :=
  {| http_post := http_post Sample.env_ok;
     sql_connect := sql_connect Sample.env_ok;
     sql_execute := fun _ stmt =>
       if String.prefix "DESCRIBE" stmt then Some no_such_table else None;
     bq_extractor := bq_extractor Sample.env_ok;
     bq_list_tables := bq_list_tables Sample.env_ok;
     bq_extract_table := bq_extract_table Sample.env_ok;
     to_parquet := to_parquet Sample.env_ok;
     to_csv_utf8 := to_csv_utf8 Sample.env_ok |}.

(** The table exists and the INSERT is refused. *)
Definition env_insert_refused : env :=
  {| http_post := http_post Sample.env_ok;
     sql_connect := sql_connect Sample.env_ok;
     sql_execute := fun _ stmt =>
       if Py.contains "INSERT INTO" stmt then Some Sample.rejected else None;
     bq_extractor := bq_extractor Sample.env_ok;
     bq_list_tables := bq_list_tables Sample.env_ok;
     bq_extract_table := bq_extract_table Sample.env_ok;
     to_parquet := to_parquet Sample.env_ok;
     to_csv_utf8 := to_csv_utf8 Sample.env_ok |}.

End SampleDelta.

(** * Properties *)

(** ** Rules for [wp] *)

Section WpRules.

Context {A B : Type}.

Lemma wp_ret (a : A) h (Q : history -> result A -> Prop) :
  Q [] (Ok a) -> wp (ret a) h Q.
Proof. intros HQ. exists [], (Ok a). by rewrite app_nil_r. Qed.

Lemma wp_raise (e : exn) h (Q : history -> result A -> Prop) :
  Q [] (Raise e) -> wp (raise e) h Q.
Proof. intros HQ. exists [], (Raise e). by rewrite app_nil_r. Qed.

Lemma wp_lift (r : result A) h (Q : history -> result A -> Prop) :
  Q [] r -> wp (lift r) h Q.
Proof. intros HQ. exists [], r. by rewrite app_nil_r. Qed.

Lemma wp_mono (m : M A) h (Q Q' : history -> result A -> Prop) :
  wp m h Q -> (forall t r, Q t r -> Q' t r) -> wp m h Q'.
Proof. intros (t & r & Hm & HQ) Himp. exists t, r. auto. Qed.

Lemma wp_bind (m : M A) (k : A -> M B) h (Q : history -> result B -> Prop) :
  wp m h (fun t r =>
    match r with
    | Ok a => wp (k a) (h ++ t) (fun t' r' => Q (t ++ t') r')
    | Raise e => Q t (Raise e)
    end) ->
  wp (bind m k) h Q.
Proof.
  intros (t & r & Hm & HQ). unfold wp, bind. rewrite Hm.
  destruct r as [a|e].
  - destruct HQ as (t' & r' & Hk & HQ). exists (t ++ t'), r'.
    by rewrite Hk, app_assoc.
  - by exists t, (Raise e).
Qed.

Lemma wp_try_except (m : M A) (handler : exn -> M A) h
    (Q : history -> result A -> Prop) :
  wp m h (fun t r =>
    match r with
    | Ok a => Q t (Ok a)
    | Raise e => wp (handler e) (h ++ t) (fun t' r' => Q (t ++ t') r')
    end) ->
  wp (try_except m handler) h Q.
Proof.
  intros (t & r & Hm & HQ). unfold wp, try_except. rewrite Hm.
  destruct r as [a|e].
  - by exists t, (Ok a).
  - destruct HQ as (t' & r' & Hk & HQ). exists (t ++ t'), r'.
    by rewrite Hk, app_assoc.
Qed.

Lemma wp_inv (m : M A) h (Q : history -> result A -> Prop) t r :
  wp m h Q -> m h = Some (h ++ t, r) -> Q t r.
Proof.
  intros (t' & r' & Hm & HQ) Heq. rewrite Hm in Heq.
  injection Heq as Ht ->. by apply app_inv_head in Ht as ->.
Qed.

End WpRules.

Lemma wp_bind_assoc {A B C} (m : M A) (k : A -> M B) (k' : B -> M C) h
    (Q : history -> result C -> Prop) :
  wp (bind (bind m k) k') h Q -> wp (bind m (fun a => bind (k a) k')) h Q.
Proof.
  unfold wp, bind. destruct (m h) as [[h1 [a|e]]|]; [|done..].
  by destruct (k a h1) as [[h2 [b|e]]|].
Qed.

Lemma wp_emit ev h (Q : history -> result unit -> Prop) :
  Q [ev] (Ok tt) -> wp (emit ev) h Q.
Proof. intros HQ. by exists [ev], (Ok tt). Qed.

Lemma wp_log_info template args h (Q : history -> result unit -> Prop) :
  Q [EvLog "INFO" template args] (Ok tt) -> wp (log_info template args) h Q.
Proof. apply wp_emit. Qed.

Lemma wp_requests_post E url body h (Q : history -> result response -> Prop) :
  Q [EvHttp url body (http_post E h url body)]
    (match http_post E h url body with
     | HttpReturn r => Ok r
     | HttpRaise e => Raise e
     end) ->
  wp (requests_post E url body) h Q.
Proof. intros HQ. eexists _, _. split; [reflexivity | exact HQ]. Qed.

Lemma wp_raise_for_status url r h (Q : history -> result unit -> Prop) :
  Q [] (match status_error url r with Some e => Raise e | None => Ok tt end) ->
  wp (raise_for_status url r) h Q.
Proof.
  intros HQ. unfold raise_for_status.
  destruct (status_error url r); [by apply wp_raise | by apply wp_ret].
Qed.

Lemma wp_cursor_execute E stmt h (Q : history -> result unit -> Prop) :
  Q [EvExecute stmt (sql_execute E h stmt)]
    (match sql_execute E h stmt with None => Ok tt | Some e => Raise e end) ->
  wp (cursor_execute E stmt) h Q.
Proof. intros HQ. eexists _, _. split; [reflexivity | exact HQ]. Qed.

Lemma wp_with_connection {A} E (body : M A) h
    (Q : history -> result A -> Prop) :
  match sql_connect E h with
  | Some e => Q [EvConnect (Some e)] (Raise e)
  | None =>
      wp body (h ++ [EvConnect None])
        (fun t r => Q (EvConnect None :: t ++ [EvClose]) r)
  end ->
  wp (with_connection E body) h Q.
Proof.
  unfold wp, with_connection. destruct (sql_connect E h) as [e|].
  - intros HQ. by exists [EvConnect (Some e)], (Raise e).
  - intros (t & r & -> & HQ). exists (EvConnect None :: t ++ [EvClose]), r.
    split; [|done]. by rewrite <- !app_assoc.
Qed.

(** ** Cutting a list into pieces *)

Section Pieces.

Context {A : Type}.
Implicit Types (l : list A) (size off stop : Z) (fuel : nat).

Lemma len_nonneg l : 0 <= Py.len l.
Proof. unfold Py.len. lia. Qed.

Lemma len_slice l lo hi :
  0 <= lo -> Py.len (Py.slice lo hi l) = Z.max 0 (Z.min (hi - lo) (Py.len l - lo)).
Proof.
  intros Hlo. unfold Py.len, Py.slice. rewrite length_take, length_drop. lia.
Qed.

Lemma ceil_div_step a b : 0 < b -> ceil_div a b = 1 + ceil_div (a - b) b.
Proof.
  intros Hb. unfold ceil_div.
  replace (a + b - 1) with ((a - b + b - 1) + 1 * b) by lia.
  rewrite Z.div_add by lia. lia.
Qed.

Lemma ceil_div_small a b : 0 < b -> - b < a <= 0 -> ceil_div a b = 0.
Proof. intros Hb Ha. unfold ceil_div. apply Z.div_small. lia. Qed.

(** [ceil_div a b] is the least [n] with [a <= n * b]. *)
Lemma ceil_div_spec a b :
  0 < b -> 0 <= a -> (ceil_div a b - 1) * b < a <= ceil_div a b * b.
Proof.
  intros Hb Ha. unfold ceil_div.
  pose proof (Z.div_mod (a + b - 1) b ltac:(lia)) as Hdm.
  pose proof (Z.mod_pos_bound (a + b - 1) b Hb) as Hm.
  nia.
Qed.

Lemma range_from_fuel fuel1 fuel2 off stop size :
  0 < size ->
  stop - off <= Z.of_nat fuel1 -> stop - off <= Z.of_nat fuel2 ->
  Py.range_from fuel1 off stop size = Py.range_from fuel2 off stop size.
Proof.
  intros Hsize. revert fuel2 off.
  induction fuel1 as [|fuel1 IH]; intros [|fuel2] off H1 H2; simpl;
    destruct (off <? stop) eqn:Hlt; try reflexivity; try lia.
  f_equal. apply IH; lia.
Qed.

Lemma range_from_lookup fuel off stop size (i : nat) x :
  Py.range_from fuel off stop size !! i = Some x ->
  x = off + Z.of_nat i * size /\ x < stop.
Proof.
  revert off i. induction fuel as [|fuel IH]; intros off i; simpl; [done|].
  destruct (off <? stop) eqn:Hlt; [|done].
  destruct i as [|i]; simpl.
  - intros [= <-]. lia.
  - intros Hi. apply IH in Hi. lia.
Qed.

Lemma range_from_length fuel off stop size :
  0 < size -> stop - off <= Z.of_nat fuel -> off - stop < size ->
  Z.of_nat (length (Py.range_from fuel off stop size))
  = ceil_div (stop - off) size.
Proof.
  intros Hsize. revert off. induction fuel as [|fuel IH]; intros off Hf Hoff.
  - simpl. rewrite ceil_div_small; lia.
  - simpl. destruct (off <? stop) eqn:Hlt.
    + rewrite (ceil_div_step (stop - off)) by done.
      simpl length. rewrite Nat2Z.inj_succ, IH by lia.
      replace (stop - (off + size)) with (stop - off - size) by lia. lia.
    + simpl. rewrite ceil_div_small; lia.
Qed.

Lemma range_from_concat fuel off size l :
  0 < size -> 0 <= off -> Py.len l - off <= Z.of_nat fuel ->
  concat (map (fun start => Py.slice start (start + size) l)
              (Py.range_from fuel off (Py.len l) size))
  = drop (Z.to_nat off) l.
Proof.
  intros Hsize. revert off. induction fuel as [|fuel IH]; intros off Hoff Hf.
  - simpl. rewrite drop_ge; [done|]. unfold Py.len in Hf. lia.
  - simpl. destruct (off <? Py.len l) eqn:Hlt.
    + simpl. rewrite IH by lia. unfold Py.slice.
      replace (Z.to_nat (off + size))
        with (Z.to_nat off + Z.to_nat (off + size - off))%nat by lia.
      rewrite <- drop_drop. apply take_drop.
    + simpl. rewrite drop_ge; [done|]. unfold Py.len in Hlt. lia.
Qed.

(** The pieces, in order, give the list back. *)
Lemma pieces_concat size l : 0 < size -> concat (pieces size l) = l.
Proof.
  intros Hsize. unfold pieces, Py.range.
  rewrite range_from_concat; [done | done | done |].
  pose proof (len_nonneg l). lia.
Qed.

(** There are [ceil(len / size)] of them. *)
Lemma pieces_length size l :
  0 < size -> Py.len (pieces size l) = ceil_div (Py.len l) size.
Proof.
  intros Hsize. unfold pieces, Py.range, Py.len at 1.
  rewrite length_map, range_from_length; pose proof (len_nonneg l);
    [f_equal; lia | lia..].
Qed.

(** The [i]-th piece is [l[i*size : (i+1)*size]]; it is not empty, and it
    is full unless it is the last one. *)
Lemma pieces_lookup size l (i : nat) c :
  0 < size -> pieces size l !! i = Some c ->
  c = Py.slice (Z.of_nat i * size) (Z.of_nat i * size + size) l /\
  0 < Py.len c <= size /\
  (Z.of_nat i + 1 < Py.len (pieces size l) -> Py.len c = size).
Proof.
  intros Hsize Hi. unfold pieces in *.
  rewrite list_lookup_fmap in Hi.
  destruct (Py.range (Py.len l) size !! i) as [x|] eqn:Hx; [|done].
  injection Hi as <-. pose proof Hx as Hx'.
  apply range_from_lookup in Hx' as [-> Hlt]. simpl in *.
  split; [done|]. rewrite len_slice by lia. split; [lia|].
  unfold Py.len at 1. rewrite length_map. intros Hnext.
  destruct (Py.range (Py.len l) size !! S i) as [y|] eqn:Hy.
  - apply range_from_lookup in Hy as [-> Hy]. lia.
  - apply lookup_ge_None in Hy. lia.
Qed.

End Pieces.

(** ** Plans carried out until the first failure *)

Section RunOf.

Context {C : Type}.
Implicit Types (plan : list C) (made : list (C * option exn)).

Lemma run_of_nil : run_of (@nil C) [] (Ok tt).
Proof. by left. Qed.

Lemma run_of_fail c plan e : run_of (c :: plan) [(c, Some e)] (Raise e).
Proof. right. by exists 0%nat, c, e. Qed.

Lemma run_of_cons c plan made r :
  run_of plan made r -> run_of (c :: plan) ((c, None) :: made) r.
Proof.
  intros [[-> ->] | (k & c' & e & Hk & -> & ->)].
  - by left.
  - right. by exists (S k), c', e.
Qed.

Lemma run_of_app_fail plan1 plan2 made e :
  run_of plan1 made (Raise e) -> run_of (plan1 ++ plan2) made (Raise e).
Proof.
  intros [[? _] | (k & c & e' & Hk & -> & He)]; [done|].
  right. exists k, c, e'. split_and!; [| |done].
  - by apply lookup_app_l_Some.
  - apply lookup_lt_Some in Hk. by rewrite take_app_le by lia.
Qed.

Lemma run_of_app_ok plan1 plan2 made1 made2 r :
  run_of plan1 made1 (Ok tt) -> run_of plan2 made2 r ->
  run_of (plan1 ++ plan2) (made1 ++ made2) r.
Proof.
  revert made1. induction plan1 as [|c plan1 IH]; intros made1 H1 H2.
  - destruct H1 as [[_ ->] | (k & c & e & Hk & _)]; done.
  - destruct H1 as [[_ ->] | (k & c' & e & _ & _ & ?)]; [|done].
    simpl. apply run_of_cons, IH; [by left | done].
Qed.

(** When it succeeds, every call of the plan was made and succeeded. *)
Lemma run_of_Ok plan made :
  run_of plan made (Ok tt) -> made = map (fun c => (c, None)) plan.
Proof. intros [[_ ->] | (k & c & e & _ & _ & ?)]; done. Qed.

End RunOf.

Lemma http_made_app t1 t2 : http_made (t1 ++ t2) = http_made t1 ++ http_made t2.
Proof. apply omap_app. Qed.

Lemma http_bodies_app t1 t2 :
  http_bodies (t1 ++ t2) = http_bodies t1 ++ http_bodies t2.
Proof. apply omap_app. Qed.

Lemma sql_events_app t1 t2 :
  sql_events (t1 ++ t2) = sql_events t1 ++ sql_events t2.
Proof. apply omap_app. Qed.

Lemma connects_app t1 t2 : connects (t1 ++ t2) = connects t1 ++ connects t2.
Proof. apply omap_app. Qed.

Lemma extracts_app t1 t2 : extracts (t1 ++ t2) = extracts t1 ++ extracts t2.
Proof. apply omap_app. Qed.

Lemma logs_app t1 t2 : logs (t1 ++ t2) = logs t1 ++ logs t2.
Proof. apply omap_app. Qed.

(** ** The streaming upload *)

Section Stream.

Context (E : env) (up : uploader) (handle : Z) (file_bytes : list byte).
Context (chunk_size : Z) (Hsize : 0 < chunk_size).

Let block (start : Z) : dbfs_body :=
  BodyAddBlock handle
    (Base64.encode (Py.slice start (start + chunk_size) file_bytes)).

(** In any environment the loop sends the blocks in order until one
    fails. *)
Lemma add_blocks_run fuel offset h :
  Z.max 0 (Py.len file_bytes - offset) < Z.of_nat fuel ->
  wp (add_blocks E fuel up handle file_bytes chunk_size offset) h
    (fun t r =>
       run_of (map block (Py.range_from fuel offset (Py.len file_bytes)
                            chunk_size))
              (http_made t) r).
Proof.
  revert offset h. induction fuel as [|fuel IH]; intros offset h Hfuel; [lia|].
  simpl. destruct (offset <? Py.len file_bytes) eqn:Hlt.
  - apply wp_bind, wp_requests_post.
    destruct (http_post E h _ _) as [resp|e] eqn:Hpost; simpl.
    + apply wp_bind, wp_raise_for_status.
      destruct (status_error _ resp) as [e|] eqn:Hst; simpl.
      * apply run_of_fail.
      * apply wp_bind, wp_log_info.
        eapply wp_mono; [apply IH; lia|].
        intros t r Hrun. simpl. by apply run_of_cons.
    + apply run_of_fail.
  - apply wp_ret. apply run_of_nil.
Qed.

(** When every request succeeds the loop sends all the blocks. *)
Lemma add_blocks_ok fuel offset h :
  http_ok E ->
  Z.max 0 (Py.len file_bytes - offset) < Z.of_nat fuel ->
  wp (add_blocks E fuel up handle file_bytes chunk_size offset) h
    (fun t r =>
       r = Ok tt /\
       http_bodies t
       = map block (Py.range_from fuel offset (Py.len file_bytes) chunk_size)).
Proof.
  intros Hok. revert offset h.
  induction fuel as [|fuel IH]; intros offset h Hfuel; [lia|].
  simpl. destruct (offset <? Py.len file_bytes) eqn:Hlt.
  - apply wp_bind, wp_requests_post.
    destruct (Hok h (host up +:+ "/api/2.0/dbfs/add-block") (block offset))
      as (resp & Hpost & Hst & _).
    subst block. simpl in *. rewrite Hpost.
    apply wp_bind, wp_raise_for_status. rewrite Hst.
    apply wp_bind, wp_log_info.
    eapply wp_mono; [apply IH; lia|].
    intros t r [-> Ht]. simpl. by rewrite Ht.
  - by apply wp_ret.
Qed.

End Stream.

Global Arguments add_blocks : simpl never.
Global Arguments Py.range_from : simpl never.

(** The [except] clause of [_dbfs_stream_upload]: one [close] request,
    whose status is not looked at, then the error again. *)
Lemma wp_cleanup E up handle e h (Q : history -> result unit -> Prop) :
  (forall cleanup,
      Q [EvHttp (url_close up) (BodyClose handle) cleanup]
        (match cleanup with
         | HttpReturn _ => Raise e
         | HttpRaise e2 => Raise e2
         end)) ->
  wp (do _ <- requests_post E (url_close up) (BodyClose handle); raise e) h Q.
Proof.
  intros HQ. apply wp_bind, wp_requests_post.
  specialize (HQ (http_post E h (url_close up) (BodyClose handle))).
  destruct (http_post E h _ _); [|done].
  apply wp_raise. by rewrite app_nil_r.
Qed.

Lemma stream_plan_range handle chunk_size file_bytes :
  0 < chunk_size ->
  map (fun start =>
         BodyAddBlock handle
           (Base64.encode (Py.slice start (start + chunk_size) file_bytes)))
      (Py.range_from (S (length file_bytes)) 0 (Py.len file_bytes) chunk_size)
  ++ [BodyClose handle]
  = stream_plan handle chunk_size file_bytes.
Proof.
  intros Hsize. unfold stream_plan, pieces, Py.range. rewrite map_map.
  do 2 f_equal. apply range_from_fuel; unfold Py.len; lia.
Qed.

(** In any environment: how [_dbfs_stream_upload] ends, and what it has
    sent by then. *)
Lemma stream_upload_run E up dbfs_path file_bytes chunk_size h :
  0 < chunk_size ->
  wp (_dbfs_stream_upload E up dbfs_path file_bytes chunk_size) h
    (stream_post up dbfs_path file_bytes chunk_size).
Proof.
  intros Hsize. unfold _dbfs_stream_upload.
  fold (url_create up). fold (url_close up).
  apply wp_bind, wp_requests_post.
  destruct (http_post E h _ _) as [resp|e] eqn:Hpost; simpl.
  2:{ left. eexists. split; [reflexivity | done]. }
  apply wp_bind, wp_raise_for_status.
  destruct (status_error _ resp) as [e|] eqn:Hst; simpl.
  { left. eexists. split; [reflexivity|]. simpl. by rewrite Hst. }
  destruct (json_handle resp) as [handle|] eqn:Hjson.
  2:{ apply wp_bind, wp_raise. simpl. left. eexists. split; [reflexivity|].
      simpl. by rewrite Hst, Hjson. }
  apply wp_bind, wp_ret. simpl.
  assert (Hopen : open_result (url_create up) (HttpReturn resp) = Ok handle).
  { simpl. by rewrite Hst, Hjson. }
  apply wp_try_except, wp_bind.
  eapply wp_mono;
    [apply (add_blocks_run E up handle file_bytes chunk_size Hsize);
     unfold Py.len; lia|].
  intros t [[]|e] Hblocks; simpl.
  - apply wp_bind, wp_requests_post.
    set (close_reply := http_post E _ (url_close up) (BodyClose handle)).
    assert (Hclose :
      run_of [BodyClose handle]
        [(BodyClose handle, reply_error (url_close up) close_reply)]
        (match reply_error (url_close up) close_reply with
         | Some e => Raise e | None => Ok tt end)).
    { destruct (reply_error _ close_reply); [apply run_of_fail|].
      apply run_of_cons, run_of_nil. }
    pose proof (run_of_app_ok _ _ _ _ _ Hblocks Hclose) as Hrun.
    rewrite stream_plan_range in Hrun by done.
    destruct close_reply as [cresp|ce] eqn:Hcr.
    + apply wp_raise_for_status. simpl in Hrun.
      destruct (status_error _ cresp) as [e|] eqn:Hcst.
      * apply wp_cleanup. intros cleanup.
        destruct Hrun as [[? _] | (k & c & e0 & Hk & Hmade & [= <-])]; [done|].
        destruct cleanup as [cl|e2]; right;
          eexists handle, (HttpReturn resp), _, k, c, e, _;
          (split_and!; [done | reflexivity | done | | done]);
          rewrite http_made_app; simpl; by rewrite Hcst.
      * apply run_of_Ok in Hrun.
        exists handle, (HttpReturn resp), (t ++ [EvHttp (url_close up)
          (BodyClose handle) (HttpReturn cresp)]).
        split_and!; [done | by rewrite !app_nil_r |].
        rewrite http_made_app. simpl. by rewrite Hcst.
    + apply wp_cleanup. intros cleanup. simpl in Hrun.
      destruct Hrun as [[? _] | (k & c & e0 & Hk & Hmade & [= <-])]; [done|].
      destruct cleanup as [cl|e2]; right;
        eexists handle, (HttpReturn resp), _, k, c, ce, _;
        (split_and!; [done | reflexivity | done | | done]);
        by rewrite http_made_app.
  - apply wp_cleanup. intros cleanup.
    apply (run_of_app_fail _ [BodyClose handle]) in Hblocks.
    rewrite stream_plan_range in Hblocks by done.
    destruct Hblocks as [[? _] | (k & c & e0 & Hk & Hmade & [= <-])]; [done|].
    destruct cleanup as [cl|e2]; right;
      eexists handle, (HttpReturn resp), _, k, c, e, _;
      (split_and!; [done | reflexivity | done | done | done]).
Qed.

(** When every request succeeds, [_dbfs_stream_upload] opens, sends every
    chunk and closes. *)
Lemma stream_upload_ok E up dbfs_path file_bytes chunk_size h :
  0 < chunk_size -> http_ok E ->
  wp (_dbfs_stream_upload E up dbfs_path file_bytes chunk_size) h
    (fun t r =>
       r = Ok tt /\
       exists handle,
         http_bodies t
         = BodyCreate dbfs_path true
           :: stream_plan handle chunk_size file_bytes).
Proof.
  intros Hsize Hok. unfold _dbfs_stream_upload.
  apply wp_bind, wp_requests_post.
  destruct (Hok h (host up +:+ "/api/2.0/dbfs/create")
              (BodyCreate dbfs_path true)) as (resp & -> & Hst & Hh).
  destruct (Hh _ _ eq_refl) as [handle Hjson].
  apply wp_bind, wp_raise_for_status. rewrite Hst, Hjson.
  apply wp_bind, wp_ret, wp_try_except, wp_bind.
  eapply wp_mono;
    [apply (add_blocks_ok E up handle file_bytes chunk_size Hsize _ _ _ Hok);
     unfold Py.len; lia|].
  intros t r [-> Ht]. apply wp_bind, wp_requests_post.
  destruct (Hok (((h ++ [EvHttp (host up +:+ "/api/2.0/dbfs/create")
                    (BodyCreate dbfs_path true) (HttpReturn resp)]) ++ [])
                 ++ [] ++ t)
              (host up +:+ "/api/2.0/dbfs/close") (BodyClose handle))
    as (cresp & Hc & Hcst & _).
  rewrite <- !app_assoc in Hc. rewrite <- !app_assoc. simpl in Hc. simpl.
  rewrite Hc. apply wp_raise_for_status. rewrite Hcst.
  split; [done|]. exists handle. simpl. f_equal.
  rewrite http_bodies_app, Ht. simpl. by apply stream_plan_range.
Qed.

(** In any environment [_dbfs_put] makes one request. *)
Lemma dbfs_put_run E up dbfs_path file_bytes h :
  wp (_dbfs_put E up dbfs_path file_bytes) h
    (fun t _ =>
       http_bodies t = [BodyPut dbfs_path (Base64.encode file_bytes) true]).
Proof.
  unfold _dbfs_put. apply wp_bind, wp_requests_post.
  destruct (http_post E h _ _); [|done].
  by apply wp_raise_for_status.
Qed.

(** C1.  A payload of at most 1,048,576 bytes goes out in one [put]
    request, whatever the service answers.  A larger one, when every
    request succeeds, goes out as one [create], one [add-block] per chunk
    and one [close]; the chunks, in order, are the payload, there are
    [ceil(len / 1048576)] of them, none is empty and all but the last are
    full. *)
Theorem upload_requests E up df dbfs_path file_format P h :
  to_bytes E df file_format = Ok P ->
  (Py.len P <= 1048576 ->
   wp (upload_to_dbfs E up df dbfs_path file_format) h
     (fun t _ =>
        http_bodies t = [BodyPut dbfs_path (Base64.encode P) true])) /\
  (1048576 < Py.len P -> http_ok E ->
   wp (upload_to_dbfs E up df dbfs_path file_format) h
     (fun t r =>
        r = Ok tt /\
        exists handle,
          http_bodies t
          = BodyCreate dbfs_path true
            :: map (fun chunk => BodyAddBlock handle (Base64.encode chunk))
                   (pieces 1048576 P)
            ++ [BodyClose handle])) /\
  concat (pieces 1048576 P) = P /\
  Py.len (pieces 1048576 P) = ceil_div (Py.len P) 1048576 /\
  (forall (i : nat) chunk,
      pieces 1048576 P !! i = Some chunk ->
      0 < Py.len chunk <= 1048576 /\
      (Z.of_nat i + 1 < Py.len (pieces 1048576 P) ->
       Py.len chunk = 1048576)).
Proof.
  intros Hbytes. split_and!.
  - intros Hsmall. unfold upload_to_dbfs.
    apply wp_bind, wp_log_info, wp_bind, wp_lift. rewrite Hbytes.
    apply wp_bind, wp_log_info, wp_bind. unfold dbfs_upload.
    change MiB with 1048576.
    destruct (Z.leb_spec (Py.len P) 1048576) as [_|?]; [|lia].
    eapply wp_mono; [apply dbfs_put_run|].
    intros t [[]|e] Ht; [|done]. apply wp_log_info. simpl.
    by rewrite http_bodies_app, Ht.
  - intros Hlarge Hok. unfold upload_to_dbfs.
    apply wp_bind, wp_log_info, wp_bind, wp_lift. rewrite Hbytes.
    apply wp_bind, wp_log_info, wp_bind. unfold dbfs_upload.
    change MiB with 1048576. change (1024 * 1024) with 1048576.
    destruct (Z.leb_spec (Py.len P) 1048576) as [?|_]; [lia|].
    eapply wp_mono; [by apply stream_upload_ok|].
    intros t r [-> [handle Ht]]. apply wp_log_info. split; [done|].
    exists handle. simpl. by rewrite http_bodies_app, Ht, app_nil_r.
  - by apply pieces_concat.
  - by apply pieces_length.
  - intros i chunk Hi.
    by destruct (pieces_lookup 1048576 P i chunk eq_refl Hi) as (_ & ? & ?).
Qed.

Lemma sample_env_ok_http : http_ok Sample.env_ok.
Proof.
  intros h url body. exists Sample.ok. split_and!; [done | done |].
  intros _ _ _. by exists 7.
Qed.

Lemma sample_env_big_http : http_ok Sample.env_big.
Proof. exact sample_env_ok_http. Qed.

Lemma sample_big_payload_len : Py.len Sample.big_payload = 1048577.
Proof. unfold Py.len, Sample.big_payload. rewrite length_replicate. lia. Qed.

Lemma upload_requests_witness :
  wp (upload_to_dbfs Sample.env_ok Sample.up Sample.df "/FileStore/t.parquet"
        "parquet") []
    (fun t _ =>
       http_bodies t
       = [BodyPut "/FileStore/t.parquet" (Base64.encode Sample.payload) true])
  /\
  wp (upload_to_dbfs Sample.env_big Sample.up Sample.df "/FileStore/t.csv"
        "csv") []
    (fun t r =>
       r = Ok tt /\
       exists handle,
         http_bodies t
         = BodyCreate "/FileStore/t.csv" true
           :: map (fun chunk => BodyAddBlock handle (Base64.encode chunk))
                  (pieces 1048576 Sample.big_payload)
           ++ [BodyClose handle]).
Proof.
  split.
  - apply (upload_requests Sample.env_ok Sample.up Sample.df
             "/FileStore/t.parquet" "parquet" Sample.payload [] eq_refl).
    unfold Py.len. simpl. lia.
  - apply (upload_requests Sample.env_big Sample.up Sample.df
             "/FileStore/t.csv" "csv" Sample.big_payload [] eq_refl).
    + rewrite sample_big_payload_len. lia.
    + exact sample_env_big_http.
Defined.

Lemma open_ok_no_error url reply handle :
  open_result url reply = Ok handle -> reply_error url reply = None.
Proof.
  destruct reply as [resp|e]; simpl; [|done]. by destruct (status_error url resp).
Qed.

Lemma first_error_prefix {C} (prefix : list C) c e0
    (rest : list (dbfs_body * option exn)) (f : C -> dbfs_body) :
  first_error (map (fun x => (f x, None)) prefix ++ (c, Some e0) :: rest)
  = Some e0.
Proof. induction prefix as [|x prefix IH]; simpl; done. Qed.

(** C2 (amended).  A streaming upload returns only when [create], every
    [add-block] and [close] succeeded, and then its last request has closed
    the handle: a request that fails is never passed over, the upload
    raises.  One that raises has either failed at [create], with no handle
    and no [close] request, or failed at an [add-block] or at [close]; then
    exactly one further request is made, the cleanup [close] of the handle,
    nothing is logged about it, and when it returns a response, of whatever
    status, the error raised is the original one. *)
Theorem stream_upload_cleanup E up dbfs_path file_bytes chunk_size h :
  0 < chunk_size ->
  wp (_dbfs_stream_upload E up dbfs_path file_bytes chunk_size) h
    (cleanup_post up dbfs_path file_bytes chunk_size).
Proof.
  intros Hsize. eapply wp_mono; [by apply stream_upload_run|].
  intros t r Hpost. split; [exact Hpost|].
  destruct r as [[]|e].
  - destruct Hpost as (handle & reply & body & Hopen & -> & Hmade).
    split_and!.
    + intros c e0. simpl. rewrite Hmade, (open_ok_no_error _ _ _ Hopen).
      intros [[=] | Hin]%elem_of_cons.
      by apply list_elem_of_fmap in Hin as (? & [=] & _).
    + intros _. exists handle. simpl. rewrite Hmade. unfold stream_plan.
      rewrite fmap_app, app_comm_cons. apply last_snoc.
    + done.
  - split_and!; [by eexists | done |].
    intros e' [= <-]. destruct Hpost as [Hopen | Hafter]; [by left|].
    right. destruct Hafter as (handle & reply & body & k & c & e0 & cleanup
                               & Hopen & -> & Hk & Hmade & Hcl).
    exists handle, cleanup,
      (EvHttp (url_create up) (BodyCreate dbfs_path true) reply :: body).
    split; [done|]. intros resp ->. subst e. simpl.
    rewrite http_made_app, Hmade, (open_ok_no_error _ _ _ Hopen).
    rewrite <- app_assoc. simpl. apply first_error_prefix.
Qed.

Lemma stream_upload_cleanup_witness :
  wp (_dbfs_stream_upload (Sample.env_block_fails (Sample.status 404 "Not Found"))
        Sample.up "/FileStore/t.parquet" Sample.payload 2) []
    (cleanup_post Sample.up "/FileStore/t.parquet" Sample.payload 2).
Proof.
  apply (stream_upload_cleanup
           (Sample.env_block_fails (Sample.status 404 "Not Found"))
           Sample.up "/FileStore/t.parquet" Sample.payload 2 []).
  lia.
Defined.

(** C2 as stated fails on two inputs.  When [create] is refused the upload
    fails at open and no [close] request is made at all.  When the cleanup
    [close] cannot reach the service, the caller sees that error and not
    the original one, and nothing is logged. *)
Lemma stream_upload_cleanup_counterexample :
  (exists t e,
      _dbfs_stream_upload Sample.env_open_denied Sample.up "/t" Sample.payload
        2 []
      = Some (t, Raise e) /\
      t = [EvHttp "https://dbx/api/2.0/dbfs/create" (BodyCreate "/t" true)
             (Sample.status 403 "Forbidden")] /\
      e = Exn HTTPError
            "403 Client Error: Forbidden for url: https://dbx/api/2.0/dbfs/create" /\
      filter is_close (http_bodies t) = [] /\
      ~ closed_and_original t e) /\
  (exists t e,
      _dbfs_stream_upload
        (Sample.env_block_fails (HttpRaise Sample.unreachable))
        Sample.up "/t" Sample.payload 2 []
      = Some (t, Raise e) /\
      t = [EvHttp "https://dbx/api/2.0/dbfs/create" (BodyCreate "/t" true)
             (HttpReturn Sample.ok);
           EvHttp "https://dbx/api/2.0/dbfs/add-block" (BodyAddBlock 7 "aGU=")
             (Sample.status 500 "Internal Server Error");
           EvHttp "https://dbx/api/2.0/dbfs/close" (BodyClose 7)
             (HttpRaise Sample.unreachable)] /\
      e = Sample.unreachable /\
      first_error (http_made t)
      = Some (Exn HTTPError
                "500 Server Error: Internal Server Error for url: https://dbx/api/2.0/dbfs/add-block") /\
      logs t = [] /\
      ~ closed_and_original t e).
Proof.
  split; eexists _, _; (split; [vm_compute; reflexivity|]);
    (split; [reflexivity|]); (split; [reflexivity|]).
  - split; [by vm_compute|]. intros [[handle Hlast] _].
    vm_compute in Hlast. discriminate.
  - split; [by vm_compute|]. split; [by vm_compute|]. intros [_ Hfirst].
    vm_compute in Hfirst. discriminate.
Qed.

(** ** Which events a computation appends *)

Section Emits.

Context {A B : Type} (P : event -> Prop).

Lemma emits_ret (a : A) : emits P (ret a).
Proof. intros h h' r [= <- <-]. exists []. by rewrite app_nil_r. Qed.

Lemma emits_raise (e : exn) : emits P (@raise A e).
Proof. intros h h' r [= <- <-]. exists []. by rewrite app_nil_r. Qed.

Lemma emits_lift (r : result A) : emits P (lift r).
Proof. intros h h' r' [= <- <-]. exists []. by rewrite app_nil_r. Qed.

Lemma emits_bind (m : M A) (k : A -> M B) :
  emits P m -> (forall a, emits P (k a)) -> emits P (bind m k).
Proof.
  intros Hm Hk h h' r. unfold bind.
  destruct (m h) as [[h1 [a|e]]|] eqn:Hmh; [| |done].
  - destruct (Hm _ _ _ Hmh) as (t1 & -> & Ht1). intros Hka.
    destruct (Hk _ _ _ _ Hka) as (t2 & -> & Ht2).
    exists (t1 ++ t2). rewrite app_assoc. split; [done|]. by apply Forall_app.
  - intros [= <- <-]. by apply (Hm _ _ _ Hmh).
Qed.

Lemma emits_try_except (m : M A) (handler : exn -> M A) :
  emits P m -> (forall e, emits P (handler e)) -> emits P (try_except m handler).
Proof.
  intros Hm Hk h h' r. unfold try_except.
  destruct (m h) as [[h1 [a|e]]|] eqn:Hmh; [| |done].
  - intros [= <- <-]. by apply (Hm _ _ _ Hmh).
  - destruct (Hm _ _ _ Hmh) as (t1 & -> & Ht1). intros Hka.
    destruct (Hk _ _ _ _ Hka) as (t2 & -> & Ht2).
    exists (t1 ++ t2). rewrite app_assoc. split; [done|]. by apply Forall_app.
Qed.

Lemma wp_emits (m : M A) h (Q : history -> result A -> Prop) :
  wp m h Q -> emits P m -> wp m h (fun t r => Q t r /\ Forall P t).
Proof.
  intros (t & r & Hm & HQ) Hem. exists t, r. split_and!; [done..|].
  destruct (Hem _ _ _ Hm) as (t' & Heq & Ht'). by apply app_inv_head in Heq as ->.
Qed.

End Emits.

Lemma emits_emit (P : event -> Prop) ev : P ev -> emits P (emit ev).
Proof. intros HP h h' r [= <- <-]. exists [ev]. split; [done|]. by constructor. Qed.

Lemma emits_requests_post E url body : emits dbfs_event (requests_post E url body).
Proof.
  intros h h' r [= <- <-]. eexists. split; [done|]. by constructor.
Qed.

Lemma emits_raise_for_status P url r : emits P (raise_for_status url r).
Proof.
  unfold raise_for_status. destruct (status_error url r);
    [apply emits_raise | apply emits_ret].
Qed.

Lemma emits_cursor_execute E stmt : emits cursor_event (cursor_execute E stmt).
Proof.
  intros h h' r [= <- <-]. eexists. split; [done|]. by constructor.
Qed.

Lemma emits_dbfs_put E up dbfs_path file_bytes :
  emits dbfs_event (_dbfs_put E up dbfs_path file_bytes).
Proof.
  apply emits_bind; [apply emits_requests_post|].
  intros r. apply emits_raise_for_status.
Qed.

Lemma emits_add_blocks E fuel up handle file_bytes chunk_size offset :
  emits dbfs_event (add_blocks E fuel up handle file_bytes chunk_size offset).
Proof.
  revert offset. induction fuel as [|fuel IH]; intros offset; [done|].
  unfold add_blocks; fold add_blocks.
  destruct (offset <? Py.len file_bytes); [|apply emits_ret].
  apply emits_bind; [apply emits_requests_post|]. intros r.
  apply emits_bind; [apply emits_raise_for_status|]. intros _.
  apply emits_bind; [by apply emits_emit|]. intros _. apply IH.
Qed.

Lemma emits_stream_upload E up dbfs_path file_bytes chunk_size :
  emits dbfs_event (_dbfs_stream_upload E up dbfs_path file_bytes chunk_size).
Proof.
  apply emits_bind; [apply emits_requests_post|]. intros r.
  apply emits_bind; [apply emits_raise_for_status|]. intros _.
  apply emits_bind.
  { destruct (json_handle r); [apply emits_ret | apply emits_raise]. }
  intros handle. apply emits_try_except.
  - apply emits_bind; [apply emits_add_blocks|]. intros _.
    apply emits_bind; [apply emits_requests_post|]. intros r'.
    apply emits_raise_for_status.
  - intros e. apply emits_bind; [apply emits_requests_post|]. intros _.
    apply emits_raise.
Qed.

Lemma emits_dbfs_upload E up dbfs_path file_bytes :
  emits dbfs_event (dbfs_upload E up dbfs_path file_bytes).
Proof.
  unfold dbfs_upload. destruct (_ <=? _);
    [apply emits_dbfs_put | apply emits_stream_upload].
Qed.

Lemma dbfs_events_no_sql t :
  Forall dbfs_event t -> sql_events t = [] /\ connects t = [].
Proof.
  induction 1 as [|[] t Hev _ [IH1 IH2]]; simpl; done.
Qed.

Lemma cursor_events_no_connect t : Forall cursor_event t -> connects t = [].
Proof. induction 1 as [|[] t Hev _ IH]; simpl; done. Qed.

(** ** SQL literals *)

Lemma sql_literal_encode v : sql_literal v = Ok (encode v).
Proof. by destruct v as [[| [] | | [| |] | | ? []] | | |]. Qed.

Lemma append_cons c s1 s2 : String c s1 +:+ s2 = String c (s1 +:+ s2).
Proof. reflexivity. Qed.

Lemma append_nil s : "" +:+ s = s.
Proof. reflexivity. Qed.

Lemma sql_unescape_escape s :
  sql_unescape (Py.replace_char "'" "''" s +:+ "'") = Some s.
Proof.
  induction s as [|c s IH]; [done|]. simpl.
  destruct (Ascii.eqb_spec c "'") as [->|Hc].
  - rewrite !append_cons, append_nil. simpl. by rewrite IH.
  - rewrite append_cons. simpl. apply Ascii.eqb_neq in Hc as ->. by rewrite IH.
Qed.

Lemma sql_unquote_quote s : sql_unquote (sql_quote s) = Some s.
Proof. apply sql_unescape_escape. Qed.

(** C3.  The SQL literal of a row value: [NULL] for a missing value; the
    JSON text, quotes doubled, in quotes for a list, a dict or an array;
    [TRUE] or [FALSE] for a bool, which is tested before the numbers;
    [str(val)] unquoted for an [int] or a [float]; the text, quotes
    doubled, in quotes for a [str]; [str(val)] escaped like a text for
    anything else.  Structured values never reach the [pd.isna] test, and
    the quoting can be read back. *)
Theorem sql_literal_cases :
  (forall v, sql_literal v = Ok (encode v)) /\
  sql_literal (PyScalar SNone) = Ok "NULL" /\
  (forall items,
      sql_literal (PyList items) = Ok (sql_quote (Json.dumps (PyList items)))) /\
  (forall items,
      sql_literal (PyDict items) = Ok (sql_quote (Json.dumps (PyDict items)))) /\
  (forall items s,
      sql_literal (PyNdarray items s)
      = Ok (sql_quote (Json.dumps (PyList items)))) /\
  (forall b,
      sql_literal (PyScalar (SBool b)) = Ok (if b then "TRUE" else "FALSE")) /\
  (forall n, sql_literal (PyScalar (SInt n)) = Ok (Py.str_int n)) /\
  (forall repr, sql_literal (PyScalar (SFloat (FFinite repr))) = Ok repr) /\
  (forall s, sql_literal (PyScalar (SStr s)) = Ok (sql_quote s)) /\
  (forall s isna,
      sql_literal (PyScalar (SObject s isna))
      = Ok (match isna with NaTrue => "NULL" | _ => sql_quote s end)) /\
  sql_literal (PyScalar (SFloat FNaN)) = Ok "NULL" /\
  sql_literal (PyScalar (SBool true)) = Ok "TRUE" /\
  sql_literal (PyScalar (SStr "a'b")) = Ok "'a''b'" /\
  sql_literal (PyList [PyScalar (SInt 1); PyScalar (SInt 2)]) = Ok "'[1, 2]'" /\
  sql_literal (PyList [PyScalar SNone]) = Ok "'[null]'" /\
  (forall s, sql_unquote (sql_quote s) = Some s).
Proof.
  split_and!; intros; rewrite ?sql_literal_encode;
    try apply sql_unquote_quote; done.
Qed.

Lemma collect_ok {A B} (f : A -> result B) (g : A -> B) l :
  (forall x, f x = Ok (g x)) -> collect f l = Ok (map g l).
Proof.
  intros Hf. induction l as [|x l IH]; [done|]. simpl. by rewrite Hf, IH.
Qed.

Lemma row_values_text row : row_values row = Ok (row_text row).
Proof.
  unfold row_values. by rewrite (collect_ok _ encode) by apply sql_literal_encode.
Qed.

(** ** The SQL writer *)

Section Writer.

Context (E : env) (up : uploader) (df : dataframe) (full : string).

Lemma insert_batches_run starts h :
  wp (insert_batches E full df starts) h
    (fun t r =>
       run_of (map (fun start =>
                      insert_stmt full df
                        (Py.slice start (start + batch_size) (rows df)))
                   starts)
              (sql_events t) r).
Proof.
  revert h. induction starts as [|start starts IH]; intros h; simpl.
  - apply wp_ret, run_of_nil.
  - apply wp_bind, wp_lift.
    rewrite (collect_ok _ row_text) by apply row_values_text.
    apply wp_bind, wp_cursor_execute. fold (insert_stmt full df).
    destruct (sql_execute E _ _) as [e|] eqn:Hex.
    + apply run_of_fail.
    + apply wp_bind, wp_log_info. eapply wp_mono; [apply IH|].
      intros t r Hrun. simpl. by apply run_of_cons.
Qed.

Lemma emits_insert_batches starts :
  emits cursor_event (insert_batches E full df starts).
Proof.
  induction starts as [|start starts IH]; simpl; [apply emits_ret|].
  apply emits_bind; [apply emits_lift|]. intros values_list.
  apply emits_bind; [apply emits_cursor_execute|]. intros _.
  apply emits_bind; [by apply emits_emit|]. intros _. apply IH.
Qed.

End Writer.

Ltac obs :=
  simpl;
  repeat (progress
            (rewrite ?sql_events_app, ?connects_app, ?http_bodies_app,
               ?extracts_app, ?logs_app, ?http_made_app; simpl)).

Lemma pieces_nil {A} size : pieces size (@nil A) = [].
Proof. reflexivity. Qed.

Section WriterRun.

Context (E : env) (up : uploader) (df : dataframe) (table_name mode : string).

Let full := full_table_name up table_name.

Lemma ddl_run h :
  wp (do _ <- (if String.eqb mode "overwrite"
               then cursor_execute E (drop_sql full) else ret tt);
      cursor_execute E (create_sql full df)) h
    (fun t r =>
       run_of (ddl_plan up df table_name mode) (sql_events t) r /\
       Forall cursor_event t).
Proof.
  unfold ddl_plan. fold full. apply wp_emits.
  - destruct (String.eqb mode "overwrite").
    + apply wp_bind, wp_cursor_execute.
      destruct (sql_execute E h _) as [e|]; [apply run_of_fail|].
      apply wp_cursor_execute. simpl. apply run_of_cons.
      destruct (sql_execute E _ _) as [e|]; [apply run_of_fail|].
      apply run_of_cons, run_of_nil.
    + apply wp_bind, wp_ret, wp_cursor_execute. simpl.
      destruct (sql_execute E _ _) as [e|]; [apply run_of_fail|].
      apply run_of_cons, run_of_nil.
  - apply emits_bind; [|intros _; apply emits_cursor_execute].
    destruct (String.eqb mode "overwrite");
      [apply emits_cursor_execute | apply emits_ret].
Qed.

(** In any environment: what [write_with_sql_connector] has executed when
    it returns or raises. *)
Lemma write_run h :
  wp (write_with_sql_connector E up df table_name mode) h
    (write_post up df table_name mode).
Proof.
  unfold write_with_sql_connector, write_post, sql_plan. fold full.
  apply wp_bind, wp_log_info, wp_bind, wp_with_connection.
  destruct (sql_connect E _) as [e|].
  { by exists (Some e). }
  apply (wp_bind_assoc _ (fun _ => cursor_execute E (create_sql full df))).
  apply wp_bind. eapply wp_mono; [apply ddl_run|].
  intros t1 [[]|e] [Hddl Hev1].
  2:{ exists None. obs. rewrite (cursor_events_no_connect t1) by done.
      split; [done|]. rewrite app_nil_r. by apply run_of_app_fail. }
  destruct (Py.len (rows df) =? 0) eqn:Hlen.
  - apply wp_bind, wp_log_info, wp_ret. simpl. apply wp_ret.
    exists None. obs. rewrite (cursor_events_no_connect t1) by done.
    split; [done|]. rewrite !app_nil_r.
    assert (rows df = []) as Hrows.
    { apply Z.eqb_eq in Hlen. unfold Py.len in Hlen.
      destruct (rows df); [done | simpl in Hlen; lia]. }
    unfold insert_plan. rewrite Hrows, pieces_nil. simpl.
    by rewrite app_nil_r.
  - apply wp_bind.
    eapply wp_mono;
      [eapply wp_emits; [apply insert_batches_run | apply emits_insert_batches]|].
    intros t2 r2 [Hins Hev2].
    assert (Hrun : run_of (ddl_plan up df table_name mode
                           ++ insert_plan up df table_name)
                     (sql_events t1 ++ sql_events t2) r2).
    { apply run_of_app_ok; [done|]. unfold insert_plan, pieces.
      by rewrite map_map. }
    destruct r2 as [[]|e].
    + apply wp_ret. simpl. apply wp_log_info.
      exists None. obs.
      rewrite (cursor_events_no_connect t1), (cursor_events_no_connect t2)
        by done.
      split; [done|]. by rewrite !app_nil_r.
    + exists None. obs.
      rewrite (cursor_events_no_connect t1), (cursor_events_no_connect t2)
        by done.
      split; [done|]. by rewrite !app_nil_r.
Qed.

End WriterRun.

(** ** The Delta table writer *)

Lemma dbfs_upload_run E up dbfs_path file_bytes h :
  wp (dbfs_upload E up dbfs_path file_bytes) h
    (fun t r => http_bodies t <> [] /\ Forall dbfs_event t).
Proof.
  apply wp_emits; [|apply emits_dbfs_upload]. unfold dbfs_upload.
  destruct (_ <=? _).
  - eapply wp_mono; [apply dbfs_put_run|]. by intros t r ->.
  - eapply wp_mono; [by apply stream_upload_run|].
    intros t [[]|e] Hpost.
    + by destruct Hpost as (? & ? & ? & _ & -> & _).
    + destruct Hpost as [(? & -> & _) | (? & ? & ? & ? & ? & ? & ? & _ & -> & _)];
        done.
Qed.

Section DeltaRun.

Context (E : env) (up : uploader) (df : dataframe) (table_name mode : string).

Let full := full_table_name up table_name.
Let staged := staging_path table_name.

Lemma delta_cursor_run h :
  wp (if String.eqb mode "overwrite" then
        do _ <- cursor_execute E (drop_sql full);
        do _ <- cursor_execute E (create_parquet_sql sp24 full staged);
        log_info "Table {} created (overwrite mode)" [full]
      else if String.eqb mode "append" then
        try_except
          (do _ <- cursor_execute E (describe_sql full);
           do _ <- cursor_execute E (insert_parquet_sql full staged);
           log_info "Appended data to {}" [full])
          (fun _ =>
             do _ <- cursor_execute E (create_parquet_sql sp28 full staged);
             log_info "Table {} created (new)" [full])
      else raise (invalid_mode mode)) h
    (fun t r =>
       Forall cursor_event t /\
       delta_session up table_name mode (sql_events t) r).
Proof.
  unfold delta_session. fold full staged.
  destruct (String.eqb mode "overwrite"); [|destruct (String.eqb mode "append")].
  - apply wp_bind, wp_cursor_execute.
    destruct (sql_execute E h _) as [e|].
    { split; [by repeat constructor | apply run_of_fail]. }
    apply wp_bind, wp_cursor_execute.
    destruct (sql_execute E _ _) as [e|].
    { split; [by repeat constructor | apply run_of_cons, run_of_fail]. }
    apply wp_log_info.
    split; [by repeat constructor | apply run_of_cons, run_of_cons, run_of_nil].
  - apply wp_try_except, wp_bind, wp_cursor_execute.
    destruct (sql_execute E h _) as [e|].
    { apply wp_bind, wp_cursor_execute.
      destruct (sql_execute E _ _) as [e'|] eqn:Hc;
        [|apply wp_log_info]; (split; [by repeat constructor|]);
        eexists [_], (Raise e); (split; [apply run_of_fail|]);
        eexists; split; [reflexivity | done | reflexivity | done]. }
    apply wp_bind, wp_cursor_execute.
    destruct (sql_execute E _ _) as [e|].
    { apply wp_bind, wp_cursor_execute.
      destruct (sql_execute E _ _) as [e'|] eqn:Hc;
        [|apply wp_log_info]; (split; [by repeat constructor|]);
        eexists [_; _], (Raise e);
        (split; [apply run_of_cons, run_of_fail|]);
        eexists; split; [reflexivity | done | reflexivity | done]. }
    apply wp_log_info. split; [by repeat constructor|].
    eexists [_; _], (Ok tt).
    split; [apply run_of_cons, run_of_cons, run_of_nil | done].
  - apply wp_raise. by split; [constructor|].
Qed.

(** In any environment and for any mode: how [upload_to_delta_table] ends
    and what it has done by then. *)
Lemma delta_run h :
  wp (upload_to_delta_table E up df table_name mode) h
    (delta_post up table_name mode).
Proof.
  unfold upload_to_delta_table, delta_post. fold full. fold (staging_path table_name).
  fold staged. fold (invalid_mode mode).
  apply wp_bind, wp_log_info, wp_bind, wp_lift.
  destruct (to_parquet E df) as [file_bytes|e].
  2:{ exists [EvLog "INFO" "Writing {} rows to Delta Table: {} (mode={})"
                [Py.str_int (Py.len (rows df)); full; mode]], [].
      split_and!; [done | by repeat constructor |]. left. eauto. }
  apply wp_bind, wp_log_info, wp_bind.
  eapply wp_mono; [apply dbfs_upload_run|].
  intros t1 r1 [Hne Hev].
  set (logs2 := [EvLog "INFO" "Writing {} rows to Delta Table: {} (mode={})"
                   [Py.str_int (Py.len (rows df)); full; mode];
                 EvLog "INFO" "Uploading staging file to DBFS..." []]).
  assert (Hst : Forall dbfs_event (logs2 ++ t1)).
  { apply Forall_app. split; [by repeat constructor | done]. }
  assert (Hne' : http_bodies (logs2 ++ t1) <> []).
  { by rewrite http_bodies_app. }
  destruct r1 as [[]|e].
  2:{ exists (logs2 ++ t1), []. split_and!; [by rewrite app_nil_r | done |].
      left. eauto. }
  apply wp_with_connection. destruct (sql_connect E _) as [e|].
  { exists (logs2 ++ t1), [EvConnect (Some e)].
    split_and!; [by rewrite <- !app_assoc | done |]. right. left. eauto. }
  eapply wp_mono; [apply delta_cursor_run|].
  intros t2 r2 [Hev2 Hsession].
  exists (logs2 ++ t1), (EvConnect None :: t2 ++ [EvClose]).
  split_and!; [by rewrite <- !app_assoc | done |]. right. right.
  split; [done|]. by exists t2.
Qed.

End DeltaRun.

Lemma wp_and_if {A} (P : Prop) (m : M A) h
    (Q1 Q2 : history -> result A -> Prop) :
  wp m h Q1 -> (P -> wp m h Q2) -> wp m h (fun t r => Q1 t r /\ (P -> Q2 t r)).
Proof.
  intros (t & r & Hm & HQ1) H2. exists t, r. split_and!; [done..|].
  intros HP. by apply (wp_inv _ _ _ _ _ (H2 HP)).
Qed.

Lemma run_of_head {C} (c : C) plan made r :
  run_of (c :: plan) made r -> exists reply rest, made = (c, reply) :: rest.
Proof.
  intros [[_ ->] | (k & c' & e & Hk & -> & _)]; [by eexists _, _|].
  destruct k as [|k]; simpl in *; [|by eexists _, _].
  injection Hk as <-. by eexists _, _.
Qed.

Lemma run_of_within {C} (plan : list C) made r :
  run_of plan made r -> Forall (fun ev => fst ev ∈ plan) made.
Proof.
  intros [[_ ->] | (k & c & e & Hk & -> & _)].
  - apply Forall_forall. intros ev (c & -> & Hc)%list_elem_of_fmap. done.
  - apply Forall_app. split.
    + apply Forall_forall. intros ev (c' & -> & Hc)%list_elem_of_fmap. simpl.
      apply elem_of_take in Hc as (i & Hi & _).
      by eapply list_elem_of_lookup_2.
    + constructor; [|done]. simpl. by eapply list_elem_of_lookup_2.
Qed.

Lemma insert_batches_ok E full df starts h :
  (forall h stmt, sql_execute E h stmt = None) ->
  wp (insert_batches E full df starts) h (fun _ r => r = Ok tt).
Proof.
  intros Hex. revert h. induction starts as [|start starts IH]; intros h; simpl.
  - by apply wp_ret.
  - apply wp_bind, wp_lift.
    rewrite (collect_ok _ row_text) by apply row_values_text.
    apply wp_bind, wp_cursor_execute. rewrite Hex.
    apply wp_bind, wp_log_info. eapply wp_mono; [apply IH|]. done.
Qed.

(** When the warehouse accepts everything, [write_with_sql_connector]
    returns. *)
Lemma write_ok E up df table_name mode h :
  sql_ok E ->
  wp (write_with_sql_connector E up df table_name mode) h (fun _ r => r = Ok tt).
Proof.
  intros [Hconn Hex]. unfold write_with_sql_connector.
  apply wp_bind, wp_log_info, wp_bind, wp_with_connection. rewrite Hconn.
  apply wp_bind.
  assert (Hdrop : forall h',
    wp (if String.eqb mode "overwrite"
        then cursor_execute E (drop_sql (full_table_name up table_name))
        else ret tt) h' (fun _ r => r = Ok tt)).
  { intros h'. destruct (String.eqb mode "overwrite"); [|by apply wp_ret].
    apply wp_cursor_execute. by rewrite Hex. }
  eapply wp_mono; [apply Hdrop|]. intros t1 r1 ->.
  apply wp_bind, wp_cursor_execute. rewrite Hex.
  destruct (Py.len (rows df) =? 0).
  - apply wp_bind, wp_log_info, wp_ret. simpl. by apply wp_ret.
  - apply wp_bind. eapply wp_mono; [by apply insert_batches_ok|].
    intros t2 r2 ->. apply wp_ret. simpl. by apply wp_log_info.
Qed.

Lemma insert_stmt_text full df batch :
  insert_stmt full df batch = multi_row_insert full (columns df) batch.
Proof. reflexivity. Qed.

(** C4.  [write_with_sql_connector] cuts the rows into batches of 1000, the
    last one possibly smaller, and plans one multi-row INSERT statement per
    batch after the DDL: [INSERT INTO] the table, the column names between
    backquotes, [VALUES] and one tuple of literals per row of the batch.
    The statements are executed in order until the first one that fails:
    those before it succeeded and stay executed, its error is the result,
    and none after it is attempted.  For the two rows of the sample, in
    append mode, the statements executed are the CREATE and one INSERT with
    both rows. *)
Theorem batched_inserts E up df table_name mode h :
  let full := catalog up +:+ "." +:+ schema up +:+ "." +:+ table_name in
  let batches := pieces 1000 (rows df) in
  let plan :=
    (if String.eqb mode "overwrite" then ["DROP TABLE IF EXISTS " +:+ full]
     else [])
    ++ [create_sql full df]
    ++ map (multi_row_insert full (columns df)) batches in
  wp (write_with_sql_connector E up df table_name mode) h
    (fun t r =>
       exists c,
         connects t = [c] /\
         match c with
         | Some e => r = Raise e /\ sql_events t = []
         | None =>
             (r = Ok tt /\ sql_events t = map (fun s => (s, None)) plan) \/
             (exists k stmt e,
                 plan !! k = Some stmt /\
                 sql_events t
                 = map (fun s => (s, None)) (take k plan) ++ [(stmt, Some e)] /\
                 r = Raise e)
         end) /\
  concat batches = rows df /\
  Py.len batches = ceil_div (Py.len (rows df)) 1000 /\
  (forall (i : nat) batch,
      batches !! i = Some batch ->
      0 < Py.len batch <= 1000 /\
      (Z.of_nat i + 1 < Py.len batches -> Py.len batch = 1000)) /\
  (exists t,
      write_with_sql_connector Sample.env_ok Sample.up Sample.df "orders"
        "append" []
      = Some (t, Ok tt) /\
      sql_events t
      = [("CREATE TABLE IF NOT EXISTS hive_metastore.default.orders (`id` BIGINT, `note` STRING)",
          None);
         ("INSERT INTO hive_metastore.default.orders (`id`, `note`) VALUES (1, 'it''s'), (2, 'it''s')",
          None)]).
Proof.
  intros full batches plan. split_and!.
  - eapply wp_mono; [apply write_run|].
    intros t r (c & Hc & Hcase). exists c. split; [done|].
    destruct c as [e|]; [done|]. unfold sql_plan, ddl_plan, insert_plan in Hcase.
    rewrite <- app_assoc in Hcase.
    erewrite (map_ext (insert_stmt _ df)) in Hcase;
      [|intros batch; apply insert_stmt_text].
    exact Hcase.
  - by apply pieces_concat.
  - by apply pieces_length.
  - intros i batch Hi.
    by destruct (pieces_lookup 1000 (rows df) i batch eq_refl Hi) as (_ & ? & ?).
  - eexists. split; [vm_compute; reflexivity|]. by vm_compute.
Qed.

Lemma dbfs_upload_ok E up dbfs_path file_bytes h :
  http_ok E -> wp (dbfs_upload E up dbfs_path file_bytes) h (fun _ r => r = Ok tt).
Proof.
  intros Hok. unfold dbfs_upload. destruct (_ <=? _).
  - unfold _dbfs_put. apply wp_bind, wp_requests_post.
    destruct (Hok h (host up +:+ "/api/2.0/dbfs/put")
                (BodyPut dbfs_path (Base64.encode file_bytes) true))
      as (resp & -> & Hst & _).
    apply wp_raise_for_status. by rewrite Hst.
  - eapply wp_mono; [by apply stream_upload_ok|]. by intros t r [-> _].
Qed.

(** A run that records its own outcome. *)
Lemma wp_run {A} (m : M A) h (Q : history -> result A -> Prop) :
  wp m h Q -> wp m h (fun t r => m h = Some (h ++ t, r) /\ Q t r).
Proof. intros (t & r & Hm & HQ). by exists t, r. Qed.

(** With a serialised file, a DBFS service and a warehouse that accept
    everything, [upload_to_delta_table] returns in overwrite mode. *)
Lemma delta_overwrite_ok E up df table_name h :
  (exists file_bytes, to_parquet E df = Ok file_bytes) -> http_ok E ->
  sql_ok E ->
  wp (upload_to_delta_table E up df table_name "overwrite") h
    (fun _ r => r = Ok tt).
Proof.
  intros [file_bytes Hpq] Hok [Hconn Hex]. unfold upload_to_delta_table.
  apply wp_bind, wp_log_info, wp_bind, wp_lift. rewrite Hpq.
  apply wp_bind, wp_log_info, wp_bind.
  eapply wp_mono; [by apply dbfs_upload_ok|]. intros t r ->.
  apply wp_with_connection. rewrite Hconn. simpl.
  apply wp_bind, wp_cursor_execute. rewrite Hex.
  apply wp_bind, wp_cursor_execute. rewrite Hex.
  by apply wp_log_info.
Qed.

(** C5.  In overwrite mode, either no connection was obtained, no
    statement was executed and the write failed, or the first statement
    executed is [DROP TABLE IF EXISTS catalog.schema.table], so it comes
    before the table is created or written; a write that returns normally
    has executed it, and it does return when the file is serialised and
    the services accept everything.  In append mode every statement
    executed starts, after
    its leading white space, with DESCRIBE, INSERT or CREATE, so none is a
    DROP.  Both hold for [upload_to_delta_table] and for
    [write_with_sql_connector], in any environment. *)
Theorem drop_iff_overwrite E up df table_name h :
  let drop :=
    "DROP TABLE IF EXISTS " +:+ catalog up +:+ "." +:+ schema up +:+ "."
    +:+ table_name in
  let dropped_first (t : history) (r : result unit) :=
    ((connects t <> [None] /\ sql_events t = [] /\ r <> Ok tt) \/
     (connects t = [None] /\
      exists reply rest, sql_events t = (drop, reply) :: rest)) /\
    (r = Ok tt -> exists rest, sql_events t = (drop, None) :: rest) in
  let never_dropped (t : history) (r : result unit) :=
    Forall (fun ev => sql_verb (fst ev) ∈ ["DESCRIBE"; "INSERT"; "CREATE"] /\
                      sql_verb (fst ev) <> "DROP")
      (sql_events t) in
  sql_verb drop = "DROP" /\
  wp (upload_to_delta_table E up df table_name "overwrite") h
    (fun t r =>
       dropped_first t r /\
       ((exists file_bytes, to_parquet E df = Ok file_bytes) /\ http_ok E /\
        sql_ok E -> r = Ok tt)) /\
  wp (write_with_sql_connector E up df table_name "overwrite") h
    (fun t r => dropped_first t r /\ (sql_ok E -> r = Ok tt)) /\
  wp (upload_to_delta_table E up df table_name "append") h never_dropped /\
  wp (write_with_sql_connector E up df table_name "append") h never_dropped.
Proof.
  intros drop dropped_first never_dropped.
  assert (forall stmt,
             sql_verb stmt ∈ ["DESCRIBE"; "INSERT"; "CREATE"] ->
             sql_verb stmt ∈ ["DESCRIBE"; "INSERT"; "CREATE"] /\
             sql_verb stmt <> "DROP") as Hverb.
  { intros stmt Hin. split; [done|]. intros Heq. rewrite Heq in Hin.
    by repeat (apply elem_of_cons in Hin as [[=]|Hin]);
      apply elem_of_nil in Hin. }
  split_and!.
  - done.
  - eapply wp_mono;
      [apply (wp_and_if ((exists file_bytes, to_parquet E df = Ok file_bytes)
                         /\ http_ok E /\ sql_ok E));
       [apply delta_run
       | intros (Hpq & Hok & Hsql); by apply delta_overwrite_ok]|].
    intros t r [(staging & session & -> & Hst & Hcases) Hlive].
    split; [|exact Hlive]. clear Hlive.
    apply dbfs_events_no_sql in Hst as [Hsql Hconn]. unfold dropped_first.
    rewrite sql_events_app, connects_app, Hsql, Hconn. simpl.
    destruct Hcases
      as [[-> [e ->]] | [(_ & e & -> & ->) | (_ & body & -> & Hev & Hs)]].
    + split; [by left | done].
    + split; [by left | done].
    + simpl. rewrite connects_app, sql_events_app. simpl.
      rewrite (cursor_events_no_connect body) by done. rewrite ?app_nil_r.
      simpl. unfold delta_session in Hs. simpl in Hs. split.
      * right. split; [done|]. by eapply run_of_head.
      * intros ->. apply run_of_Ok in Hs. rewrite Hs. by eexists.
  - eapply wp_mono;
      [apply (wp_and_if (sql_ok E)); [apply write_run | apply write_ok]|].
    intros t r [(c & Hc & Hcase) Hlive].
    split; [|exact Hlive]. clear Hlive.
    unfold dropped_first. rewrite Hc.
    destruct c as [e|].
    { destruct Hcase as [-> ->]. split; [by left | done]. }
    unfold sql_plan, ddl_plan in Hcase. simpl in Hcase. split.
    + right. split; [done|]. by eapply run_of_head.
    + intros ->. apply run_of_Ok in Hcase. rewrite Hcase. by eexists.
  - eapply wp_mono; [apply delta_run|].
    intros t r (staging & session & -> & Hst & Hcases).
    apply dbfs_events_no_sql in Hst as [Hsql _]. unfold never_dropped.
    rewrite sql_events_app, Hsql. simpl.
    destruct Hcases as [[-> _] | [(_ & e & -> & _) | (_ & body & -> & Hev & Hs)]];
      [done..|].
    simpl. rewrite sql_events_app. simpl. rewrite app_nil_r.
    unfold delta_session in Hs. simpl in Hs.
    destruct Hs as (made1 & r1 & Hrun & Hr1).
    apply run_of_within in Hrun.
    assert (Forall (fun ev => sql_verb (fst ev)
                              ∈ ["DESCRIBE"; "INSERT"; "CREATE"] /\
                              sql_verb (fst ev) <> "DROP") made1) as Hmade1.
    { eapply Forall_impl; [exact Hrun|]. simpl.
      intros ev [->|[->|[]%elem_of_nil]%elem_of_cons]%elem_of_cons;
        apply Hverb; [apply list_elem_of_here|].
      apply list_elem_of_further, list_elem_of_here. }
    destruct r1 as [[]|e1].
    + by destruct Hr1 as [-> _].
    + destruct Hr1 as (reply & -> & _). apply Forall_app. split; [done|].
      constructor; [|done]. apply Hverb.
      do 2 apply list_elem_of_further. apply list_elem_of_here.
  - eapply wp_mono; [apply write_run|].
    intros t r (c & Hc & Hcase). unfold never_dropped.
    destruct c as [e|]; [by destruct Hcase as [_ ->]|].
    apply run_of_within in Hcase.
    eapply Forall_impl; [exact Hcase|]. simpl.
    intros ev Hin. unfold sql_plan, ddl_plan, insert_plan in Hin. simpl in Hin.
    apply elem_of_cons in Hin as [->|Hin].
    { apply Hverb. do 2 apply list_elem_of_further. apply list_elem_of_here. }
    apply list_elem_of_fmap in Hin as (batch & -> & _).
    apply Hverb, list_elem_of_further, list_elem_of_here.
Qed.

(** With a serialised file, a DBFS service and a warehouse that accept
    everything, an invalid mode is what stops [upload_to_delta_table], once
    the staging file is on DBFS and the session is open. *)
Lemma delta_invalid_reached E up df table_name mode h :
  mode <> "overwrite" -> mode <> "append" ->
  (exists file_bytes, to_parquet E df = Ok file_bytes) -> http_ok E ->
  (forall h, sql_connect E h = None) ->
  wp (upload_to_delta_table E up df table_name mode) h
    (fun t r =>
       r = Raise (invalid_mode mode) /\
       exists staging,
         t = staging ++ [EvConnect None; EvClose] /\
         Forall dbfs_event staging /\ http_bodies staging <> []).
Proof.
  intros Hov%String.eqb_neq Hap%String.eqb_neq [file_bytes Hpq] Hok Hconn.
  unfold upload_to_delta_table.
  apply wp_bind, wp_log_info, wp_bind, wp_lift. rewrite Hpq.
  apply wp_bind, wp_log_info, wp_bind.
  eapply wp_mono;
    [apply (wp_and_if True);
       [apply dbfs_upload_run | intros _; by apply dbfs_upload_ok]|].
  intros t r [[Hne Hev] Hr]. rewrite (Hr I).
  apply wp_with_connection. rewrite Hconn, Hov, Hap. apply wp_raise.
  split; [done|]. eexists (_ :: _ :: t). split; [done|].
  split; [by repeat constructor | done].
Qed.

(** Without a serialised file nothing is sent: the error of the
    serialisation is raised. *)
Lemma delta_unserialised E up df table_name mode h :
  wp (upload_to_delta_table E up df table_name mode) h
    (fun t r =>
       forall e,
         to_parquet E df = Raise e ->
         r = Raise e /\ http_bodies t = [] /\ connects t = []).
Proof.
  destruct (to_parquet E df) as [file_bytes|e0] eqn:Hpq.
  - eapply wp_mono; [apply delta_run|]. by intros t r _ e.
  - unfold upload_to_delta_table.
    apply wp_bind, wp_log_info, wp_bind, wp_lift. rewrite Hpq.
    by intros e [= <-].
Qed.

(** The whole run of [upload_to_delta_table] for an invalid mode, step by
    step: the serialisation, the staging upload, the connection, and only
    then the error for the mode. *)
Lemma delta_invalid_account E up df table_name mode h :
  mode <> "overwrite" -> mode <> "append" ->
  let pre1 :=
    [EvLog "INFO" "Writing {} rows to Delta Table: {} (mode={})"
       [Py.str_int (Py.len (rows df)); full_table_name up table_name; mode]] in
  let pre := pre1 ++ [EvLog "INFO" "Uploading staging file to DBFS..." []] in
  wp (upload_to_delta_table E up df table_name mode) h
    (fun t r =>
       match to_parquet E df with
       | Raise e => t = pre1 /\ r = Raise e
       | Ok file_bytes =>
           exists t1 r1,
             dbfs_upload E up (staging_path table_name) file_bytes (h ++ pre)
             = Some ((h ++ pre) ++ t1, r1) /\
             http_bodies t1 <> [] /\
             match r1 with
             | Raise e => t = pre ++ t1 /\ r = Raise e
             | Ok _ =>
                 match sql_connect E ((h ++ pre) ++ t1) with
                 | Some e =>
                     t = pre ++ t1 ++ [EvConnect (Some e)] /\ r = Raise e
                 | None =>
                     t = pre ++ t1 ++ [EvConnect None; EvClose] /\
                     r = Raise (invalid_mode mode)
                 end
             end
       end).
Proof.
  intros Hov%String.eqb_neq Hap%String.eqb_neq pre1 pre. subst pre pre1.
  unfold upload_to_delta_table. fold (staging_path table_name).
  apply wp_bind, wp_log_info, wp_bind, wp_lift.
  destruct (to_parquet E df) as [file_bytes|e]; [|done].
  apply wp_bind, wp_log_info, wp_bind.
  eapply wp_mono; [apply wp_run, dbfs_upload_run|].
  intros t1 r1 [Hrun [Hne _]].
  rewrite app_nil_r, <- (app_assoc h) in Hrun.
  rewrite app_nil_r, <- (app_assoc h).
  destruct r1 as [[]|e].
  2:{ by exists t1, (Raise e). }
  apply wp_with_connection.
  destruct (sql_connect E _) as [e|] eqn:Hconn.
  { exists t1, (Ok tt). split_and!; [done | done |]. by rewrite Hconn. }
  rewrite Hov, Hap. apply wp_raise.
  exists t1, (Ok tt). split_and!; [done | done |]. by rewrite Hconn.
Qed.

(** C6 (amended).  For a mode other than 'overwrite' and 'append',
    [upload_to_delta_table] executes no SQL statement and never returns
    normally.  The [ValueError] for the mode is raised inside the
    connection block: when serialising, staging and connecting all succeed,
    the staging requests have been made, the connection has been opened,
    and then the error is raised and the session released.  An earlier
    failure is raised instead: the error of the serialisation, with nothing
    sent; the error of the staging upload, with no connection attempted; or
    the error of the connection, after the staging requests. *)
Theorem invalid_mode_delta E up df table_name mode h :
  mode <> "overwrite" -> mode <> "append" ->
  wp (upload_to_delta_table E up df table_name mode) h
    (fun t r =>
       (sql_events t = [] /\
        (exists e, r = Raise e) /\
        (connects t = [None] ->
         http_bodies t <> [] /\
         r = Raise (Exn ValueError
                      ("Invalid mode: " +:+ mode
                       +:+ ". Use 'overwrite' or 'append'."))) /\
        (forall e, connects t = [Some e] -> http_bodies t <> [] /\ r = Raise e)) /\
       ((exists file_bytes, to_parquet E df = Ok file_bytes) /\ http_ok E /\
        (forall h, sql_connect E h = None) ->
        r = Raise (Exn ValueError
                     ("Invalid mode: " +:+ mode
                      +:+ ". Use 'overwrite' or 'append'.")) /\
        exists staging,
          t = staging ++ [EvConnect None; EvClose] /\
          Forall dbfs_event staging /\ http_bodies staging <> []) /\
       (forall e,
          to_parquet E df = Raise e ->
          r = Raise e /\ http_bodies t = [] /\ connects t = []) /\
       (let pre :=
          [EvLog "INFO" "Writing {} rows to Delta Table: {} (mode={})"
             [Py.str_int (Py.len (rows df));
              catalog up +:+ "." +:+ schema up +:+ "." +:+ table_name; mode];
           EvLog "INFO" "Uploading staging file to DBFS..." []] in
        forall file_bytes,
          to_parquet E df = Ok file_bytes ->
          exists t1 r1,
            dbfs_upload E up
              ("/FileStore/staging/" +:+ table_name +:+ ".parquet") file_bytes
              (h ++ pre)
            = Some ((h ++ pre) ++ t1, r1) /\
            http_bodies t1 <> [] /\
            match r1 with
            | Raise e => t = pre ++ t1 /\ r = Raise e
            | Ok _ =>
                match sql_connect E ((h ++ pre) ++ t1) with
                | Some e =>
                    t = pre ++ t1 ++ [EvConnect (Some e)] /\ r = Raise e
                | None =>
                    t = pre ++ t1 ++ [EvConnect None; EvClose] /\
                    r = Raise (Exn ValueError
                                 ("Invalid mode: " +:+ mode
                                  +:+ ". Use 'overwrite' or 'append'."))
                end
            end)).
Proof.
  intros Hov Hap.
  eapply wp_mono;
    [apply (wp_and_if True);
       [apply (wp_and_if True);
          [apply (wp_and_if ((exists file_bytes, to_parquet E df = Ok file_bytes)
                             /\ http_ok E /\ (forall h, sql_connect E h = None)));
           [apply delta_run
           | intros (Hpq & Hok & Hconn); by apply delta_invalid_reached]
          | intros _; apply delta_unserialised]
       | intros _; by apply delta_invalid_account]|].
  intros t r
    [[[(staging & session & -> & Hst & Hcases) Hreached] Hfailed] Haccount].
  split; [|split; [exact Hreached | split; [exact (Hfailed I)|]]].
  2:{ intros pre file_bytes Hpq. specialize (Haccount I). simpl in Haccount.
      rewrite Hpq in Haccount. exact Haccount. }
  clear Hreached Hfailed Haccount.
  pose proof (dbfs_events_no_sql _ Hst) as [Hsql Hconn].
  rewrite sql_events_app, connects_app, http_bodies_app, Hsql, Hconn. simpl.
  destruct Hcases as [[-> He] | [(Hne & e & -> & ->) | (Hne & body & -> & Hev & Hs)]].
  - done.
  - split_and!; [done | by eexists | done |].
    intros e' [= <-]. split; [|done]. simpl. by rewrite app_nil_r.
  - unfold delta_session in Hs.
    apply String.eqb_neq in Hov, Hap. rewrite Hov, Hap in Hs.
    destruct Hs as [Hbody ->]. simpl. rewrite sql_events_app, Hbody.
    rewrite connects_app, (cursor_events_no_connect body) by done.
    split_and!; [done | by eexists | | done]. intros _. split; [|done].
    by destruct (http_bodies staging).
Qed.

Lemma invalid_mode_delta_witness :
  wp (upload_to_delta_table Sample.env_ok Sample.up Sample.df "orders" "upsert")
     []
    (fun t r =>
       sql_events t = [] /\
       r = Raise (Exn ValueError
                    "Invalid mode: upsert. Use 'overwrite' or 'append'.") /\
       exists staging,
         t = staging ++ [EvConnect None; EvClose] /\
         Forall dbfs_event staging /\ http_bodies staging <> []).
Proof.
  eapply wp_mono.
  - apply (invalid_mode_delta Sample.env_ok Sample.up Sample.df "orders"
             "upsert" []); discriminate.
  - intros t r ((Hsql & _) & Hreached & _). split; [exact Hsql|].
    apply Hreached. split; [by eexists|].
    split; [exact sample_env_ok_http | done].
Defined.

(** C6 as stated fails: with mode 'upsert', [upload_to_delta_table] raises
    only after the staging file was put on DBFS and the connection was
    opened, and [write_with_sql_connector] raises nothing: it creates the
    table and inserts the rows. *)
Lemma invalid_mode_counterexample :
  (exists t,
      upload_to_delta_table Sample.env_ok Sample.up Sample.df "orders" "upsert" []
      = Some (t, Raise (Exn ValueError
                          "Invalid mode: upsert. Use 'overwrite' or 'append'."))
      /\ http_bodies t
         = [BodyPut "/FileStore/staging/orders.parquet" "aGVsbG8=" true]
      /\ connects t = [None]) /\
  (exists t,
      write_with_sql_connector Sample.env_ok Sample.up Sample.df "orders"
        "upsert" []
      = Some (t, Ok tt)
      /\ sql_events t
         = [("CREATE TABLE IF NOT EXISTS hive_metastore.default.orders (`id` BIGINT, `note` STRING)",
             None);
            ("INSERT INTO hive_metastore.default.orders (`id`, `note`) VALUES (1, 'it''s'), (2, 'it''s')",
             None)]).
Proof.
  split; eexists; (split; [vm_compute; reflexivity|]); vm_compute; done.
Qed.

(** C10.  On an empty DataFrame [write_with_sql_connector] still runs its
    DDL before it returns: once connected it executes, until the first
    failure, the DROP (in overwrite mode only) and then the CREATE, and no
    other statement; when the warehouse accepts everything, both were
    executed and the call returns. *)
Theorem empty_write_runs_ddl E up df table_name mode h :
  rows df = [] ->
  let full := full_table_name up table_name in
  let ddl := (if String.eqb mode "overwrite" then [drop_sql full] else [])
             ++ [create_sql full df] in
  wp (write_with_sql_connector E up df table_name mode) h
    (fun t r =>
       (connects t = [None] ->
        (r = Ok tt /\ sql_events t = map (fun s => (s, None)) ddl) \/
        (exists k stmt e,
            ddl !! k = Some stmt /\
            sql_events t
            = map (fun s => (s, None)) (take k ddl) ++ [(stmt, Some e)] /\
            r = Raise e)) /\
       (sql_ok E ->
        r = Ok tt /\ sql_events t = map (fun s => (s, None)) ddl)).
Proof.
  intros Hrows full ddl.
  eapply wp_mono;
    [apply (wp_and_if (sql_ok E)); [apply write_run | apply write_ok]|].
  intros t r [(c & Hc & Hcase) Hok]. simpl in Hok.
  assert (Hplan : sql_plan up df table_name mode = ddl).
  { unfold sql_plan, insert_plan. rewrite Hrows, pieces_nil. simpl.
    by rewrite app_nil_r. }
  rewrite Hplan in Hcase. split.
  - rewrite Hc. intros [= ->]. exact Hcase.
  - intros HE. specialize (Hok HE) as ->. split; [done|].
    destruct c as [e|]; [by destruct Hcase|]. by apply run_of_Ok.
Qed.

(** ** The batch runner *)

Lemma wp_extract_table E table_name h (Q : history -> result dataframe -> Prop) :
  Q [EvExtractTable table_name (bq_extract_table E h table_name)]
    (bq_extract_table E h table_name) ->
  wp (extract_table E table_name) h Q.
Proof. intros HQ. eexists _, _. split; [reflexivity | exact HQ]. Qed.

Lemma emits_mono {A} (P P' : event -> Prop) (m : M A) :
  (forall ev, P ev -> P' ev) -> emits P m -> emits P' m.
Proof.
  intros Himp Hm h h' r Hrun. destruct (Hm _ _ _ Hrun) as (t & -> & Ht).
  exists t. split; [done|]. by eapply Forall_impl.
Qed.

Lemma emits_with_connection {A} E (P : event -> Prop) (body : M A) :
  (forall reply, P (EvConnect reply)) -> P EvClose ->
  emits P body -> emits P (with_connection E body).
Proof.
  intros Hconn Hclose Hbody h h' r. unfold with_connection.
  destruct (sql_connect E h) as [e|].
  { intros [= <- <-]. eexists. split; [done|]. by constructor. }
  destruct (body _) as [[h1 r1]|] eqn:Hrun; [|done].
  intros [= <- <-]. destruct (Hbody _ _ _ Hrun) as (t & -> & Ht).
  exists (EvConnect None :: t ++ [EvClose]).
  split; [by rewrite <- !app_assoc|].
  constructor; [done|]. apply Forall_app. split; [done | by constructor].
Qed.

Lemma cursor_session ev : cursor_event ev -> session_event ev.
Proof. by destruct ev. Qed.

Lemma emits_write E up df table_name mode :
  emits session_event (write_with_sql_connector E up df table_name mode).
Proof.
  unfold write_with_sql_connector.
  apply emits_bind; [by apply emits_emit|]. intros _.
  apply emits_bind.
  - apply emits_with_connection; [done..|].
    apply emits_bind.
    { destruct (String.eqb mode "overwrite"); [|apply emits_ret].
      eapply emits_mono; [apply cursor_session | apply emits_cursor_execute]. }
    intros _. apply emits_bind.
    { eapply emits_mono; [apply cursor_session | apply emits_cursor_execute]. }
    intros _. destruct (_ =? 0).
    + apply emits_bind; [by apply emits_emit|]. intros _. apply emits_ret.
    + apply emits_bind; [|intros _; apply emits_ret].
      eapply emits_mono; [apply cursor_session | apply emits_insert_batches].
  - intros [|]; [apply emits_ret | by apply emits_emit].
Qed.

Lemma session_events_obs t :
  Forall session_event t -> http_bodies t = [] /\ extracts t = [].
Proof. induction 1 as [|[] t Hev _ [IH1 IH2]]; simpl; done. Qed.

Section Runner.

Context (E : env) (up : uploader).

(** In any environment: one turn of the loop. *)
Lemma iteration_run n_tables i table_name rep h :
  wp (iteration E up n_tables i table_name rep) h (item_post up table_name rep).
Proof.
  unfold iteration, process_table, item_post.
  apply wp_bind, wp_log_info, wp_bind, wp_log_info, wp_try_except.
  apply wp_bind, wp_bind, wp_log_info, wp_bind, wp_extract_table.
  destruct (bq_extract_table E _ table_name) as [df|e].
  2:{ apply wp_bind, wp_emit, wp_ret. by eexists. }
  apply wp_bind, wp_log_info.
  destruct (Py.len (rows df) =? 0) eqn:Hlen.
  { apply wp_log_info. simpl. apply wp_ret. eexists.
    split; [done|]. split; [done|]. simpl. rewrite Hlen.
    split_and!; try done. unfold skip_log.
    do 4 (apply elem_of_cons; right). apply elem_of_cons. by left. }
  apply wp_bind, wp_log_info, wp_bind.
  eapply wp_mono;
    [eapply wp_emits; [apply write_run | apply emits_write]|].
  intros t rw [(c & Hc & Hcase) Hev].
  apply session_events_obs in Hev as [Hhttp Hext].
  assert (Hpost : forall t1 t2 : history,
             connects t1 = [] -> sql_events t1 = [] ->
             connects t2 = [] -> sql_events t2 = [] ->
             write_post up (sanitize_columns df) table_name "overwrite"
               (t1 ++ t ++ t2) rw).
  { intros t1 t2 Hc1 Hs1 Hc2 Hs2. exists c.
    rewrite !connects_app, !sql_events_app, Hc1, Hs1, Hc2, Hs2, Hc.
    simpl. by rewrite app_nil_r. }
  destruct rw as [[]|e].
  - apply wp_log_info. simpl. apply wp_ret. eexists. split; [obs; by rewrite Hext|].
    split; [obs; by rewrite Hhttp|]. simpl. rewrite Hlen. exists (Ok tt).
    split; [|done].
    match goal with |- write_post _ _ _ _ ?tt _ =>
      replace tt with
        ([EvLog "INFO" (Py.times "-" 50) [];
          EvLog "INFO" "[{}/{}] Processing table: {}"
            [Py.str_int i; Py.str_int n_tables; table_name];
          EvLog "INFO" "   Extracting from BigQuery..." [];
          EvExtractTable table_name (Ok df);
          EvLog "INFO" "   Extracted {} rows, {} columns"
            [Py.str_int (Py.len (rows df)); Py.str_int (Py.len (columns df))];
          EvLog "INFO" "   Uploading to Databricks table: {}..." [table_name]]
         ++ t ++ [EvLog "INFO" "   Uploaded successfully!" []])
    end.
    + by apply Hpost.
    + simpl. by rewrite <- ?app_assoc.
  - apply wp_bind, wp_emit, wp_ret. eexists. split; [obs; by rewrite Hext|].
    split; [obs; by rewrite Hhttp|]. simpl. rewrite Hlen. exists (Raise e).
    split; [|done].
    match goal with |- write_post _ _ _ _ ?tt _ =>
      replace tt with
        ([EvLog "INFO" (Py.times "-" 50) [];
          EvLog "INFO" "[{}/{}] Processing table: {}"
            [Py.str_int i; Py.str_int n_tables; table_name];
          EvLog "INFO" "   Extracting from BigQuery..." [];
          EvExtractTable table_name (Ok df);
          EvLog "INFO" "   Extracted {} rows, {} columns"
            [Py.str_int (Py.len (rows df)); Py.str_int (Py.len (columns df))];
          EvLog "INFO" "   Uploading to Databricks table: {}..." [table_name]]
         ++ t ++ [EvLog "ERROR" "   Error processing {}: {}"
                    [table_name; exn_str e]])
    end.
    + by apply Hpost.
    + simpl. by rewrite <- ?app_assoc.
Qed.

(** In any environment: the whole loop. *)
Lemma table_loop_run n_tables i tables rep h :
  wp (table_loop E up n_tables i tables rep) h
    (fun t r => exists rep', r = Ok rep' /\ items_post up tables rep t rep').
Proof.
  revert i rep h. induction tables as [|table_name rest IH]; intros i rep h.
  - apply wp_ret. by exists rep.
  - simpl. apply wp_bind. eapply wp_mono; [apply iteration_run|].
    intros t1 r1 Hitem.
    assert (exists rep1, r1 = Ok rep1) as [rep1 ->].
    { destruct Hitem as ([df|e] & _ & _ & Hcase).
      - destruct (_ =? 0); [by destruct Hcase as (_ & _ & _ & ->); eexists|].
        destruct Hcase as (rw & _ & ->). by eexists.
      - destruct Hcase as (_ & _ & ->). by eexists. }
    eapply wp_mono; [apply IH|].
    intros t2 r2 (rep' & -> & Hrest). exists rep'. split; [done|].
    by exists t1, t2, rep1.
Qed.

End Runner.

Lemma clean_app t1 t2 : clean (t1 ++ t2) -> clean t1 /\ clean t2.
Proof.
  unfold clean. rewrite connects_app, sql_events_app, !Forall_app. tauto.
Qed.

Lemma run_of_clean {C} (plan : list C) made r :
  run_of plan made r -> Forall (fun ev => snd ev = None) made -> r = Ok tt.
Proof.
  intros [[-> _] | (k & c & e & _ & -> & _)] Hall; [done|].
  apply Forall_app in Hall as [_ Hlast]. by inversion Hlast.
Qed.

(** What one turn contributes to the report and to the history. *)
Lemma item_facts up table_name rep t rep1 :
  item_post up table_name rep t (Ok rep1) ->
  exists reply,
    extracts t = [(table_name, reply)] /\
    length (connects t) = (if uploadable (table_name, reply) then 1 else 0)%nat /\
    (rep1 = add_success rep \/ exists msg, rep1 = add_error rep table_name msg) /\
    (clean t -> rep1 = tally rep (table_name, reply)).
Proof.
  intros (reply & Hext & _ & Hcase). exists reply. split; [done|].
  unfold uploadable, tally. simpl. destruct reply as [df|e].
  - destruct (Py.len (rows df) =? 0).
    + destruct Hcase as (-> & _ & _ & [= ->]). split_and!; [done | by left | done].
    + destruct Hcase as (rw & (c & Hc & Hrun) & [= ->]). rewrite Hc.
      split_and!; [done | destruct rw; [by left | right; by eexists] |].
      intros [Hcl1 Hcl2]. rewrite Hc in Hcl1.
      apply Forall_cons in Hcl1 as [-> _].
      by rewrite (run_of_clean _ _ _ Hrun Hcl2).
  - destruct Hcase as (-> & _ & [= ->]).
    split_and!; [done | right; by eexists | done].
Qed.

Lemma items_facts up tables rep t rep' :
  items_post up tables rep t rep' ->
  map fst (extracts t) = tables /\
  length (connects t) = length (filter uploadable (extracts t)) /\
  success_count rep' + error_count rep'
  = success_count rep + error_count rep + Py.len tables /\
  (exists new,
      errors rep' = errors rep ++ new /\
      Py.len new = error_count rep' - error_count rep /\
      sublist (map fst new) tables) /\
  (clean t -> rep' = fold_left tally (extracts t) rep).
Proof.
  revert rep t. induction tables as [|table_name rest IH]; intros rep t; simpl.
  - intros [-> ->].
    split_and!; [done | done | unfold Py.len; simpl; lia | | done].
    exists []. rewrite app_nil_r.
    split_and!; [done | unfold Py.len; simpl; lia | done].
  - intros (t1 & t2 & rep1 & -> & Hitem & Hrest).
    apply item_facts in Hitem as (reply & Hext & Hconn & Hrep1 & Hclean1).
    apply IH in Hrest as (Hnames & Hconn2 & Hcount & (new & Hnew & Hlen & Hsub)
                          & Hclean2).
    rewrite extracts_app, connects_app, Hext. simpl.
    rewrite filter_cons, !length_app, Hconn, Hconn2.
    split_and!.
    + by rewrite Hnames.
    + destruct (uploadable (table_name, reply)) eqn:Hup.
      * case_decide; [done|]. by exfalso.
      * case_decide; [|done]. by exfalso.
    + unfold Py.len in *. simpl.
      destruct Hrep1 as [-> | [msg ->]]; simpl in *; lia.
    + destruct Hrep1 as [-> | [msg ->]]; simpl in *.
      * exists new. split_and!; [done..|]. by apply sublist_cons.
      * exists ((table_name, msg) :: new). rewrite Hnew, <- app_assoc.
        split_and!; [done | unfold Py.len in *; simpl; lia |].
        by apply sublist_skip.
    + intros [Hc1 Hc2]%clean_app. by rewrite Hclean2, Hclean1.
Qed.

(** C7.  The loop over the tables never raises.  Every table is extracted
    exactly once, in order, and what happens for it is accounted for turn
    by turn ([items_post]): an error raised while a table is processed is
    caught and recorded under the name of that table, and the loop goes on.
    An upload is attempted for exactly the tables that returned rows.  The
    counts of the report add up to the number of tables, and the failures
    recorded name tables of the run, in order.  When no connection and no
    statement fails, the report is the tally of the extractions; so for
    tables A, B, C where only the extraction of B raises, the report is two
    successes and the failure of B with its message. *)
Theorem batch_runner_isolation E up n_tables i tables rep h :
  wp (table_loop E up n_tables i tables rep) h
    (fun t r =>
       exists rep',
         r = Ok rep' /\
         items_post up tables rep t rep' /\
         map fst (extracts t) = tables /\
         length (connects t) = length (filter uploadable (extracts t)) /\
         success_count rep' + error_count rep'
         = success_count rep + error_count rep + Py.len tables /\
         (exists new,
             errors rep' = errors rep ++ new /\
             Py.len new = error_count rep' - error_count rep /\
             sublist (map fst new) tables) /\
         (clean t -> rep' = fold_left tally (extracts t) rep) /\
         (forall A B C dfA eB dfC,
             rep = Report 0 0 [] ->
             extracts t = [(A, Ok dfA); (B, Raise eB); (C, Ok dfC)] ->
             clean t ->
             rep' = Report 2 1 [(B, exn_str eB)])).
Proof.
  eapply wp_mono; [apply table_loop_run|].
  intros t r (rep' & -> & Hitems). exists rep'.
  pose proof (items_facts _ _ _ _ _ Hitems) as (H1 & H2 & H3 & H4 & H5).
  split_and!; try done.
  intros A B C dfA eB dfC -> Hext Hclean. by rewrite (H5 Hclean), Hext.
Qed.




Lemma empty_write_runs_ddl_witness :
  wp (write_with_sql_connector Sample.env_ok Sample.up Sample.empty_df
        "orders" "overwrite") []
    (fun t r =>
       (connects t = [None] ->
        (r = Ok tt /\
         sql_events t
         = [("DROP TABLE IF EXISTS hive_metastore.default.orders", None);
            ("CREATE TABLE IF NOT EXISTS hive_metastore.default.orders (`id` BIGINT, `note` STRING)",
             None)]) \/
        (exists k stmt e,
            ["DROP TABLE IF EXISTS hive_metastore.default.orders";
             "CREATE TABLE IF NOT EXISTS hive_metastore.default.orders (`id` BIGINT, `note` STRING)"]
              !! k = Some stmt /\
            sql_events t
            = map (fun s => (s, None))
                  (take k
                     ["DROP TABLE IF EXISTS hive_metastore.default.orders";
                      "CREATE TABLE IF NOT EXISTS hive_metastore.default.orders (`id` BIGINT, `note` STRING)"])
              ++ [(stmt, Some e)] /\
            r = Raise e)) /\
       (sql_ok Sample.env_ok ->
        r = Ok tt /\
        sql_events t
        = [("DROP TABLE IF EXISTS hive_metastore.default.orders", None);
           ("CREATE TABLE IF NOT EXISTS hive_metastore.default.orders (`id` BIGINT, `note` STRING)",
            None)])).
Proof.
  exact (empty_write_runs_ddl Sample.env_ok Sample.up Sample.empty_df
           "orders" "overwrite" [] eq_refl).
Defined.

(** ** Column names *)

Lemma re_sub_all_word s : all_word (re_sub_nonword s) = true.
Proof.
  induction s as [|c s IH]; [done|]. simpl.
  destruct (is_word c) eqn:Hc; by rewrite ?Hc, IH.
Qed.

Lemma re_sub_id s : all_word s = true -> re_sub_nonword s = s.
Proof.
  induction s as [|c s IH]; [done|]. simpl.
  intros [Hc Hs]%andb_prop. by rewrite Hc, IH.
Qed.

Lemma lstrip_all_word c s : all_word s = true -> all_word (Py.lstrip c s) = true.
Proof.
  induction s as [|a s IH]; [done|]. simpl. intros Hs.
  destruct (Ascii.eqb a c); [|done]. apply andb_prop in Hs as [_ Hs]. auto.
Qed.

Lemma rstrip_all_word c s : all_word s = true -> all_word (Py.rstrip c s) = true.
Proof.
  induction s as [|a s IH]; [done|]. simpl. intros [Ha Hs]%andb_prop.
  specialize (IH Hs). destruct (Py.rstrip c s).
  - destruct (Ascii.eqb a c); [done|]. simpl. by rewrite Ha.
  - simpl in *. by rewrite Ha, IH.
Qed.

Lemma lstrip_idem c s : Py.lstrip c (Py.lstrip c s) = Py.lstrip c s.
Proof.
  induction s as [|a s IH]; [done|]. simpl.
  destruct (Ascii.eqb a c) eqn:Ha; [done|]. simpl. by rewrite Ha.
Qed.

Lemma rstrip_idem c s : Py.rstrip c (Py.rstrip c s) = Py.rstrip c s.
Proof.
  induction s as [|a s IH]; [done|]. simpl.
  destruct (Py.rstrip c s) as [|b r] eqn:Hr.
  - destruct (Ascii.eqb a c) eqn:Ha; [done|]. simpl. by rewrite Ha.
  - change (Py.rstrip c (String a (String b r)))
      with (match Py.rstrip c (String b r) with
            | EmptyString => if Ascii.eqb a c then "" else String a ""
            | r' => String a r'
            end).
    by rewrite IH.
Qed.

(** Stripping on the left keeps a string stripped on the right. *)
Lemma rstrip_lstrip c s :
  Py.rstrip c s = s -> Py.rstrip c (Py.lstrip c s) = Py.lstrip c s.
Proof.
  induction s as [|a s IH]; [done|]. intros Hs. simpl.
  destruct (Ascii.eqb a c) eqn:Ha; [|done].
  apply IH. simpl in Hs. rewrite Ha in Hs.
  destruct (Py.rstrip c s); [done|]. by injection Hs.
Qed.

Lemma strip_idem c s : Py.strip c (Py.strip c s) = Py.strip c s.
Proof.
  unfold Py.strip.
  rewrite (rstrip_lstrip c (Py.rstrip c s)) by apply rstrip_idem.
  apply lstrip_idem.
Qed.

Lemma lstrip_first c s : first_char (Py.lstrip c s) <> Some c.
Proof.
  induction s as [|a s IH]; [done|]. simpl.
  destruct (Ascii.eqb_spec a c); [done|]. simpl. congruence.
Qed.

Lemma rstrip_last c s : last_char (Py.rstrip c s) <> Some c.
Proof.
  induction s as [|a s IH]; [done|]. simpl.
  destruct (Py.rstrip c s) as [|b r] eqn:Hr.
  - destruct (Ascii.eqb_spec a c); [done|]. simpl. congruence.
  - done.
Qed.

(** Sanitizing a name twice is sanitizing it once. *)
Lemma sanitize_idempotent col : sanitize (sanitize col) = sanitize col.
Proof.
  unfold sanitize. rewrite re_sub_id; [apply strip_idem|].
  apply lstrip_all_word, rstrip_all_word, re_sub_all_word.
Qed.

(** A sanitized name is over [[a-zA-Z0-9_]] and neither starts nor ends
    with an underscore. *)
Lemma sanitize_shape col :
  all_word (sanitize col) = true /\
  first_char (sanitize col) <> Some "_"%char /\
  last_char (sanitize col) <> Some "_"%char.
Proof.
  unfold sanitize, Py.strip. split_and!.
  - apply lstrip_all_word, rstrip_all_word, re_sub_all_word.
  - apply lstrip_first.
  - rewrite <- rstrip_lstrip by apply rstrip_idem. apply rstrip_last.
Qed.

Example dedup_suffixes : dedup ["col"; "col"; "col"] = ["col"; "col_1"; "col_2"].
Proof. vm_compute. reflexivity. Qed.

(** C8 at the input where it fails.  The columns ["a b"; "a_b"; "a_b_1"]
    sanitize to ["a_b"; "a_b"; "a_b_1"]; the second is renamed "a_b_1",
    which the third already is, and the loop that removes duplicate column
    names leaves two columns of that name. *)
Theorem dedup_collision :
  map sanitize (columns Sample.df_collision) = ["a_b"; "a_b"; "a_b_1"] /\
  dedup ["a_b"; "a_b"; "a_b_1"] = ["a_b"; "a_b_1"; "a_b_1"] /\
  columns (sanitize_columns Sample.df_collision) = ["a_b"; "a_b_1"; "a_b_1"] /\
  ~ NoDup (columns (sanitize_columns Sample.df_collision)).
Proof.
  assert (Hcols : columns (sanitize_columns Sample.df_collision)
                  = ["a_b"; "a_b_1"; "a_b_1"]) by (vm_compute; reflexivity).
  split_and!; [by vm_compute | by vm_compute | done |].
  rewrite Hcols. intros Hnd. apply NoDup_cons in Hnd as [_ Hnd].
  apply NoDup_cons in Hnd as [Hnotin _]. apply Hnotin. by left.
Qed.

(** ** The samples, run *)

Example main_abc :
  exists t,
    main Sample.env_abc Sample.cfg []
    = Some (t, Ok (Finished (Report 2 1 [("B", "404 Not found: Table sales.B")])))
    /\ map fst (extracts t) = ["A"; "B"; "C"]
    /\ connects t = [None; None].
Proof. eexists. split; [vm_compute; reflexivity|]. by vm_compute. Qed.

Example batches_2500_second_insert_fails :
  map Py.len (pieces batch_size (rows Sample.df_2500)) = [1000; 1000; 500] /\
  exists t,
    write_with_sql_connector Sample.env_second_insert_fails Sample.up
      Sample.df_2500 "orders" "append" []
    = Some (t, Raise Sample.rejected)
    /\ map snd (sql_events t) = [None; None; Some Sample.rejected].
Proof.
  split; [by vm_compute|].
  eexists. split; [vm_compute; reflexivity|]. by vm_compute.
Qed.

Example stream_upload_sample :
  exists t,
    _dbfs_stream_upload Sample.env_ok Sample.up "/t" Sample.payload 2 []
    = Some (t, Ok tt)
    /\ http_bodies t
       = [BodyCreate "/t" true; BodyAddBlock 7 "aGU="; BodyAddBlock 7 "bGw=";
          BodyAddBlock 7 "bw=="; BodyClose 7].
Proof. eexists. split; [vm_compute; reflexivity|]. by vm_compute. Qed.

Example base64_samples :
  Base64.encode ["M"%byte; "a"%byte; "n"%byte] = "TWFu" /\
  Base64.encode ["M"%byte; "a"%byte] = "TWE=" /\
  Base64.encode ["M"%byte] = "TQ==".
Proof. by vm_compute. Qed.

Example sanitize_samples :
  sanitize "order id (2024)" = "order_id__2024" /\
  sanitize "__private__" = "private" /\
  Py.range 2500 1000 = [0; 1000; 2000].
Proof. by vm_compute. Qed.

(** * Further properties of the code *)

(** ** Renaming duplicate columns *)

Lemma dedup_fold seen acc cols :
  snd (fold_left dedup_step cols (seen, acc)) = acc ++ dedup_from seen cols.
Proof.
  revert seen acc. induction cols as [|col rest IH]; intros seen acc; simpl.
  - by rewrite app_nil_r.
  - destruct (seen !! col) as [n|]; rewrite IH, <- app_assoc; done.
Qed.

Lemma occurrences_app col l1 l2 :
  occurrences col (l1 ++ l2) = (occurrences col l1 + occurrences col l2)%nat.
Proof. induction l1 as [|c l1 IH]; simpl; [done|]. rewrite IH. lia. Qed.

Lemma seen_counts_empty : seen_counts ∅ [].
Proof. intros col. simpl. apply lookup_empty. Qed.

Lemma seen_counts_step seen pre col :
  seen_counts seen pre ->
  seen_counts
    (match seen !! col with
     | Some n => <[col := n + 1]> seen
     | None => <[col := 0]> seen
     end)
    (pre ++ [col]).
Proof.
  intros Hinv c. rewrite occurrences_app. simpl.
  pose proof (Hinv col) as Hcol. pose proof (Hinv c) as Hc.
  destruct (String.eqb_spec col c) as [->|Hne].
  - rewrite Hc. destruct (occurrences c pre) as [|k]; simpl.
    + by rewrite lookup_insert_eq.
    + rewrite lookup_insert_eq. replace (k + 1)%nat with (S k) by lia.
      f_equal. lia.
  - rewrite Nat.add_0_r, <- Hc.
    destruct (seen !! col); by rewrite lookup_insert_ne.
Qed.

Lemma dedup_from_lookup seen pre cols (i : nat) col :
  seen_counts seen pre -> cols !! i = Some col ->
  dedup_from seen cols !! i
  = Some (renamed col (occurrences col (pre ++ take i cols))).
Proof.
  revert seen pre i. induction cols as [|c rest IH]; intros seen pre i Hinv Hi;
    [done|].
  pose proof (seen_counts_step seen pre c Hinv) as Hstep.
  destruct i as [|i]; simpl in *.
  - injection Hi as ->. rewrite app_nil_r. rewrite (Hinv col).
    destruct (occurrences col pre) as [|k]; simpl; [done|].
    do 4 f_equal. lia.
  - replace (pre ++ c :: take i rest) with ((pre ++ [c]) ++ take i rest)
      by (by rewrite <- app_assoc).
    destruct (seen !! c); simpl; by apply IH.
Qed.

Lemma dedup_from_length seen cols : length (dedup_from seen cols) = length cols.
Proof.
  revert seen. induction cols as [|c rest IH]; intros seen; simpl; [done|].
  destruct (seen !! c); simpl; by rewrite IH.
Qed.

Lemma dedup_lookup cols (i : nat) :
  length (dedup cols) = length cols /\
  dedup cols !! i
  = (fun col => renamed col (occurrences col (take i cols))) <$> cols !! i.
Proof.
  unfold dedup. rewrite dedup_fold. simpl. split; [apply dedup_from_length|].
  destruct (cols !! i) as [col|] eqn:Hi; simpl.
  - by rewrite (dedup_from_lookup ∅ [] cols i col seen_counts_empty Hi).
  - apply lookup_ge_None. rewrite dedup_from_length. by apply lookup_ge_None.
Qed.

(** X1.  What the loop that renames duplicate columns computes: the output
    has as many names as the input, and its [i]-th name is the [i]-th input
    name when that name did not occur before, and the input name followed by
    [_k] when it occurred [k] times before. *)
Theorem dedup_spec cols :
  length (dedup cols) = length cols /\
  forall (i : nat) col,
    cols !! i = Some col ->
    dedup cols !! i
    = Some (match occurrences col (take i cols) with
            | O => col
            | S k => col +:+ "_" +:+ Py.str_int (Z.of_nat (S k))
            end).
Proof.
  split; [by destruct (dedup_lookup cols 0)|].
  intros i col Hi. destruct (dedup_lookup cols i) as [_ ->]. rewrite Hi.
  simpl. unfold renamed. by destruct (occurrences col (take i cols)).
Qed.

Lemma pretty_N_char_digit x : is_digit (pretty_N_char x) = true.
Proof. unfold pretty_N_char. by repeat case_match. Qed.

Lemma pretty_N_go_digits x s :
  all_digit s = true -> all_digit (pretty_N_go x s) = true.
Proof.
  revert s. induction (N.lt_wf_0 x) as [x _ IH]; intros s Hs.
  destruct (decide (x = 0)%N) as [->|Hx]; [by rewrite pretty_N_go_0|].
  rewrite pretty_N_go_step by lia. apply IH; [apply N.div_lt; lia|].
  simpl. by rewrite pretty_N_char_digit.
Qed.

(** [str(k)] of a natural number is a string of decimal digits. *)
Lemma str_int_digits (k : nat) : all_digit (Py.str_int (Z.of_nat k)) = true.
Proof.
  unfold Py.str_int, pretty, pretty_Z. destruct (Z.of_nat k) eqn:Hk; [done| |lia].
  unfold pretty, pretty_positive, pretty, pretty_N.
  destruct (decide _); [done|]. by apply pretty_N_go_digits.
Qed.

Lemma digit_is_word c : is_digit c = true -> is_word c = true.
Proof.
  unfold is_digit, is_word. intros H. rewrite H. by rewrite orb_true_r.
Qed.

Lemma all_digit_word s : all_digit s = true -> all_word s = true.
Proof.
  induction s as [|c s IH]; [done|]. simpl. intros [Hc Hs]%andb_prop.
  by rewrite (digit_is_word c Hc), IH.
Qed.

Lemma all_word_app s1 s2 :
  all_word (s1 +:+ s2) = all_word s1 && all_word s2.
Proof.
  induction s1 as [|c s1 IH]; [done|]. rewrite append_cons. simpl.
  by rewrite IH, andb_assoc.
Qed.

Lemma underscore_not_digits s d : all_digit (s +:+ String "_" d) = false.
Proof.
  induction s as [|c s IH]; [done|]. rewrite append_cons. simpl.
  by rewrite IH, andb_false_r.
Qed.

Lemma suffix_inj_cons s1 s2 d1 d2 :
  all_digit d1 = true -> all_digit d2 = true ->
  s1 +:+ String "_" d1 = s2 +:+ String "_" d2 -> s1 = s2 /\ d1 = d2.
Proof.
  intros Hd1 Hd2. revert s2.
  induction s1 as [|c s1 IH]; intros [|c2 s2];
    rewrite ?append_nil, ?(append_cons c), ?(append_cons c2); intros Heq.
  - by injection Heq.
  - injection Heq as _ Heq. subst d1. by rewrite underscore_not_digits in Hd1.
  - injection Heq as _ Heq. subst d2. by rewrite underscore_not_digits in Hd2.
  - injection Heq as <- Heq. by destruct (IH _ Heq) as [-> ->].
Qed.

(** A name and its numeric suffix can be read back from the renamed name. *)
Lemma suffix_inj s1 s2 d1 d2 :
  all_digit d1 = true -> all_digit d2 = true ->
  s1 +:+ "_" +:+ d1 = s2 +:+ "_" +:+ d2 -> s1 = s2 /\ d1 = d2.
Proof. apply suffix_inj_cons. Qed.

Lemma occurrences_0 col cols : occurrences col cols = 0%nat <-> col ∉ cols.
Proof.
  induction cols as [|c cols IH]; simpl.
  - split; [intros _; apply not_elem_of_nil | done].
  - rewrite not_elem_of_cons, <- IH.
    destruct (String.eqb_spec c col) as [->|Hne].
    + split; [lia | by intros [? _]].
    + split; [intros Hocc; split; [congruence | lia] | intros [_ Hocc]; lia].
Qed.

Lemma occurrences_take_lt cols (i j : nat) col :
  (i < j)%nat -> cols !! i = Some col ->
  (occurrences col (take i cols) < occurrences col (take j cols))%nat.
Proof.
  intros Hij Hi. pose proof (lookup_lt_Some _ _ _ Hi) as Hlen.
  rewrite <- (take_drop_middle cols i col Hi) at 2.
  rewrite take_app_ge by (rewrite length_take; lia).
  rewrite length_take, occurrences_app.
  replace (j - i `min` length cols)%nat with (S (j - S i)) by lia.
  simpl. rewrite String.eqb_refl. lia.
Qed.

(** X2.  When no column name is another column name with a numeric suffix,
    the names after the renaming loop are pairwise distinct. *)
Theorem dedup_unique cols : suffix_free cols -> NoDup (dedup cols).
Proof.
  intros Hfree. apply NoDup_alt. intros i j out Hi Hj.
  destruct (dedup_lookup cols i) as [_ Hsi]. destruct (dedup_lookup cols j) as [_ Hsj].
  rewrite Hsi in Hi. rewrite Hsj in Hj.
  destruct (cols !! i) as [ci|] eqn:Hci; [|done].
  destruct (cols !! j) as [cj|] eqn:Hcj; [|done].
  simpl in Hi, Hj. injection Hi as Hi. injection Hj as Hj.
  assert (Hin_i : ci ∈ cols) by (by eapply list_elem_of_lookup_2).
  assert (Hin_j : cj ∈ cols) by (by eapply list_elem_of_lookup_2).
  assert (Hsame : ci = cj /\
            occurrences ci (take i cols) = occurrences cj (take j cols)).
  { unfold renamed in Hi, Hj.
    destruct (occurrences ci (take i cols)) as [|ki] eqn:Hki;
      destruct (occurrences cj (take j cols)) as [|kj] eqn:Hkj.
    - split; [congruence | done].
    - exfalso. apply (Hfree cj (S kj) Hin_j ltac:(lia)). congruence.
    - exfalso. apply (Hfree ci (S ki) Hin_i ltac:(lia)). congruence.
    - assert (Heq : ci +:+ "_" +:+ Py.str_int (Z.of_nat (S ki))
                    = cj +:+ "_" +:+ Py.str_int (Z.of_nat (S kj)))
        by congruence.
      apply suffix_inj in Heq as [-> Hstr]; [|apply str_int_digits..].
      split; [done|]. apply (inj pretty) in Hstr. lia. }
  destruct Hsame as [-> Hocc].
  destruct (Nat.lt_trichotomy i j) as [Hlt | [-> | Hgt]]; [|done|].
  - pose proof (occurrences_take_lt cols i j cj Hlt Hci). lia.
  - pose proof (occurrences_take_lt cols j i cj Hgt Hcj). lia.
Qed.

Lemma dedup_unique_witness : NoDup (dedup ["id"; "name"; "id"; "id"]).
Proof.
  apply dedup_unique. intros col k Hin Hk Hmem.
  assert (Hcol : col = "id" \/ col = "name").
  { repeat (apply elem_of_cons in Hin as [->|Hin]; [tauto|]).
    by apply elem_of_nil in Hin. }
  destruct Hcol as [-> | ->];
    repeat (apply elem_of_cons in Hmem as [Hmem|Hmem];
            [vm_compute in Hmem; discriminate Hmem|]);
    by apply elem_of_nil in Hmem.
Defined.

Lemma renamed_all_word col k : all_word col = true -> all_word (renamed col k) = true.
Proof.
  intros Hcol. destruct k as [|k]; [done|]. unfold renamed.
  rewrite !all_word_app, Hcol. simpl.
  by rewrite (all_digit_word _ (str_int_digits (S k))).
Qed.

(** X3.  After [main] has sanitized and renamed the columns of a DataFrame,
    there are as many columns as before and every column name consists of
    letters, digits and underscores only; so no name contains the backquote
    that the SQL statements put around column names. *)
Theorem sanitize_columns_word df :
  length (columns (sanitize_columns df)) = length (columns df) /\
  Forall (fun col => all_word col = true) (columns (sanitize_columns df)) /\
  dtypes (sanitize_columns df) = dtypes df /\
  rows (sanitize_columns df) = rows df.
Proof.
  unfold sanitize_columns. simpl. split_and!; [| |done..].
  - destruct (dedup_lookup (map sanitize (columns df)) 0) as [-> _].
    apply length_map.
  - apply Forall_lookup. intros i out Hi.
    destruct (dedup_lookup (map sanitize (columns df)) i) as [_ Hspec].
    rewrite Hspec, list_lookup_fmap in Hi.
    destruct (columns df !! i) as [col|]; [|done]. simpl in Hi.
    injection Hi as <-. apply renamed_all_word.
    by destruct (sanitize_shape col) as [? _].
Qed.

Lemma lstrip_id c s : first_char s <> Some c -> Py.lstrip c s = s.
Proof.
  destruct s as [|a s]; [done|]. simpl. intros Hfirst.
  destruct (Ascii.eqb_spec a c) as [->|]; [done | done].
Qed.

Lemma rstrip_id c s : last_char s <> Some c -> Py.rstrip c s = s.
Proof.
  induction s as [|a s IH]; [done|]. intros Hlast. simpl.
  destruct s as [|b s].
  - simpl in *. destruct (Ascii.eqb_spec a c) as [->|]; [done | done].
  - rewrite IH by exact Hlast. done.
Qed.

Lemma sanitize_clean col :
  all_word col = true ->
  first_char col <> Some "_"%char -> last_char col <> Some "_"%char ->
  sanitize col = col.
Proof.
  intros Hword Hfirst Hlast. unfold sanitize, Py.strip.
  by rewrite (re_sub_id col Hword), (rstrip_id _ col Hlast), lstrip_id.
Qed.

(** X4.  The names that sanitization leaves unchanged are exactly the names
    made of letters, digits and underscores that neither start nor end with
    an underscore. *)
Theorem sanitize_fixed col :
  sanitize col = col <->
  all_word col = true /\
  first_char col <> Some "_"%char /\ last_char col <> Some "_"%char.
Proof.
  split.
  - intros <-. apply sanitize_shape.
  - intros (Hword & Hfirst & Hlast). by apply sanitize_clean.
Qed.

Lemma dedup_distinct cols : NoDup cols -> dedup cols = cols.
Proof.
  intros Hnd. apply list_eq. intros i.
  destruct (dedup_lookup cols i) as [_ ->].
  destruct (cols !! i) as [col|] eqn:Hi; [|done]. simpl. f_equal.
  assert (Hnot : col ∉ take i cols).
  { intros (j & Hj & Hlt)%elem_of_take.
    pose proof (NoDup_lookup _ _ _ _ Hnd Hi Hj). lia. }
  apply occurrences_0 in Hnot. by rewrite Hnot.
Qed.

(** X5.  A DataFrame whose column names are distinct and already valid (over
    letters, digits and underscores, with no underscore at either end)
    keeps its column names. *)
Theorem sanitize_columns_unchanged df :
  NoDup (columns df) ->
  Forall (fun col => all_word col = true /\
                     first_char col <> Some "_"%char /\
                     last_char col <> Some "_"%char) (columns df) ->
  columns (sanitize_columns df) = columns df.
Proof.
  intros Hnd Hclean. unfold sanitize_columns. simpl.
  assert (Hmap : map sanitize (columns df) = columns df).
  { clear Hnd. induction Hclean as [|col cols Hcol _ IH]; [done|]. simpl.
    destruct Hcol as (? & ? & ?). by rewrite IH, sanitize_clean. }
  rewrite Hmap. by apply dedup_distinct.
Qed.

Lemma sanitize_columns_unchanged_witness :
  columns (sanitize_columns Sample.df) = columns Sample.df.
Proof.
  apply sanitize_columns_unchanged.
  - by apply (bool_decide_unpack _).
  - repeat constructor; by vm_compute.
Defined.

(** ** Constructing the uploader *)

Lemma validate_cases cfg :
  match validate cfg with
  | Ok _ =>
      unset (HOST cfg) = false /\ unset (TOKEN cfg) = false /\
      unset (HTTP_PATH cfg) = false
  | Raise e =>
      exn_type e = ValueError /\
      (unset (HOST cfg) = true \/ unset (TOKEN cfg) = true \/
       unset (HTTP_PATH cfg) = true)
  end.
Proof.
  unfold validate.
  destruct (unset (HOST cfg)), (unset (TOKEN cfg)), (unset (HTTP_PATH cfg));
    simpl; tauto.
Qed.

(** X6.  [DatabricksUploader()] makes no network call.  It raises a
    [ValueError] exactly when DATABRICKS_HOST, DATABRICKS_TOKEN or
    DATABRICKS_HTTP_PATH is unset or empty, whatever the catalog and the
    schema are; otherwise the uploader it returns has the configured host
    with every trailing slash removed, so that its host does not end with a
    slash. *)
Theorem uploader_init cfg h :
  wp (DatabricksUploader_init cfg) h
    (fun t r =>
       http_bodies t = [] /\ connects t = [] /\ sql_events t = [] /\
       match r with
       | Ok up =>
           unset (HOST cfg) = false /\ unset (TOKEN cfg) = false /\
           unset (HTTP_PATH cfg) = false /\
           HOST cfg = Some (default "" (HOST cfg)) /\
           host up = Py.rstrip "/" (default "" (HOST cfg)) /\
           last_char (host up) <> Some "/"%char /\
           catalog up = CATALOG cfg /\ schema up = SCHEMA cfg
       | Raise e =>
           t = [] /\ exn_type e = ValueError /\
           (unset (HOST cfg) = true \/ unset (TOKEN cfg) = true \/
            unset (HTTP_PATH cfg) = true)
       end).
Proof.
  unfold DatabricksUploader_init. apply wp_bind, wp_lift.
  pose proof (validate_cases cfg) as Hv.
  destruct (validate cfg) as [[]|e].
  - apply wp_bind, wp_log_info, wp_ret. simpl.
    destruct Hv as (Hh & Ht & Hp). split_and!; try done.
    + by destruct (HOST cfg).
    + apply rstrip_last.
  - by destruct Hv.
Qed.

(** ** Uploading a file to DBFS *)

(** X7.  For a file format other than 'parquet' and 'csv', [upload_to_dbfs]
    raises its [ValueError] before the DataFrame is serialised and before
    any request is made. *)
Theorem upload_unsupported_format E up df dbfs_path file_format h :
  file_format <> "parquet" -> file_format <> "csv" ->
  wp (upload_to_dbfs E up df dbfs_path file_format) h
    (fun t r =>
       r = Raise (Exn ValueError
                    ("Unsupported format: " +:+ file_format
                     +:+ ". Use 'parquet' or 'csv'.")) /\
       t = [EvLog "INFO" "Uploading {} rows to DBFS: {}"
              [Py.str_int (Py.len (rows df)); dbfs_path]]).
Proof.
  intros Hp%String.eqb_neq Hc%String.eqb_neq. unfold upload_to_dbfs, to_bytes.
  apply wp_bind, wp_log_info, wp_bind, wp_lift. by rewrite Hp, Hc.
Qed.

Lemma upload_unsupported_format_witness :
  wp (upload_to_dbfs Sample.env_ok Sample.up Sample.df "/FileStore/t.json"
        "json") []
    (fun t r =>
       r = Raise (Exn ValueError
                    "Unsupported format: json. Use 'parquet' or 'csv'.") /\
       t = [EvLog "INFO" "Uploading {} rows to DBFS: {}"
              ["2"; "/FileStore/t.json"]]).
Proof.
  apply (upload_unsupported_format Sample.env_ok Sample.up Sample.df
           "/FileStore/t.json" "json" []); discriminate.
Defined.

Lemma http_bodies_made t : http_bodies t = map fst (http_made t).
Proof. induction t as [|[] t IH]; simpl; by rewrite ?IH. Qed.

Lemma stream_plan_bodies handle chunk_size file_bytes b :
  b ∈ stream_plan handle chunk_size file_bytes ->
  b = BodyClose handle \/ exists data, b = BodyAddBlock handle data.
Proof.
  unfold stream_plan. intros [Hb | Hb%list_elem_of_singleton]%elem_of_app.
  - apply list_elem_of_fmap in Hb as (chunk & -> & _). right. by eexists.
  - by left.
Qed.

Lemma stream_plan_length handle chunk_size file_bytes :
  0 < chunk_size ->
  Py.len (stream_plan handle chunk_size file_bytes)
  = ceil_div (Py.len file_bytes) chunk_size + 1.
Proof.
  intros Hsize. unfold stream_plan, Py.len.
  rewrite length_app, length_map. simpl.
  pose proof (pieces_length chunk_size file_bytes Hsize) as Hlen.
  unfold Py.len in Hlen. lia.
Qed.

(** X8.  In any environment the first request of a streaming upload is the
    [create] of the destination path with overwrite set; every later
    request is an [add-block] or a [close] that carries the handle which
    that [create] returned; and at most [ceil(len / chunk_size) + 3]
    requests are made in all, so no chunk is ever sent twice. *)
Theorem stream_upload_requests E up dbfs_path file_bytes chunk_size h :
  0 < chunk_size ->
  wp (_dbfs_stream_upload E up dbfs_path file_bytes chunk_size) h
    (fun t r =>
       exists reply rest,
         t = EvHttp (url_create up) (BodyCreate dbfs_path true) reply :: rest /\
         (forall b, b ∈ http_bodies rest ->
            exists handle,
              open_result (url_create up) reply = Ok handle /\
              (b = BodyClose handle \/ exists data, b = BodyAddBlock handle data)) /\
         Py.len (http_bodies t)
         <= ceil_div (Py.len file_bytes) chunk_size + 3).
Proof.
  intros Hsize. eapply wp_mono; [by apply stream_upload_run|].
  intros t r Hpost.
  assert (Hcases :
    (exists reply e, t = [EvHttp (url_create up) (BodyCreate dbfs_path true) reply]
                     /\ open_result (url_create up) reply = Raise e) \/
    (exists handle reply rest,
        open_result (url_create up) reply = Ok handle /\
        t = EvHttp (url_create up) (BodyCreate dbfs_path true) reply :: rest /\
        (length (http_bodies rest)
         <= length (stream_plan handle chunk_size file_bytes) + 1)%nat /\
        forall b, b ∈ http_bodies rest ->
                  b ∈ stream_plan handle chunk_size file_bytes
                  \/ b = BodyClose handle)).
  { destruct r as [[]|e].
    - right. destruct Hpost as (handle & reply & body & Hopen & -> & Hmade).
      exists handle, reply, body.
      split_and!; [done | done | |].
      + rewrite http_bodies_made, Hmade, !length_map. lia.
      + intros b. rewrite http_bodies_made, Hmade, map_map. simpl.
        rewrite map_id. by left.
    - destruct Hpost as [(reply & -> & Hopen) | Hafter]; [left; by eexists _, _|].
      right. destruct Hafter as (handle & reply & body & k & c & e0 & cleanup
                                 & Hopen & -> & Hk & Hmade & _).
      exists handle, reply,
        (body ++ [EvHttp (url_close up) (BodyClose handle) cleanup]).
      pose proof (lookup_lt_Some _ _ _ Hk) as Hlt.
      split_and!; [done | done | |].
      + rewrite http_bodies_app, length_app, http_bodies_made, Hmade.
        rewrite length_map, length_app, length_map, length_take. simpl. lia.
      + intros b. rewrite http_bodies_app, http_bodies_made, Hmade.
        rewrite map_app, map_map. simpl. rewrite map_id.
        intros [[Hb | Hb%list_elem_of_singleton]%elem_of_app
               | Hb%list_elem_of_singleton]%elem_of_app.
        * left. apply elem_of_take in Hb as (i & Hi & _).
          by eapply list_elem_of_lookup_2.
        * left. subst b. by eapply list_elem_of_lookup_2.
        * by right. }
  destruct Hcases as [(reply & e & -> & Hopen)
                     | (handle & reply & rest & Hopen & -> & Hlen & Hin)].
  - exists reply, []. split_and!; [done | by intros b ?%elem_of_nil |].
    assert (0 <= ceil_div (Py.len file_bytes) chunk_size) as Hceil.
    { unfold ceil_div. apply Z.div_pos; [|done].
      pose proof (len_nonneg file_bytes). lia. }
    unfold Py.len in *. simpl. lia.
  - exists reply, rest. split_and!; [done | |].
    + intros b Hb. exists handle. split; [done|].
      destruct (Hin b Hb) as [Hplan | ->]; [|by left].
      by apply stream_plan_bodies in Hplan.
    + pose proof (stream_plan_length handle chunk_size file_bytes Hsize) as Hpl.
      unfold Py.len in *. simpl. lia.
Qed.

Lemma stream_upload_requests_witness :
  wp (_dbfs_stream_upload Sample.env_ok Sample.up "/t" Sample.payload 2) []
    (fun t r =>
       exists reply rest,
         t = EvHttp (url_create Sample.up) (BodyCreate "/t" true) reply :: rest /\
         (forall b, b ∈ http_bodies rest ->
            exists handle,
              open_result (url_create Sample.up) reply = Ok handle /\
              (b = BodyClose handle \/ exists data, b = BodyAddBlock handle data)) /\
         Py.len (http_bodies t) <= ceil_div (Py.len Sample.payload) 2 + 3).
Proof.
  apply (stream_upload_requests Sample.env_ok Sample.up "/t" Sample.payload 2 []).
  lia.
Defined.


(** ** The chunk size of a streaming upload *)

(** X9.  With a chunk size of 0 the [while] loop of [_dbfs_stream_upload]
    never advances its offset: as long as bytes remain to be sent it can
    only be left by an exception, and when every request succeeds it does
    not terminate, whatever the number of turns allowed. *)
Theorem add_blocks_zero_chunk E up handle file_bytes offset :
  offset < Py.len file_bytes ->
  (forall fuel h h' r,
     add_blocks E fuel up handle file_bytes 0 offset h = Some (h', r) ->
     exists e, r = Raise e) /\
  (http_ok E -> forall fuel h,
     add_blocks E fuel up handle file_bytes 0 offset h = None).
Proof.
  intros Hlt%Z.ltb_lt. split.
  - induction fuel as [|fuel IH]; intros h h' r; [done|].
    unfold add_blocks; fold add_blocks. rewrite Hlt, Z.add_0_r.
    unfold bind at 1. unfold requests_post.
    destruct (http_post E h _ _) as [resp|e]; [|intros [= <- <-]; by eexists].
    unfold bind at 1, raise_for_status.
    destruct (status_error _ resp) as [e|]; [intros [= <- <-]; by eexists|].
    unfold ret. unfold bind at 1, log_info, emit. apply IH.
  - intros Hok. induction fuel as [|fuel IH]; intros h; [done|].
    unfold add_blocks; fold add_blocks. rewrite Hlt, Z.add_0_r.
    unfold bind at 1. unfold requests_post.
    destruct (Hok h (host up +:+ "/api/2.0/dbfs/add-block")
                (BodyAddBlock handle
                   (Base64.encode (Py.slice offset offset file_bytes))))
      as (resp & -> & Hst & _).
    unfold bind at 1, raise_for_status. rewrite Hst.
    unfold ret. unfold bind at 1, log_info, emit. apply IH.
Qed.

Lemma add_blocks_zero_chunk_witness :
  0 < Py.len Sample.payload /\
  add_blocks Sample.env_ok 1000 Sample.up 7 Sample.payload 0 0 [] = None.
Proof.
  split; [reflexivity|].
  apply (add_blocks_zero_chunk Sample.env_ok Sample.up 7 Sample.payload 0);
    [reflexivity | apply sample_env_ok_http].
Defined.

(** ** Append mode of the Delta table writer *)

(** X10.  In append mode [upload_to_delta_table] executes one of four
    sequences of statements.  None at all, when it fails before its
    session is open.  [DESCRIBE TABLE] then [INSERT INTO ... SELECT * FROM
    parquet.`dbfs:<staging file>`], both accepted, and it returns.  Or, when
    DESCRIBE TABLE or INSERT INTO raises, the error is caught and
    [CREATE TABLE ... USING PARQUET LOCATION 'dbfs:<staging file>'] is
    executed next: the outcome of the call is then the outcome of that
    CREATE alone, so that a failed INSERT is never reported.  The two
    triple-quoted statements are sent with their line breaks and their
    indentation of 28 spaces.  On the sample, a warehouse that refuses the
    INSERT and one without the table both make the call return after the
    CREATE. *)
Theorem delta_append_statements E up df table_name h :
  let full := catalog up +:+ "." +:+ schema up +:+ "." +:+ table_name in
  let staged := "/FileStore/staging/" +:+ table_name +:+ ".parquet" in
  let indent := nl +:+ "                            " in
  let describe := "DESCRIBE TABLE " +:+ full in
  let insert :=
    indent +:+ "INSERT INTO " +:+ full
    +:+ indent +:+ "SELECT * FROM parquet.`dbfs:" +:+ staged +:+ "`"
    +:+ indent in
  let create :=
    indent +:+ "CREATE TABLE " +:+ full
    +:+ indent +:+ "USING PARQUET"
    +:+ indent +:+ "LOCATION 'dbfs:" +:+ staged +:+ "'"
    +:+ indent in
  wp (upload_to_delta_table E up df table_name "append") h
    (fun t r =>
       (sql_events t = [] /\ exists e, r = Raise e) \/
       (sql_events t = [(describe, None); (insert, None)] /\ r = Ok tt) \/
       (exists e reply,
          (sql_events t = [(describe, Some e); (create, reply)] \/
           sql_events t = [(describe, None); (insert, Some e);
                           (create, reply)]) /\
          r = match reply with None => Ok tt | Some e' => Raise e' end)) /\
  (exists t,
      upload_to_delta_table SampleDelta.env_insert_refused Sample.up Sample.df
        "orders" "append" []
      = Some (t, Ok tt) /\
      sql_events t
      = [("DESCRIBE TABLE hive_metastore.default.orders", None);
         (nl +:+ "                            INSERT INTO hive_metastore.default.orders"
          +:+ nl +:+ "                            SELECT * FROM parquet.`dbfs:/FileStore/staging/orders.parquet`"
          +:+ nl +:+ "                            ",
          Some Sample.rejected);
         (nl +:+ "                            CREATE TABLE hive_metastore.default.orders"
          +:+ nl +:+ "                            USING PARQUET"
          +:+ nl +:+ "                            LOCATION 'dbfs:/FileStore/staging/orders.parquet'"
          +:+ nl +:+ "                            ",
          None)]) /\
  (exists t,
      upload_to_delta_table SampleDelta.env_no_table Sample.up Sample.df
        "orders" "append" []
      = Some (t, Ok tt) /\
      sql_events t
      = [("DESCRIBE TABLE hive_metastore.default.orders",
          Some SampleDelta.no_such_table);
         (nl +:+ "                            CREATE TABLE hive_metastore.default.orders"
          +:+ nl +:+ "                            USING PARQUET"
          +:+ nl +:+ "                            LOCATION 'dbfs:/FileStore/staging/orders.parquet'"
          +:+ nl +:+ "                            ",
          None)]).
Proof.
  intros full staged indent describe insert create. split_and!.
  2,3: eexists; split; [vm_compute; reflexivity | by vm_compute].
  eapply wp_mono; [apply delta_run|].
  intros t r (staging & session & -> & Hst & Hcases).
  rewrite sql_events_app. destruct (dbfs_events_no_sql _ Hst) as [-> _].
  destruct Hcases as [[-> He] | [(_ & e & -> & ->) | (_ & body & -> & _ & Hs)]].
  - by left.
  - left. split; [done | by eexists].
  - simpl. rewrite sql_events_app. simpl. rewrite app_nil_r.
    unfold delta_session in Hs. simpl in Hs.
    destruct Hs as (made1 & r1 & Hrun & Hr1).
    destruct Hrun as [[-> ->] | (k & c & e & Hk & -> & ->)].
    + destruct Hr1 as [-> ->]. right. by left.
    + destruct Hr1 as (reply & -> & ->). right. right. exists e, reply.
      split; [|done].
      destruct k as [|[|k]]; simpl in Hk; [| |done].
      * injection Hk as <-. by left.
      * injection Hk as <-. by right.
Qed.

(** ** Sessions of the two writers *)

Lemma calls_app t1 t2 : calls (t1 ++ t2) = calls t1 ++ calls t2.
Proof. unfold calls. apply List.filter_app. Qed.

Lemma cursor_calls t :
  Forall cursor_event t -> calls t = statements (sql_events t).
Proof.
  induction 1 as [|[] t Hev _ IH]; simpl in *; by rewrite ?IH.
Qed.

Lemma session_closed {A} E (body : M A) :
  emits cursor_event body ->
  forall h h' r,
    with_connection E body h = Some (h', r) ->
    exists t, h' = h ++ t /\ Forall session_event t /\ session_calls t.
Proof.
  intros Hbody h h' r. unfold with_connection.
  destruct (sql_connect E h) as [e|].
  { intros [= <- <-]. exists [EvConnect (Some e)].
    split_and!; [done | by repeat constructor | left; by exists e]. }
  destruct (body _) as [[h1 r1]|] eqn:Hrun; [|done].
  intros [= <- <-]. destruct (Hbody _ _ _ Hrun) as (t & -> & Ht).
  exists (EvConnect None :: t ++ [EvClose]).
  split_and!; [by rewrite <- !app_assoc | |].
  - constructor; [done|]. apply Forall_app. split; [|by repeat constructor].
    eapply Forall_impl; [done | apply cursor_session].
  - right. simpl. rewrite calls_app, sql_events_app. simpl.
    by rewrite app_nil_r, cursor_calls.
Qed.

Lemma logs_calls t : Forall (fun ev => is_log ev = true) t -> calls t = [].
Proof. induction 1 as [|ev t Hev _ IH]; simpl; [done|]. by rewrite Hev. Qed.

(** X11.  Both writers release what they open.  Apart from log lines,
    [write_with_sql_connector] does nothing but attempt one connection and,
    when it is accepted, execute statements on its cursor and close the
    session: the session is closed also when a statement raises, nothing is
    done once it is closed, and no DBFS request is made.
    [upload_to_delta_table] does the same after its staging upload: every
    DBFS request precedes the attempt to connect. *)
Theorem writers_close_session E up df table_name mode h :
  wp (write_with_sql_connector E up df table_name mode) h
    (fun t r => session_calls t /\ http_bodies t = []) /\
  wp (upload_to_delta_table E up df table_name mode) h
    (fun t r =>
       exists staging session,
         t = staging ++ session /\ Forall dbfs_event staging /\
         http_bodies session = [] /\
         (session = [] \/ session_calls session)).
Proof.
  split.
  - destruct (write_run E up df table_name mode h) as (t & r & Hrun & _).
    exists t, r. split; [done|].
    revert Hrun. unfold write_with_sql_connector.
    unfold bind at 1. unfold log_info at 1. unfold emit at 1.
    unfold bind at 1.
    destruct (with_connection E _ _) as [[h1 r1]|] eqn:Hwc; [|done].
    apply session_closed in Hwc as (t1 & -> & Hev & Hcalls).
    2:{ apply emits_bind.
        { destruct (String.eqb mode "overwrite");
            [apply emits_cursor_execute | apply emits_ret]. }
        intros _. apply emits_bind; [apply emits_cursor_execute|].
        intros _. destruct (_ =? 0).
        - apply emits_bind; [by apply emits_emit|]. intros _. apply emits_ret.
        - apply emits_bind; [|intros _; apply emits_ret].
          apply emits_insert_batches. }
    destruct (session_events_obs _ Hev) as [Hhttp _].
    assert (Hfinal : forall tail,
               Forall (fun ev => is_log ev = true) tail ->
               h ++ t = ((h ++ [EvLog "INFO" "Writing {} rows via SQL INSERT to: {}"
                                  [Py.str_int (Py.len (rows df));
                                   full_table_name up table_name]]) ++ t1)
                        ++ tail ->
               session_calls t /\ http_bodies t = []).
    { intros tail Htail Heq. rewrite <- !app_assoc in Heq.
      apply app_inv_head in Heq as ->.
      assert (http_bodies tail = []) as Hhttp'.
      { clear -Htail. induction Htail as [|[] ? ? ? IH]; simpl; done. }
      assert (sql_events tail = []) as Hsql.
      { clear -Htail. induction Htail as [|[] ? ? ? IH]; simpl; done. }
      split; [|by rewrite !http_bodies_app, Hhttp, Hhttp'].
      unfold session_calls.
      rewrite !calls_app, !sql_events_app, (logs_calls _ Htail), Hsql,
        !app_nil_r.
      done. }
    destruct r1 as [[|]|e].
    + intros [= Heq _]. apply (Hfinal []); [done | by rewrite app_nil_r].
    + unfold emit. intros [= Heq _]. eapply Hfinal; [|done]. by repeat constructor.
    + intros [= Heq _]. apply (Hfinal []); [done | by rewrite app_nil_r].
  - eapply wp_mono; [apply delta_run|].
    intros t r (staging & session & -> & Hst & Hcases).
    exists staging, session. split_and!; [done | done | |].
    + destruct Hcases as [[-> _] | [(_ & e & -> & _) | (_ & body & -> & Hb & _)]];
        [done | done |].
      simpl. rewrite http_bodies_app. simpl. rewrite app_nil_r.
      clear -Hb. induction Hb as [|[] ? ? ? IH]; simpl; done.
    + destruct Hcases as [[-> _] | [(_ & e & -> & _) | (_ & body & -> & Hb & _)]].
      * by left.
      * right. left. by exists e.
      * right. right. simpl. rewrite calls_app, sql_events_app. simpl.
        by rewrite app_nil_r, cursor_calls.
Qed.


(** ** The run over all tables *)

Lemma bq_inits_app t1 t2 : bq_inits (t1 ++ t2) = bq_inits t1 ++ bq_inits t2.
Proof. apply omap_app. Qed.

Lemma listings_app t1 t2 : listings (t1 ++ t2) = listings t1 ++ listings t2.
Proof. apply omap_app. Qed.

Lemma wp_BigQueryExtractor E h (Q : history -> result string -> Prop) :
  Q [EvBigQueryExtractor (bq_extractor E h)] (bq_extractor E h) ->
  wp (BigQueryExtractor E) h Q.
Proof. intros HQ. eexists _, _. split; [reflexivity | exact HQ]. Qed.

Lemma wp_list_tables E h (Q : history -> result (list string) -> Prop) :
  Q [EvListTables (bq_list_tables E h)] (bq_list_tables E h) ->
  wp (list_tables E) h Q.
Proof. intros HQ. eexists _, _. split; [reflexivity | exact HQ]. Qed.

Lemma wp_log_failed errs h (Q : history -> result unit -> Prop) :
  Q (map (fun x => EvLog "INFO" "     - {}: {}" [fst x; snd x]) errs) (Ok tt) ->
  wp (log_failed errs) h Q.
Proof.
  revert h Q. induction errs as [|[tbl err] errs IH]; intros h Q HQ; simpl.
  - by apply wp_ret.
  - apply wp_bind, wp_log_info. by apply IH.
Qed.

Lemma session_loop ev : session_event ev -> loop_event ev.
Proof. by destruct ev. Qed.

Lemma emits_table_loop E up n_tables i tables rep :
  emits loop_event (table_loop E up n_tables i tables rep).
Proof.
  revert i rep. induction tables as [|table_name rest IH]; intros i rep; simpl.
  { apply emits_ret. }
  apply emits_bind; [|intros rep'; apply IH].
  unfold iteration.
  apply emits_bind; [by apply emits_emit|]. intros _.
  apply emits_bind; [by apply emits_emit|]. intros _.
  apply emits_try_except.
  2:{ intros e. apply emits_bind; [by apply emits_emit|]. intros _.
      apply emits_ret. }
  apply emits_bind; [|intros _; apply emits_ret].
  unfold process_table.
  apply emits_bind; [by apply emits_emit|]. intros _.
  apply emits_bind.
  { intros h h' r [= <- <-]. eexists. split; [done|]. by constructor. }
  intros df. apply emits_bind; [by apply emits_emit|]. intros _.
  destruct (_ =? 0); [by apply emits_emit|].
  apply emits_bind; [by apply emits_emit|]. intros _.
  apply emits_bind; [|intros _; by apply emits_emit].
  eapply emits_mono; [apply session_loop | apply emits_write].
Qed.

Lemma loop_events_obs t :
  Forall loop_event t -> bq_inits t = [] /\ listings t = [].
Proof. induction 1 as [|[] t Hev _ [IH1 IH2]]; simpl; done. Qed.

Lemma items_no_http up tables rep t rep' :
  items_post up tables rep t rep' -> http_bodies t = [].
Proof.
  revert rep t. induction tables as [|table_name rest IH]; intros rep t; simpl.
  - by intros [-> _].
  - intros (t1 & t2 & rep1 & -> & (reply & _ & Hhttp & _) & Hrest).
    by rewrite http_bodies_app, Hhttp, (IH _ _ Hrest).
Qed.

(** X12.  How a run of [main] ends, in any environment.  It raises only
    when the extractor cannot be started, when the dataset cannot be
    listed, or when the Databricks configuration is incomplete, and then
    nothing was extracted and Databricks was not contacted.  With an empty
    dataset it leaves through [sys.exit(0)] before the Databricks
    configuration is looked at.  Otherwise it finishes: every table of the
    listing was extracted once, in order, no DBFS request was made, the two
    counts add up to the number of tables, there is one recorded failure per
    counted error, each under the name of a table of the listing, and the
    history ends with the summary: the two counts, then, only when a table
    failed, the header and one line per failure in the order they
    occurred. *)
Theorem main_outcomes E cfg h :
  wp (main E cfg) h
    (fun t r =>
       match r with
       | Raise e =>
           quiet t /\
           ((bq_inits t = [Raise e] /\ listings t = []) \/
            (exists dataset,
                bq_inits t = [Ok dataset] /\ listings t = [Raise e]) \/
            (exists dataset tables,
                bq_inits t = [Ok dataset] /\ listings t = [Ok tables] /\
                tables <> [] /\ validate cfg = Raise e))
       | Ok Exit0 =>
           quiet t /\
           exists dataset, bq_inits t = [Ok dataset] /\ listings t = [Ok []]
       | Ok (Finished rep) =>
           exists dataset tables,
             bq_inits t = [Ok dataset] /\ listings t = [Ok tables] /\
             tables <> [] /\ validate cfg = Ok tt /\
             map fst (extracts t) = tables /\
             http_bodies t = [] /\
             success_count rep + error_count rep = Py.len tables /\
             Py.len (errors rep) = error_count rep /\
             sublist (map fst (errors rep)) tables /\
             summary (Py.len tables) rep `suffix_of` t
       end).
Proof.
  unfold main.
  do 4 apply wp_bind, wp_log_info.
  apply wp_bind, wp_BigQueryExtractor.
  destruct (bq_extractor E _) as [dataset|e].
  2:{ simpl. split; [done|]. by left. }
  apply wp_bind, wp_log_info, wp_bind, wp_list_tables.
  destruct (bq_list_tables E _) as [tables|e].
  2:{ simpl. split; [done|]. right. left. by exists dataset. }
  destruct tables as [|table_name rest].
  { apply wp_bind, wp_emit, wp_ret. simpl. split; [done|]. by exists dataset. }
  cbv iota. remember (table_name :: rest) as tables eqn:Htables.
  assert (tables <> []) as Hne by (by subst).
  clear Htables.
  do 2 apply wp_bind, wp_log_info.
  apply wp_bind. unfold DatabricksUploader_init. apply wp_bind, wp_lift.
  pose proof (validate_cases cfg) as Hv.
  destruct (validate cfg) as [[]|e] eqn:Hval.
  2:{ simpl. split; [done|]. right. right. by exists dataset, tables. }
  apply wp_bind, wp_log_info, wp_ret. cbv beta iota.
  apply wp_bind.
  eapply wp_mono;
    [eapply wp_emits; [apply table_loop_run | apply emits_table_loop]|].
  intros loop r [(rep & -> & Hitems) Hev].
  do 4 apply wp_bind, wp_log_info.
  pose proof (items_no_http _ _ _ _ _ Hitems) as Hhttp.
  destruct (loop_events_obs _ Hev) as [Hinits Hlist].
  apply items_facts in Hitems
    as (Hnames & _ & Hcount & (new & Hnew & Hlen & Hsub) & _).
  simpl in Hnew, Hlen, Hcount. subst new.
  set (tail := match errors rep with
               | [] => []
               | errs =>
                   EvLog "INFO" (nl +:+ "   Failed tables:") []
                   :: map (fun x => EvLog "INFO" "     - {}: {}" [fst x; snd x])
                        errs
               end ++ [EvLog "INFO" (Py.times "=" 60) []]).
  eapply (wp_mono _ _ (fun t' r' => r' = Ok (Finished rep) /\ t' = tail)).
  { apply wp_bind. subst tail. destruct (errors rep) as [|err errs].
    - apply wp_ret, wp_bind, wp_log_info, wp_ret. by split.
    - apply wp_bind, wp_log_info, wp_log_failed.
      apply wp_bind, wp_log_info, wp_ret. split; [done|].
      simpl. by rewrite ?app_nil_r. }
  intros t' r' [-> ->].
  assert (Forall (fun ev => is_log ev = true) tail) as Htail.
  { subst tail. apply Forall_app. split; [|by repeat constructor].
    destruct (errors rep) as [|err errs]; [done|].
    constructor; [done|]. by apply Forall_map, Forall_true. }
  assert (bq_inits tail = [] /\ listings tail = [] /\ extracts tail = []
          /\ http_bodies tail = []) as (Ht1 & Ht2 & Ht3 & Ht4).
  { clear -Htail. induction Htail as [|[] ? ? ? (? & ? & ? & ?)]; simpl; done. }
  exists dataset, tables.
  rewrite !bq_inits_app, !listings_app, !extracts_app, !http_bodies_app.
  rewrite Hinits, Hlist, Hhttp, Ht1, Ht2, Ht3, Ht4. simpl.
  rewrite !app_nil_r.
  split_and!; [done | done | done | done | done | done | lia | lia | done |].
  do 10 apply suffix_cons_r. by apply suffix_app_r.
Qed.


(** * The extractor and the command line *)

Section WideRules.

Context {A B : Type}.

Lemma wide_ret (a : A) h (Q : trace -> result A -> Prop) :
  Q [] (Ok a) -> W.wp (W.ret a) h Q.
Proof. intros HQ. exists [], (Ok a). by rewrite app_nil_r. Qed.

Lemma wide_raise (e : exn) h (Q : trace -> result A -> Prop) :
  Q [] (Raise e) -> W.wp (W.raise e) h Q.
Proof. intros HQ. exists [], (Raise e). by rewrite app_nil_r. Qed.

Lemma wide_mono (m : W.M A) h (Q Q' : trace -> result A -> Prop) :
  W.wp m h Q -> (forall t r, Q t r -> Q' t r) -> W.wp m h Q'.
Proof. intros (t & r & Hm & HQ) Himp. exists t, r. auto. Qed.

Lemma wide_bind (m : W.M A) (k : A -> W.M B) h
    (Q : trace -> result B -> Prop) :
  W.wp m h (fun t r =>
    match r with
    | Ok a => W.wp (k a) (h ++ t) (fun t' r' => Q (t ++ t') r')
    | Raise e => Q t (Raise e)
    end) ->
  W.wp (W.bind m k) h Q.
Proof.
  intros (t & r & Hm & HQ). unfold W.wp, W.bind. rewrite Hm.
  destruct r as [a|e].
  - destruct HQ as (t' & r' & Hk & HQ). exists (t ++ t'), r'.
    by rewrite Hk, app_assoc.
  - by exists t, (Raise e).
Qed.

Lemma wide_try_except (m : W.M A) (handler : exn -> W.M A) h
    (Q : trace -> result A -> Prop) :
  W.wp m h (fun t r =>
    match r with
    | Ok a => Q t (Ok a)
    | Raise e => W.wp (handler e) (h ++ t) (fun t' r' => Q (t ++ t') r')
    end) ->
  W.wp (W.try_except m handler) h Q.
Proof.
  intros (t & r & Hm & HQ). unfold W.wp, W.try_except. rewrite Hm.
  destruct r as [a|e].
  - by exists t, (Ok a).
  - destruct HQ as (t' & r' & Hk & HQ). exists (t ++ t'), r'.
    by rewrite Hk, app_assoc.
Qed.

End WideRules.

Lemma wide_emit c h (Q : trace -> result unit -> Prop) :
  Q [c] (Ok tt) -> W.wp (W.emit c) h Q.
Proof. intros HQ. by exists [c], (Ok tt). Qed.

Lemma wide_log_info template args h (Q : trace -> result unit -> Prop) :
  Q [Uploader (EvLog "INFO" template args)] (Ok tt) ->
  W.wp (W.log_info template args) h Q.
Proof. apply wide_emit. Qed.

Lemma wide_log_error template args h (Q : trace -> result unit -> Prop) :
  Q [Uploader (EvLog "ERROR" template args)] (Ok tt) ->
  W.wp (W.log_error template args) h Q.
Proof. apply wide_emit. Qed.

(** A computation of the uploader appends its events, as events of the
    uploader. *)
Lemma wide_of_uploader {A} (m : M A) h (Q0 : history -> result A -> Prop)
    (Q : trace -> result A -> Prop) :
  wp m (uploader_part h) Q0 ->
  (forall t0 r, Q0 t0 r -> Q (map Uploader t0) r) ->
  W.wp (of_uploader m) h Q.
Proof.
  intros (t0 & r & Hm & HQ0) HQ. exists (map Uploader t0), r.
  unfold of_uploader. rewrite Hm, drop_app_length. auto.
Qed.

Lemma string_app_assoc s1 s2 s3 : (s1 +:+ s2) +:+ s3 = s1 +:+ s2 +:+ s3.
Proof.
  induction s1 as [|c s1 IH]; [done|]. by rewrite !append_cons, IH.
Qed.

Lemma string_app_nil_r s : s +:+ "" = s.
Proof. induction s as [|c s IH]; [done|]. by rewrite append_cons, IH. Qed.

(** ** Creating the extractor *)

Lemma wide_validate B cfg h (Q : trace -> result unit -> Prop) :
  (unset (BigQueryConfig.PROJECT_ID cfg) = true \/
   unset (BigQueryConfig.CREDENTIALS_PATH cfg) = true ->
   forall e, exn_type e = ValueError -> Q [] (Raise e)) ->
  (unset (BigQueryConfig.PROJECT_ID cfg) = false ->
   unset (BigQueryConfig.CREDENTIALS_PATH cfg) = false ->
   let path := str_opt (BigQueryConfig.CREDENTIALS_PATH cfg) in
   Q [EvPathExists path true] (Ok tt) /\
   forall e, exn_type e = OtherException "FileNotFoundError" ->
             Q [EvPathExists path false] (Raise e)) ->
  W.wp (BigQueryConfig.validate B cfg) h Q.
Proof.
  intros Hmissing Hset. unfold BigQueryConfig.validate.
  destruct (unset (BigQueryConfig.PROJECT_ID cfg)) eqn:Hp;
    [apply wide_raise, Hmissing; auto|].
  destruct (unset (BigQueryConfig.CREDENTIALS_PATH cfg)) eqn:Hc;
    [apply wide_raise, Hmissing; auto|].
  simpl. destruct (Hset eq_refl eq_refl) as [Hfound Hnot].
  apply wide_bind. unfold BigQueryConfig.path_exists.
  eexists _, _. split; [reflexivity|]. simpl.
  destruct (os_path_exists B h _).
  - by apply wide_ret.
  - apply wide_raise. by apply Hnot.
Qed.

(** What is known when [BigQueryExtractor()] returns [r], having made the
    calls [t]. *)
Lemma extractor_init_run B cfg h :
  let path := str_opt (BigQueryConfig.CREDENTIALS_PATH cfg) in
  let project := str_opt (BigQueryConfig.PROJECT_ID cfg) in
  W.wp (Extractor.init B cfg) h
    (fun t r =>
       match r with
       | Ok self =>
           unset (BigQueryConfig.PROJECT_ID cfg) = false /\
           unset (BigQueryConfig.CREDENTIALS_PATH cfg) = false /\
           self = {| Extractor.project_id := project;
                     Extractor.dataset := BigQueryConfig.DATASET cfg |} /\
           t = [EvPathExists path true; EvCredentials path None;
                EvClient project None;
                Uploader (EvLog "INFO"
                            "BigQuery client initialized for project: {}"
                            [project])]
       | Raise e =>
           (t = [] /\ exn_type e = ValueError /\
            (unset (BigQueryConfig.PROJECT_ID cfg) = true \/
             unset (BigQueryConfig.CREDENTIALS_PATH cfg) = true)) \/
           (unset (BigQueryConfig.PROJECT_ID cfg) = false /\
            unset (BigQueryConfig.CREDENTIALS_PATH cfg) = false /\
            ((t = [EvPathExists path false] /\
              exn_type e = OtherException "FileNotFoundError") \/
             t = [EvPathExists path true; EvCredentials path (Some e)] \/
             t = [EvPathExists path true; EvCredentials path None;
                  EvClient project (Some e)]))
       end).
Proof.
  intros path project. unfold Extractor.init.
  apply wide_bind, wide_validate.
  { intros Hmissing e He. left. by split_and!. }
  intros Hp Hc. split.
  2:{ intros e He. right. split_and!; [done..|]. left. by split. }
  apply wide_bind. eexists _, _. split; [reflexivity|].
  destruct (from_service_account_file B _ _) as [e|].
  { right. split_and!; [done..|]. right. by left. }
  apply wide_bind. eexists _, _. split; [reflexivity|].
  destruct (bigquery_Client B _ _) as [e|].
  { right. split_and!; [done..|]. right. by right. }
  apply wide_bind, wide_log_info, wide_ret. by split_and!.
Qed.

(** X13.  [BigQueryExtractor()] checks its configuration, loads the
    credentials and creates the client, in that order, and stops at the
    first failure: a [ValueError] without any call when BIGQUERY_PROJECT_ID
    or BIGQUERY_CREDENTIALS_PATH is unset or empty, a [FileNotFoundError]
    when the credentials file does not exist (the file system is asked only
    when both are set), or the error of the credentials or of the client.
    BIGQUERY_DATASET is not checked: the extractor is created with the
    dataset as configured, set or not.  No query is made. *)
Theorem extractor_init B cfg h :
  let path := str_opt (BigQueryConfig.CREDENTIALS_PATH cfg) in
  let project := str_opt (BigQueryConfig.PROJECT_ID cfg) in
  W.wp (Extractor.init B cfg) h
    (fun t r =>
       queries t = [] /\
       match r with
       | Ok self =>
           BigQueryConfig.PROJECT_ID cfg = Some (Extractor.project_id self) /\
           Extractor.project_id self <> "" /\
           Extractor.dataset self = BigQueryConfig.DATASET cfg /\
           t = [EvPathExists path true; EvCredentials path None;
                EvClient project None;
                Uploader (EvLog "INFO"
                            "BigQuery client initialized for project: {}"
                            [project])]
       | Raise e =>
           (t = [] /\ exn_type e = ValueError /\
            (unset (BigQueryConfig.PROJECT_ID cfg) = true \/
             unset (BigQueryConfig.CREDENTIALS_PATH cfg) = true)) \/
           (unset (BigQueryConfig.PROJECT_ID cfg) = false /\
            unset (BigQueryConfig.CREDENTIALS_PATH cfg) = false /\
            ((t = [EvPathExists path false] /\
              exn_type e = OtherException "FileNotFoundError") \/
             t = [EvPathExists path true; EvCredentials path (Some e)] \/
             t = [EvPathExists path true; EvCredentials path None;
                  EvClient project (Some e)]))
       end).
Proof.
  intros path project. eapply wide_mono; [apply extractor_init_run|].
  fold path project. intros t [self|e].
  - intros (Hp & Hc & -> & ->). split; [done|]. simpl.
    split_and!; [| |done..]; subst project;
      by destruct (BigQueryConfig.PROJECT_ID cfg) as [[|]|].
  - intros Hcases. split; [|done].
    destruct Hcases as [(-> & _) | (_ & _ & [(-> & _) | [-> | ->]])]; done.
Qed.

(** ** Queries *)

Lemma extract_by_query_run B self query h :
  W.wp (Extractor.extract_by_query B self query) h
    (fun t r =>
       t = [query_log query; EvQuery query r; query_end r]).
Proof.
  unfold Extractor.extract_by_query.
  apply wide_bind, wide_log_info, wide_try_except, wide_bind.
  eexists _, _. split; [reflexivity|].
  destruct (client_query B _ query) as [df|e].
  - by apply wide_bind, wide_log_info, wide_ret.
  - by apply wide_bind, wide_log_error, wide_raise.
Qed.

Lemma table_query_eq B self table_name limit :
  Extractor.extract_table B self table_name limit
  = Extractor.extract_by_query B self (table_query self table_name limit).
Proof.
  unfold Extractor.extract_table, table_query. f_equal.
  destruct (Py.contains "." table_name); simpl;
    destruct limit as [n|]; try destruct (n =? 0);
    rewrite ?string_app_assoc, ?string_app_nil_r; done.
Qed.

(** X14.  [extract_table] makes exactly one query and returns what the query
    returns; when the query raises, the error is logged and raised again.
    The query is [SELECT * FROM `project.dataset.table`], with the dataset
    of the extractor unless the table name contains a dot, in which case
    the name is taken as [dataset.table]; a LIMIT clause is added for every
    limit other than [None] and 0, so that a limit of 0 extracts the whole
    table, and an extractor without a dataset asks for
    [`project.None.table`]. *)
Theorem extract_table_query B self table_name limit h :
  W.wp (Extractor.extract_table B self table_name limit) h
    (fun t r =>
       let q := table_query self table_name limit in
       t = [query_log q; EvQuery q r; query_end r]) /\
  table_query self table_name (Some 0) = table_query self table_name None /\
  (forall n,
     n <> 0 ->
     table_query self table_name (Some n)
     = table_query self table_name None +:+ " LIMIT " +:+ Py.str_int n) /\
  (Py.contains "." table_name = true ->
   table_query self table_name None
   = "SELECT * FROM `" +:+ Extractor.project_id self +:+ "." +:+ table_name
     +:+ "`") /\
  (Py.contains "." table_name = false ->
   Extractor.dataset self = None ->
   table_query self table_name None
   = "SELECT * FROM `" +:+ Extractor.project_id self +:+ ".None."
     +:+ table_name +:+ "`").
Proof.
  split_and!.
  - rewrite table_query_eq. apply extract_by_query_run.
  - done.
  - intros n Hn%Z.eqb_neq. unfold table_query. rewrite Hn.
    by rewrite !string_app_assoc.
  - intros Hdot. unfold table_query. rewrite Hdot.
    by rewrite string_app_nil_r.
  - intros Hdot Hnone. unfold table_query. rewrite Hdot, Hnone.
    by rewrite string_app_nil_r.
Qed.

Example table_query_samples :
  table_query {| Extractor.project_id := "p"; Extractor.dataset := None |}
    "t" (Some 0)
  = "SELECT * FROM `p.None.t`" /\
  table_query {| Extractor.project_id := "p"; Extractor.dataset := Some "d" |}
    "other.t" (Some (-5))
  = "SELECT * FROM `p.other.t` LIMIT -5".
Proof. split; reflexivity. Qed.

(** ** The dataset of a listing *)

(** X15.  [list_tables] lists the dataset given as argument when it is a
    non-empty string and the dataset of the extractor otherwise.  When
    neither is set it raises its [ValueError] before the client is called;
    otherwise the client is called once, for [project.dataset], and what it
    returns or raises is the outcome.  [get_table_schema] chooses the
    dataset in the same way but has no such check: it always calls the
    client once, with [project.None.table] when no dataset is set. *)
Theorem dataset_defaulting B self dataset_arg table_name h :
  let chosen := if unset dataset_arg then Extractor.dataset self
                else dataset_arg in
  W.wp (Extractor.list_tables B self dataset_arg) h
    (fun t r =>
       if unset chosen then
         t = [] /\
         r = Raise (Exn ValueError
                      "No dataset specified. Set BIGQUERY_DATASET in .env")
       else
         let dataset_ref :=
           Extractor.project_id self +:+ "." +:+ str_opt chosen in
         match r with
         | Ok names =>
             t = [EvClientListTables dataset_ref (Ok names);
                  Uploader (EvLog "INFO" "Found {} tables in {}"
                              [Py.str_int (Py.len names); dataset_ref])]
         | Raise e => t = [EvClientListTables dataset_ref (Raise e)]
         end) /\
  W.wp (Extractor.get_table_schema B self table_name dataset_arg) h
    (fun t r =>
       let table_ref :=
         Extractor.project_id self +:+ "." +:+ str_opt chosen +:+ "."
         +:+ table_name in
       match r with
       | Ok schema =>
           t = [EvGetTable table_ref (Ok schema);
                Uploader (EvLog "INFO" "Schema for {}: {} columns"
                            [table_ref; Py.str_int (Py.len schema)])]
       | Raise e => t = [EvGetTable table_ref (Raise e)]
       end).
Proof.
  intros chosen. split.
  - unfold Extractor.list_tables. fold (py_or dataset_arg (Extractor.dataset self)).
    change (py_or dataset_arg (Extractor.dataset self)) with chosen.
    destruct (unset chosen); [by apply wide_raise|].
    apply wide_bind. eexists _, _. split; [reflexivity|].
    destruct (client_list_tables B _ _) as [names|e]; [|done].
    by apply wide_bind, wide_log_info, wide_ret.
  - unfold Extractor.get_table_schema.
    change (py_or dataset_arg (Extractor.dataset self)) with chosen.
    apply wide_bind. eexists _, _. split; [reflexivity|].
    destruct (client_get_table B _ _) as [schema|e]; [|done].
    by apply wide_bind, wide_log_info, wide_ret.
Qed.


(** ** The pipeline of [main.py] *)

(** *** Where the uploader writes *)

Lemma emits_requests_post_to E url body dest :
  body_path body = None \/ body_path body = Some dest ->
  emits (writes_to dest) (requests_post E url body).
Proof.
  intros Hbody h h' r [= <- <-]. eexists. split; [done|]. by constructor.
Qed.

Lemma emits_add_blocks_to E dest fuel up handle file_bytes chunk_size offset :
  emits (writes_to dest)
    (add_blocks E fuel up handle file_bytes chunk_size offset).
Proof.
  revert offset. induction fuel as [|fuel IH]; intros offset; [done|].
  unfold add_blocks; fold add_blocks.
  destruct (offset <? Py.len file_bytes); [|apply emits_ret].
  apply emits_bind; [apply emits_requests_post_to; by left|]. intros r.
  apply emits_bind; [apply emits_raise_for_status|]. intros _.
  apply emits_bind; [by apply emits_emit|]. intros _. apply IH.
Qed.

Lemma emits_dbfs_upload_to E up dbfs_path file_bytes :
  emits (writes_to dbfs_path) (dbfs_upload E up dbfs_path file_bytes).
Proof.
  unfold dbfs_upload. destruct (_ <=? _).
  - apply emits_bind; [apply emits_requests_post_to; by right|].
    intros r. apply emits_raise_for_status.
  - apply emits_bind; [apply emits_requests_post_to; by right|]. intros r.
    apply emits_bind; [apply emits_raise_for_status|]. intros _.
    apply emits_bind.
    { destruct (json_handle r); [apply emits_ret | apply emits_raise]. }
    intros handle. apply emits_try_except.
    + apply emits_bind; [apply emits_add_blocks_to|]. intros _.
      apply emits_bind; [apply emits_requests_post_to; by left|]. intros r'.
      apply emits_raise_for_status.
    + intros e. apply emits_bind; [apply emits_requests_post_to; by left|].
      intros _. apply emits_raise.
Qed.

Lemma emits_upload_to_dbfs_to E up df dbfs_path file_format :
  emits (writes_to dbfs_path) (upload_to_dbfs E up df dbfs_path file_format).
Proof.
  unfold upload_to_dbfs.
  apply emits_bind; [by apply emits_emit|]. intros _.
  apply emits_bind; [apply emits_lift|]. intros file_bytes.
  apply emits_bind; [by apply emits_emit|]. intros _.
  apply emits_bind; [apply emits_dbfs_upload_to|]. intros _.
  by apply emits_emit.
Qed.

Lemma cursor_writes_to dest ev : cursor_event ev -> writes_to dest ev.
Proof. by destruct ev. Qed.

Lemma session_writes_to dest ev : session_event ev -> writes_to dest ev.
Proof. by destruct ev. Qed.

Lemma emits_delta_to E up df table_name mode :
  emits (writes_to (staging_path table_name))
    (upload_to_delta_table E up df table_name mode).
Proof.
  unfold upload_to_delta_table. fold (staging_path table_name).
  apply emits_bind; [by apply emits_emit|]. intros _.
  apply emits_bind; [apply emits_lift|]. intros file_bytes.
  apply emits_bind; [by apply emits_emit|]. intros _.
  apply emits_bind; [apply emits_dbfs_upload_to|]. intros _.
  apply emits_with_connection; [done..|].
  eapply emits_mono; [apply cursor_writes_to|].
  destruct (String.eqb mode "overwrite").
  { apply emits_bind; [apply emits_cursor_execute|]. intros _.
    apply emits_bind; [apply emits_cursor_execute|]. intros _.
    by apply emits_emit. }
  destruct (String.eqb mode "append"); [|apply emits_raise].
  apply emits_try_except.
  - apply emits_bind; [apply emits_cursor_execute|]. intros _.
    apply emits_bind; [apply emits_cursor_execute|]. intros _.
    by apply emits_emit.
  - intros e. apply emits_bind; [apply emits_cursor_execute|]. intros _.
    by apply emits_emit.
Qed.

Lemma upload_to_dbfs_events E up df dbfs_path file_format h :
  wp (upload_to_dbfs E up df dbfs_path file_format) h
    (fun t r => Forall dbfs_event t).
Proof.
  unfold upload_to_dbfs.
  apply wp_bind, wp_log_info, wp_bind, wp_lift.
  destruct (to_bytes E df file_format) as [file_bytes|e];
    [|by repeat constructor].
  apply wp_bind, wp_log_info, wp_bind.
  eapply wp_mono; [apply dbfs_upload_run|].
  intros t [[]|e] [_ Hev].
  - apply wp_log_info. rewrite !Forall_app. by repeat constructor.
  - rewrite !Forall_app. by repeat constructor.
Qed.


Lemma uploader_part_app t1 t2 :
  uploader_part (t1 ++ t2) = uploader_part t1 ++ uploader_part t2.
Proof. apply omap_app. Qed.

Lemma uploader_part_map u : uploader_part (map Uploader u) = u.
Proof. induction u as [|ev u IH]; simpl; [done|]. by rewrite IH. Qed.

Lemma queries_app t1 t2 : queries (t1 ++ t2) = queries t1 ++ queries t2.
Proof. apply omap_app. Qed.

Lemma queries_map u : queries (map Uploader u) = [].
Proof. induction u as [|ev u IH]; simpl; done. Qed.

Lemma prints_app t1 t2 : prints (t1 ++ t2) = prints t1 ++ prints t2.
Proof. apply omap_app. Qed.

Ltac is_logs := rewrite ?Forall_app; repeat constructor; try done.

Lemma completed_run args df h :
  W.wp (Pipeline.completed args df) h
    (fun t r =>
       r = Ok Pipeline.Returned /\
       exists post, t = map Uploader post /\
                    Forall (fun ev => is_log ev = true) post).
Proof.
  unfold Pipeline.completed.
  do 5 apply wide_bind, wide_log_info. apply wide_ret.
  split; [done|]. eexists [_; _; _; _; _]. split; [reflexivity|]. is_logs.
Qed.

Lemma uploader_init_run cfg h :
  wp (DatabricksUploader_init cfg) h
    (fun t r =>
       match validate cfg with
       | Ok _ =>
           t = [EvLog "INFO" "Databricks uploader initialized for: {}"
                  [host (configured cfg)]] /\
           r = Ok (configured cfg)
       | Raise e => t = [] /\ r = Raise e
       end).
Proof.
  unfold DatabricksUploader_init. apply wp_bind, wp_lift.
  destruct (validate cfg) as [[]|e]; [|done].
  by apply wp_bind, wp_log_info, wp_ret.
Qed.

(** The upload method chosen, then the "Done" lines. *)
Lemma method_run dbx_cfg args df h (m : M unit) (pre : history) :
  known_method (Pipeline.method args) = true ->
  validate dbx_cfg = Ok tt ->
  Forall (fun ev => is_log ev = true) pre ->
  wp m (uploader_part h) (method_post (configured dbx_cfg) args df) ->
  forall (Q : trace -> result Pipeline.outcome -> Prop)
         (tail : W.M Pipeline.outcome),
    (forall h', W.wp tail h'
       (fun t r =>
          r = Ok Pipeline.Returned /\
          exists post, t = map Uploader post /\
                       Forall (fun ev => is_log ev = true) post)) ->
    (forall u r, upload_post dbx_cfg args df (pre ++ u) r ->
                 Q (map Uploader u) r) ->
    W.wp (run _ <- of_uploader m; tail) h Q.
Proof.
  intros Hknown Hval Hpre Hm Q tail Htail HQ.
  apply wide_bind. eapply wide_of_uploader; [exact Hm|].
  intros u1 [[]|e] Hpost.
  - eapply wide_mono; [apply Htail|].
    intros t r (-> & post & -> & Hlogs).
    rewrite <- map_app. apply HQ.
    exists pre. split; [done|]. rewrite Hval, Hknown.
    by exists u1, (Ok tt), post.
  - rewrite <- (app_nil_r u1). apply HQ.
    exists pre. split; [done|]. rewrite Hval, Hknown.
    exists u1, (Raise e), []. by split_and!.
Qed.

Lemma upload_run E dbx_cfg args df h :
  W.wp (Pipeline.upload E dbx_cfg args df) h
    (fun t r => exists u, t = map Uploader u /\
                          upload_post dbx_cfg args df u r).
Proof.
  unfold Pipeline.upload.
  do 4 apply wide_bind, wide_log_info.
  apply wide_bind.
  eapply wide_of_uploader; [apply uploader_init_run|].
  intros t0 r0 Hinit.
  set (pre0 := [EvLog "INFO" "   Extracted {} rows, {} columns"
                  [Py.str_int (Py.len (rows df));
                   Py.str_int (Py.len (columns df))];
                EvLog "INFO" "   Columns: {}" (columns df);
                EvLog "INFO" "   Memory usage: {:.2f} MB" [];
                EvLog "INFO" "Step 2: Uploading data to Databricks..." []]).
  destruct (validate dbx_cfg) as [[]|e] eqn:Hval.
  2:{ destruct Hinit as [-> ->]. exists pre0. split; [done|].
      exists pre0. split; [subst pre0; is_logs|]. by rewrite Hval. }
  destruct Hinit as [-> ->].
  set (pre := pre0 ++ [EvLog "INFO" "Databricks uploader initialized for: {}"
                         [host (configured dbx_cfg)]]).
  assert (Forall (fun ev => is_log ev = true) pre) as Hpre.
  { subst pre pre0. is_logs. }
  assert (Hshape : forall u r,
             upload_post dbx_cfg args df (pre ++ u) r ->
             exists u',
               [Uploader (EvLog "INFO" "   Extracted {} rows, {} columns"
                            [Py.str_int (Py.len (rows df));
                             Py.str_int (Py.len (columns df))])] ++
               [Uploader (EvLog "INFO" "   Columns: {}" (columns df))] ++
               [Uploader (EvLog "INFO" "   Memory usage: {:.2f} MB" [])] ++
               [Uploader (EvLog "INFO"
                            "Step 2: Uploading data to Databricks..." [])] ++
               map Uploader
                 [EvLog "INFO" "Databricks uploader initialized for: {}"
                    [host (configured dbx_cfg)]] ++
               map Uploader u
               = map Uploader u' /\
               upload_post dbx_cfg args df u' r).
  { intros u r Hpost. exists (pre ++ u). split; [|done].
    subst pre pre0. by rewrite !map_app. }
  destruct (String.eqb (Pipeline.method args) "dbfs") eqn:Hdbfs.
  { eapply (method_run dbx_cfg args df _ _ pre);
      [by unfold known_method; rewrite Hdbfs | done | done | | |].
    - eapply wp_mono;
        [eapply wp_emits;
           [apply upload_to_dbfs_events | apply emits_upload_to_dbfs_to]|].
      intros t r [Hev Hto]. unfold method_post, method_shape, destination.
      by rewrite Hdbfs.
    - intros h'. apply wide_bind, wide_log_info.
      eapply wide_mono; [apply completed_run|].
      intros t r (-> & post & -> & Hpost). split; [done|].
      eexists (_ :: post). split; [reflexivity|]. by constructor.
    - intros u r Hpost. by apply Hshape. }
  destruct (String.eqb (Pipeline.method args) "delta") eqn:Hdelta.
  { eapply (method_run dbx_cfg args df _ _ pre);
      [by unfold known_method; rewrite Hdbfs, Hdelta | done | done | | |].
    - eapply wp_mono;
        [eapply wp_emits; [apply delta_run | apply emits_delta_to]|].
      intros t r [Hev Hto]. unfold method_post, method_shape, destination.
      by rewrite Hdbfs, Hdelta.
    - intros h'. apply completed_run.
    - intros u r Hpost. by apply Hshape. }
  destruct (String.eqb (Pipeline.method args) "sql_insert") eqn:Hsql.
  2:{ apply wide_bind, wide_log_error, wide_ret.
      set (line := EvLog "ERROR"
                     "Unknown method: {}. Use 'dbfs', 'delta', or 'sql_insert'."
                     [Pipeline.method args]).
      exists (pre ++ [line]). split; [subst pre pre0; by rewrite !map_app|].
      exists (pre ++ [line]). split; [subst line; is_logs|].
      rewrite Hval. unfold known_method. by rewrite Hdbfs, Hdelta, Hsql. }
  apply wide_bind.
  destruct (50000 <? Py.len (rows df)).
  - apply wide_emit.
    set (line := EvLog "WARNING"
                   ("DataFrame has {} rows. sql_insert is slow for large "
                    +:+ "datasets. Consider using 'delta' method.")
                   [Py.str_int (Py.len (rows df))]).
    eapply (method_run dbx_cfg args df _ _ (pre ++ [line]));
      [by unfold known_method; rewrite Hdbfs, Hdelta, Hsql | done
      | subst line; is_logs | | |].
    + eapply wp_mono;
        [eapply wp_emits; [apply write_run | apply emits_write]|].
      intros t r [Hev Hses]. unfold method_post, method_shape.
      rewrite Hdbfs, Hdelta. split; [done|].
      eapply Forall_impl; [exact Hses | apply session_writes_to].
    + intros h'. apply completed_run.
    + intros u r Hpost. exists ((pre ++ [line]) ++ u). split; [|done].
      subst pre pre0 line. by rewrite !map_app.
  - apply wide_ret.
    eapply (method_run dbx_cfg args df _ _ pre);
      [by unfold known_method; rewrite Hdbfs, Hdelta, Hsql | done | done | | |].
    + eapply wp_mono;
        [eapply wp_emits; [apply write_run | apply emits_write]|].
      intros t r [Hev Hses]. unfold method_post, method_shape.
      rewrite Hdbfs, Hdelta. split; [done|].
      eapply Forall_impl; [exact Hses | apply session_writes_to].
    + intros h'. apply completed_run.
    + intros u r Hpost. rewrite app_nil_l. by apply Hshape.
Qed.

Lemma run_pipeline_run E B bq_cfg dbx_cfg args h :
  W.wp (Pipeline.run_pipeline E B bq_cfg dbx_cfg args) h
    (pipeline_post bq_cfg dbx_cfg args).
Proof.
  unfold Pipeline.run_pipeline.
  do 4 apply wide_bind, wide_log_info.
  apply wide_bind. eapply wide_mono; [apply extractor_init_run|].
  intros t_init [self|e] Hinit.
  2:{ exists t_init, (Raise e), [].
      split; [exact Hinit|]. split; [by rewrite app_nil_r | done]. }
  unfold pipeline_post.
  assert (Hgoal : forall (m : W.M Pipeline.outcome) h',
             W.wp m h'
               (fun rest r =>
                  match source_query args self with
                  | None =>
                      rest = [Uploader
                                (EvLog "ERROR"
                                   "Please provide --query or --table argument."
                                   [])] /\
                      r = Ok (Pipeline.SysExit 1)
                  | Some q =>
                      exists reply t_up,
                        rest = [query_log q; EvQuery q reply; query_end reply]
                               ++ t_up /\
                        match reply with
                        | Raise e => t_up = [] /\ r = Raise e
                        | Ok df =>
                            exists u, t_up = map Uploader u /\
                                      upload_post dbx_cfg args df u r
                        end
                  end) ->
             W.wp m h'
               (fun t' r' =>
                  exists t_init0 r_init rest,
                    init_post bq_cfg t_init0 r_init /\
                    [Uploader (EvLog "INFO" (Py.times "=" 60) [])] ++
                    [Uploader (EvLog "INFO"
                                 "PIPELINE START: BigQuery -> Databricks" [])] ++
                    [Uploader (EvLog "INFO" (Py.times "=" 60) [])] ++
                    [Uploader (EvLog "INFO"
                                 "Step 1: Extracting data from BigQuery..." [])] ++
                    t_init ++ t'
                    = pipeline_start ++ t_init0 ++ rest /\
                    match r_init with
                    | Raise e => rest = [] /\ r' = Raise e
                    | Ok self0 =>
                        match source_query args self0 with
                        | None =>
                            rest = [Uploader
                                      (EvLog "ERROR"
                                         "Please provide --query or --table argument."
                                         [])] /\
                            r' = Ok (Pipeline.SysExit 1)
                        | Some q =>
                            exists reply t_up,
                              rest = [query_log q; EvQuery q reply;
                                      query_end reply] ++ t_up /\
                              match reply with
                              | Raise e => t_up = [] /\ r' = Raise e
                              | Ok df =>
                                  exists u, t_up = map Uploader u /\
                                            upload_post dbx_cfg args df u r'
                              end
                        end
                    end)).
  { intros m h' Hm. eapply wide_mono; [exact Hm|].
    intros rest r Hrest. by exists t_init, (Ok self), rest. }
  apply Hgoal. unfold source_query.
  destruct (negb (unset (Pipeline.query args))).
  - apply wide_bind. eapply wide_mono; [apply extract_by_query_run|].
    intros t1 [df|e] ->.
    + eapply wide_mono; [apply upload_run|].
      intros t2 r (u & -> & Hpost). exists (Ok df), (map Uploader u).
      split; [done|]. by exists u.
    + exists (Raise e), []. by rewrite app_nil_r.
  - destruct (negb (unset (Pipeline.table args))).
    + apply wide_bind. rewrite table_query_eq.
      eapply wide_mono; [apply extract_by_query_run|].
      intros t1 [df|e] ->.
      * eapply wide_mono; [apply upload_run|].
        intros t2 r (u & -> & Hpost). exists (Ok df), (map Uploader u).
        split; [done|]. by exists u.
      * exists (Raise e), []. by rewrite app_nil_r.
    + by apply wide_bind, wide_log_error, wide_ret.
Qed.


Lemma only_logs_quiet u :
  only_logs u ->
  calls u = [] /\ connects u = [] /\ sql_events u = [] /\ http_bodies u = [].
Proof.
  induction 1 as [|[] u Hev _ (? & ? & ? & ?)]; simpl in *; done.
Qed.

Lemma init_post_facts cfg t r :
  init_post cfg t r ->
  queries t = [] /\ prints t = [] /\ only_logs (uploader_part t) /\
  forall self, r = Ok self -> self = extractor_of cfg.
Proof.
  unfold init_post, only_logs. destruct r as [self|e].
  - intros (_ & _ & -> & ->). split_and!; [done | done | is_logs |].
    by intros ? [= <-].
  - intros [(-> & _) | (_ & _ & [(-> & _) | [-> | ->]])];
      split_and!; done || by constructor.
Qed.

(** The four ways a run of [run_pipeline] goes: the extractor cannot be
    created; there is no source; the query fails; the query returns a
    DataFrame and the upload step follows. *)
Lemma pipeline_facts bq_cfg dbx_cfg args t r :
  pipeline_post bq_cfg dbx_cfg args t r ->
  prints t = [] /\
  (((exists e, r = Raise e) /\
    queries t = [] /\ only_logs (uploader_part t)) \/
   (source_query args (extractor_of bq_cfg) = None /\
    r = Ok (Pipeline.SysExit 1) /\
    queries t = [] /\ only_logs (uploader_part t)) \/
   (exists q e,
       source_query args (extractor_of bq_cfg) = Some q /\
       queries t = [(q, Raise e)] /\ r = Raise e /\
       only_logs (uploader_part t)) \/
   (exists q df,
       source_query args (extractor_of bq_cfg) = Some q /\
       queries t = [(q, Ok df)] /\
       upload_post dbx_cfg args df (uploader_part t) r)).
Proof.
  intros (t_init & r_init & rest & Hinit & -> & Hcase).
  apply init_post_facts in Hinit as (Hq & Hp & Hlogs & Hself).
  rewrite !prints_app, !queries_app, !uploader_part_app, Hq, Hp. simpl.
  set (start := [EvLog "INFO" (Py.times "=" 60) [];
                 EvLog "INFO" "PIPELINE START: BigQuery -> Databricks" [];
                 EvLog "INFO" (Py.times "=" 60) [];
                 EvLog "INFO" "Step 1: Extracting data from BigQuery..." []]).
  assert (only_logs (start ++ uploader_part t_init)) as Hstart.
  { apply Forall_app. split; [subst start; is_logs | done]. }
  change (?a :: ?b :: ?c :: ?d :: uploader_part t_init ++ ?x)
    with ((start ++ uploader_part t_init) ++ x).
  destruct r_init as [self|e].
  2:{ destruct Hcase as [-> ->]. split; [done|]. left.
      rewrite app_nil_r. split_and!; [by eexists | done | done]. }
  rewrite <- (Hself self eq_refl).
  destruct (source_query args self) as [q|].
  2:{ destruct Hcase as [-> ->]. split; [done|]. right. left.
      split_and!; [done | done | done |].
      apply Forall_app. split; [done | is_logs]. }
  destruct Hcase as ([df|e] & t_up & -> & Hup).
  - destruct Hup as (u & -> & pre & Hpre & Hpost).
    rewrite prints_app, queries_app, uploader_part_app, queries_map,
      uploader_part_map.
    split.
    { simpl. clear. induction u as [|ev u IH]; simpl; done. }
    right. right. right. exists q, df. split_and!; [done | done |].
    simpl.
    exists ((start ++ uploader_part t_init)
            ++ [EvLog "INFO" ("Executing query:" +:+ nl +:+ "{}") [q];
                EvLog "INFO" "Query completed. Rows returned: {}"
                  [Py.str_int (Py.len (rows df))]] ++ pre).
    split.
    { apply Forall_app. split; [exact Hstart|].
      apply Forall_app. split; [by repeat constructor | done]. }
    destruct (validate dbx_cfg) as [[]|e].
    + destruct (known_method (Pipeline.method args)).
      * destruct Hpost as (u1 & r1 & post & -> & Hpost & Hm & ->).
        exists u1, r1, post. split_and!; [|done..].
        by rewrite <- !app_assoc.
      * destruct Hpost as [-> ->]. split; [|done]. by rewrite <- !app_assoc.
    + destruct Hpost as [-> ->]. split; [|done]. by rewrite <- !app_assoc.
  - destruct Hup as [-> ->]. split; [done|]. right. right. left.
    exists q, e. rewrite app_nil_r. split_and!; [done..|].
    apply Forall_app. split; [done | is_logs].
Qed.


Lemma source_query_cases args self :
  match source_query args self with
  | Some q =>
      if unset (Pipeline.query args) then
        unset (Pipeline.table args) = false /\
        q = table_query self (str_opt (Pipeline.table args)) (Pipeline.limit args)
      else q = str_opt (Pipeline.query args)
  | None =>
      unset (Pipeline.query args) = true /\ unset (Pipeline.table args) = true
  end.
Proof.
  unfold source_query.
  destruct (unset (Pipeline.query args)); simpl; [|done].
  by destruct (unset (Pipeline.table args)).
Qed.


(** What the upload step has done, read on the events of the uploader. *)
Lemma upload_facts dbx_cfg args df u r :
  upload_post dbx_cfg args df u r ->
  (calls u <> [] ->
   validate dbx_cfg = Ok tt /\ known_method (Pipeline.method args) = true) /\
  (forall code, r = Ok (Pipeline.SysExit code) ->
                code = 1 /\ calls u = [] /\
                known_method (Pipeline.method args) = false) /\
  (r = Ok Pipeline.Returned ->
   validate dbx_cfg = Ok tt /\ known_method (Pipeline.method args) = true) /\
  (known_method (Pipeline.method args) = false ->
   calls u = [] /\ r <> Ok Pipeline.Returned) /\
  (forall e, validate dbx_cfg = Raise e -> calls u = [] /\ r = Raise e) /\
  (Pipeline.method args = "dbfs" -> connects u = [] /\ sql_events u = []) /\
  (Pipeline.method args = "sql_insert" ->
   http_bodies u = [] /\
   (validate dbx_cfg = Ok tt ->
    exists r1,
      write_post (configured dbx_cfg) df (target_of args) (Pipeline.mode args)
        u r1 /\
      r = match r1 with
          | Ok _ => Ok Pipeline.Returned
          | Raise e => Raise e
          end)).
Proof.
  intros (pre & Hpre & Hpost).
  destruct (only_logs_quiet _ Hpre) as (Hc1 & Hc2 & Hc3 & Hc4).
  destruct (validate dbx_cfg) as [[]|e] eqn:Hval.
  2:{ destruct Hpost as [-> ->].
      split_and!; try done;
        try (by intros e' [= <-]); try (by rewrite Hc2, Hc3). }
  destruct (known_method (Pipeline.method args)) eqn:Hknown.
  2:{ destruct Hpost as [-> ->].
      split_and!; try done;
        try (by intros code [= <-]);
        try (intros Hm; by rewrite Hm in Hknown). }
  destruct Hpost as (u1 & r1 & post & -> & Hlogs & Hm & ->).
  destruct (only_logs_quiet _ Hlogs) as (Hp1 & Hp2 & Hp3 & Hp4).
  split_and!; try done.
  - intros code. by destruct r1.
  - destruct Hm as [Hm _]. unfold method_shape in Hm.
    intros Hdbfs. rewrite Hdbfs in Hm. simpl in Hm.
    destruct (dbfs_events_no_sql _ Hm) as [Hs Hc].
    by rewrite !connects_app, !sql_events_app, Hc2, Hc3, Hp2, Hp3, Hs, Hc.
  - destruct Hm as [Hm _]. unfold method_shape in Hm.
    intros Hsql. rewrite Hsql in Hm. simpl in Hm.
    destruct Hm as [Hw Hev]. destruct (session_events_obs _ Hev) as [Hh _].
    split; [by rewrite !http_bodies_app, Hc4, Hp4, Hh|].
    intros _. exists r1. split; [|done].
    destruct Hw as (c & Hconn & Hrun). exists c.
    rewrite !connects_app, !sql_events_app, Hc2, Hc3, Hp2, Hp3, !app_nil_r.
    done.
Qed.


(** With an incomplete Databricks configuration, how a run of
    [run_pipeline] ends: with the error of the configuration, once a query
    has returned a DataFrame; or earlier, at the creation of the extractor,
    for want of a source, or at the query. *)
Lemma pipeline_config_error bq_cfg dbx_cfg args t r :
  pipeline_post bq_cfg dbx_cfg args t r ->
  forall e,
  validate dbx_cfg = Raise e ->
  (r = Raise e /\ databricks_calls t = [] /\
   exists q df, queries t = [(q, Ok df)]) \/
  (exists e' t_init,
      init_post bq_cfg t_init (Raise e') /\
      t = pipeline_start ++ t_init /\ r = Raise e') \/
  (unset (Pipeline.query args) = true /\ unset (Pipeline.table args) = true /\
   queries t = [] /\ r = Ok (Pipeline.SysExit 1)) \/
  (exists q e', queries t = [(q, Raise e')] /\ r = Raise e').
Proof.
  intros Hpost e Hval.
  pose proof (pipeline_facts _ _ _ _ _ Hpost) as [_ Hfacts].
  destruct Hpost as (t_init & r_init & rest & Hinit & -> & Hcase).
  destruct r_init as [self|e'].
  2:{ destruct Hcase as [-> ->]. right. left. exists e', t_init.
      by rewrite app_nil_r. }
  pose proof (source_query_cases args (extractor_of bq_cfg)) as Hsrc.
  destruct Hfacts as [([e' Hr] & Hq & _) | [(Hnone & -> & Hq & _)
                     | [(q & e' & _ & Hq & -> & _) | (q & df & _ & Hq & Hup)]]].
  - apply init_post_facts in Hinit as (_ & _ & _ & Hself).
    rewrite (Hself self eq_refl) in Hcase. clear Hself.
    destruct (source_query args (extractor_of bq_cfg)) as [q|].
    + destruct Hcase as ([df|e2] & t_up & -> & Hup).
      * rewrite !queries_app in Hq. simpl in Hq.
        by destruct (queries t_init).
      * rewrite !queries_app in Hq. simpl in Hq.
        by destruct (queries t_init).
    + destruct Hcase as [_ ->]. done.
  - rewrite Hnone in Hsrc. destruct Hsrc as [Hu1 Hu2].
    right. right. left. by split_and!.
  - right. right. right. by exists q, e'.
  - left. apply upload_facts in Hup as (_ & _ & _ & _ & Hv & _).
    destruct (Hv e Hval) as [Hcalls ->]. split_and!; [done | done |].
    by exists q, df.
Qed.

(** X17.  The method of a run of [run_pipeline].  With the method 'dbfs'
    no SQL connection is opened and no statement is executed; with
    'sql_insert' no DBFS request is made.  With any other name than 'dbfs',
    'delta' and 'sql_insert' Databricks is not contacted and the run does
    not return; it is the only way, with a missing source, in which the run
    calls [sys.exit], always with status 1 and with no call to Databricks
    behind it.  An incomplete Databricks configuration is reported only
    after the extraction: the run then raises the error of the
    configuration once its query has returned a DataFrame, without any call
    to Databricks, unless it has ended earlier, at the creation of the
    extractor, for want of a source, or with the error of the query.  A run
    that returns has extracted a DataFrame and used a known method.  Nothing
    is printed. *)
Theorem run_pipeline_methods E B bq_cfg dbx_cfg args h :
  W.wp (Pipeline.run_pipeline E B bq_cfg dbx_cfg args) h
    (fun t r =>
       let U := uploader_part t in
       (Pipeline.method args = "dbfs" -> connects U = [] /\ sql_events U = []) /\
       (Pipeline.method args = "sql_insert" -> http_bodies U = []) /\
       (known_method (Pipeline.method args) = false ->
        databricks_calls t = [] /\ r <> Ok Pipeline.Returned) /\
       (forall code,
          r = Ok (Pipeline.SysExit code) ->
          code = 1 /\ databricks_calls t = [] /\
          (queries t = [] \/ known_method (Pipeline.method args) = false)) /\
       (forall e,
          validate dbx_cfg = Raise e ->
          databricks_calls t = [] /\ r <> Ok Pipeline.Returned) /\
       (forall e,
          validate dbx_cfg = Raise e ->
          (r = Raise e /\ databricks_calls t = [] /\
           exists q df, queries t = [(q, Ok df)]) \/
          (exists e' t_init,
              init_post bq_cfg t_init (Raise e') /\
              t = pipeline_start ++ t_init /\ r = Raise e') \/
          (unset (Pipeline.query args) = true /\
           unset (Pipeline.table args) = true /\
           queries t = [] /\ r = Ok (Pipeline.SysExit 1)) \/
          (exists q e', queries t = [(q, Raise e')] /\ r = Raise e')) /\
       (forall q df, queries t = [(q, Ok df)] ->
                     forall e, validate dbx_cfg = Raise e -> r = Raise e) /\
       (r = Ok Pipeline.Returned ->
        known_method (Pipeline.method args) = true /\
        validate dbx_cfg = Ok tt /\
        exists q df, queries t = [(q, Ok df)]) /\
       prints t = []).
Proof.
  eapply wide_mono; [apply run_pipeline_run|].
  intros t r Hpost.
  pose proof (pipeline_config_error _ _ _ _ _ Hpost) as Hconfig.
  apply pipeline_facts in Hpost as [Hprints Hcases].
  cbv zeta.
  destruct Hcases as [(He & Hq & Hlogs) | [(Hnone & -> & Hq & Hlogs)
                     | [(q & e & Hsome & Hq & -> & Hlogs)
                     | (q & df & Hsome & Hq & Hup)]]].
  - destruct (only_logs_quiet _ Hlogs) as (Hc1 & Hc2 & Hc3 & Hc4).
    destruct He as [e ->].
    split_and!; try done; intros q df Hq'; by rewrite Hq in Hq'.
  - destruct (only_logs_quiet _ Hlogs) as (Hc1 & Hc2 & Hc3 & Hc4).
    split_and!; try done;
      try (intros q df Hq'; by rewrite Hq in Hq').
    intros code [= <-]. split_and!; [done | done |]. by left.
  - destruct (only_logs_quiet _ Hlogs) as (Hc1 & Hc2 & Hc3 & Hc4).
    split_and!; try done; intros q' df Hq'; by rewrite Hq in Hq'.
  - apply upload_facts in Hup
      as (_ & Hexit & Hret & Hunknown & Hval & Hdbfs & Hsql).
    split_and!;
      [done | intros Hm; by destruct (Hsql Hm) | done | | | | | | done].
    + intros code Hcode. destruct (Hexit code Hcode) as (-> & Hc & Hk).
      split_and!; [done | done | by right].
    + intros e He. destruct (Hval e He) as [Hc ->]. by split.
    + intros e He. by apply Hconfig.
    + intros q' df' _ e He. by destruct (Hval e He) as [_ ->].
    + intros Hr. destruct (Hret Hr) as [Hv Hk]. split_and!; [done..|].
      by exists q, df.
Qed.

(** X18.  With the method 'sql_insert' and a complete Databricks
    configuration, a run of [run_pipeline] that has extracted a DataFrame
    writes it with [write_with_sql_connector], in the mode given, to the
    table named by the target, or by the source table when no target is
    given, or 'bigquery_data' when neither is: one connection is
    attempted, the statements of that table are executed until the first
    failure, and the run returns exactly when the write does. *)
Theorem sql_insert_table E B bq_cfg dbx_cfg args h :
  W.wp (Pipeline.run_pipeline E B bq_cfg dbx_cfg args) h
    (fun t r =>
       Pipeline.method args = "sql_insert" ->
       validate dbx_cfg = Ok tt ->
       forall q df,
         queries t = [(q, Ok df)] ->
         exists r1,
           write_post (configured dbx_cfg) df (target_of args)
             (Pipeline.mode args) (uploader_part t) r1 /\
           r = match r1 with
               | Ok _ => Ok Pipeline.Returned
               | Raise e => Raise e
               end) /\
  target_of args
  = (if unset (Pipeline.target args) then
       if unset (Pipeline.table args) then "bigquery_data"
       else str_opt (Pipeline.table args)
     else str_opt (Pipeline.target args)).
Proof.
  split.
  - eapply wide_mono; [apply run_pipeline_run|].
    intros t r Hpost Hm Hval q df Hq.
    apply pipeline_facts in Hpost as [_ Hcases].
    destruct Hcases as [(_ & Hq' & _) | [(_ & _ & Hq' & _)
                       | [(q' & e & _ & Hq' & _)
                       | (q' & df' & _ & Hq' & Hup)]]];
      rewrite Hq' in Hq; try done.
    injection Hq as -> ->.
    apply upload_facts in Hup as (_ & _ & _ & _ & _ & _ & Hsql).
    by destruct (Hsql Hm) as [_ Hw]; apply Hw.
  - unfold target_of, py_or.
    destruct (unset (Pipeline.target args)) eqn:Htarget.
    + by destruct (unset (Pipeline.table args)) eqn:Htable.
    + by rewrite Htarget.
Qed.


(** ** The commands of [main.py] *)








(** ** The sample command lines, run *)

Example main_sample :
  exists t,
    Pipeline.main Sample.env_ok SampleCli.bq SampleCli.bq_cfg Sample.cfg
      SampleCli.args []
    = Some (t, Ok Pipeline.Returned) /\
    map fst (queries t) = ["SELECT * FROM `proj.sales.orders` LIMIT 10"] /\
    connects (uploader_part t) = [None] /\
    map fst (sql_events (uploader_part t))
    = ["DROP TABLE IF EXISTS hive_metastore.default.orders";
       "CREATE TABLE IF NOT EXISTS hive_metastore.default.orders (`id` BIGINT, `note` STRING)";
       "INSERT INTO hive_metastore.default.orders (`id`, `note`) VALUES (1, 'it''s'), (2, 'it''s')"] /\
    http_bodies (uploader_part t) = [].
Proof.
  eexists. split; [vm_compute; reflexivity|]. by vm_compute.
Qed.

Example main_list_sample :
  exists t,
    Pipeline.main Sample.env_ok SampleCli.bq SampleCli.bq_cfg Sample.cfg
      SampleCli.args_list []
    = Some (t, Ok Pipeline.Returned) /\
    listed t = [("proj.sales", Ok ["orders"; "users"])] /\
    prints t = [nl +:+ "Tables in BigQuery dataset:"; Py.times "-" 40;
                "  1. orders"; "  2. users"; nl +:+ "Total: 2 tables"].
Proof.
  eexists. split; [vm_compute; reflexivity|]. by vm_compute.
Qed.


(** ** Where a run of the pipeline writes *)

Lemma paths_app t1 t2 : paths (t1 ++ t2) = paths t1 ++ paths t2.
Proof. unfold paths. by rewrite http_bodies_app, omap_app. Qed.

Lemma writes_to_paths dest u p :
  Forall (writes_to dest) u -> p ∈ paths u -> p = dest.
Proof.
  unfold paths. induction 1 as [|ev u Hev _ IH]; simpl.
  { by intros ?%elem_of_nil. }
  destruct ev as [url b reply| | | | | | |]; simpl; try done.
  destruct (body_path b) as [p'|] eqn:Hb; simpl; [|done].
  intros [-> | Hin]%elem_of_cons; [|by apply IH].
  destruct Hev as [Hev | Hev]; congruence.
Qed.

Lemma upload_paths dbx_cfg args df u r p :
  upload_post dbx_cfg args df u r -> p ∈ paths u -> p = destination args.
Proof.
  intros (pre & Hpre & Hpost).
  assert (forall l, only_logs l -> paths l = []) as Hlogs.
  { intros l Hl. unfold paths. by destruct (only_logs_quiet _ Hl) as (_ & _ & _ & ->). }
  destruct (validate dbx_cfg) as [[]|e].
  2:{ destruct Hpost as [-> _]. rewrite (Hlogs _ Hpre). by intros ?%elem_of_nil. }
  destruct (known_method (Pipeline.method args)).
  2:{ destruct Hpost as [-> _]. rewrite (Hlogs _ Hpre). by intros ?%elem_of_nil. }
  destruct Hpost as (u1 & r1 & post & -> & Hlogs' & [_ Hto] & _).
  rewrite !paths_app, (Hlogs _ Hpre), (Hlogs _ Hlogs'), app_nil_r. simpl.
  by apply writes_to_paths.
Qed.

(** X20.  The DBFS paths of a run of [run_pipeline].  With the method
    'dbfs' every request that names a path names
    [/FileStore/bigquery_data/<target>.<format>], where the format is
    'parquet' when none is given; with the method 'delta' it names the
    staging file [/FileStore/staging/<target>.parquet]; with any other
    method no request names a path.  The target is the one of the command
    line, else the source table, else 'bigquery_data'. *)
Theorem pipeline_destination E B bq_cfg dbx_cfg args h :
  W.wp (Pipeline.run_pipeline E B bq_cfg dbx_cfg args) h
    (fun t r =>
       let written := paths (uploader_part t) in
       (Pipeline.method args = "dbfs" ->
        forall p,
          p ∈ written ->
          p = "/FileStore/bigquery_data/" +:+ target_of args +:+ "."
              +:+ (if unset (Pipeline.format args) then "parquet"
                   else str_opt (Pipeline.format args))) /\
       (Pipeline.method args = "delta" ->
        forall p,
          p ∈ written ->
          p = "/FileStore/staging/" +:+ target_of args +:+ ".parquet") /\
       (Pipeline.method args <> "dbfs" -> Pipeline.method args <> "delta" ->
        written = [])).
Proof.
  eapply wide_mono; [apply run_pipeline_run|].
  intros t r Hpost. apply pipeline_facts in Hpost as [_ Hcases]. cbv zeta.
  assert (forall l, only_logs l -> paths l = []) as Hlogs.
  { intros l Hl. unfold paths.
    by destruct (only_logs_quiet _ Hl) as (_ & _ & _ & ->). }
  destruct Hcases as [(_ & _ & Hl) | [(_ & _ & _ & Hl)
                     | [(q & e & _ & _ & _ & Hl)
                     | (q & df & _ & _ & Hup)]]];
    try (rewrite (Hlogs _ Hl);
         split_and!; [by intros _ ? ?%elem_of_nil
                     | by intros _ ? ?%elem_of_nil | done]).
  split_and!.
  - intros Hm p Hp. rewrite (upload_paths _ _ _ _ _ _ Hup Hp).
    unfold destination, py_or. rewrite Hm. simpl.
    by destruct (unset (Pipeline.format args)).
  - intros Hm p Hp. rewrite (upload_paths _ _ _ _ _ _ Hup Hp).
    unfold destination. by rewrite Hm.
  - intros Hm1 Hm2.
    destruct Hup as (pre & Hpre & Hpost).
    destruct (validate dbx_cfg) as [[]|e];
      [|destruct Hpost as [-> _]; by apply Hlogs].
    destruct (known_method (Pipeline.method args)) eqn:Hknown;
      [|destruct Hpost as [-> _]; by apply Hlogs].
    destruct Hpost as (u1 & r1 & post & -> & Hlogs' & [Hshape _] & _).
    rewrite !paths_app, (Hlogs _ Hpre), (Hlogs _ Hlogs'), app_nil_r. simpl.
    unfold method_shape in Hshape.
    apply String.eqb_neq in Hm1, Hm2. rewrite Hm1, Hm2 in Hshape.
    destruct Hshape as [_ Hses]. unfold paths.
    by destruct (session_events_obs _ Hses) as [-> _].
Qed.

(** ** The mode of the SQL writer *)

(** X21.  [write_with_sql_connector] does not check its mode: every mode
    other than 'overwrite' behaves as 'append' does, and in an environment
    where the warehouse accepts the connection and every statement the
    write returns normally, whatever the mode; no [ValueError] is raised for
    a mode that [upload_to_delta_table] rejects. *)
Theorem write_accepts_any_mode E up df table_name mode :
  mode <> "overwrite" ->
  write_with_sql_connector E up df table_name mode
  = write_with_sql_connector E up df table_name "append" /\
  (sql_ok E ->
   forall h,
     wp (write_with_sql_connector E up df table_name mode) h
       (fun t r => r = Ok tt /\ connects t = [None])).
Proof.
  intros Hmode%String.eqb_neq. split.
  - unfold write_with_sql_connector. by rewrite Hmode.
  - intros Hok h.
    destruct (write_ok E up df table_name mode h Hok) as (t & r & Hrun & ->).
    exists t, (Ok tt). split; [done|]. split; [done|].
    destruct (wp_inv _ _ _ _ _ (write_run E up df table_name mode h) Hrun)
      as (c & Hc & Hcase).
    rewrite Hc. destruct c as [e|]; [|done]. by destruct Hcase.
Qed.

Lemma sample_env_ok_sql : sql_ok Sample.env_ok.
Proof. by split. Qed.

Lemma write_accepts_any_mode_witness :
  write_with_sql_connector Sample.env_ok Sample.up Sample.df "orders" "upsert"
  = write_with_sql_connector Sample.env_ok Sample.up Sample.df "orders" "append"
  /\
  wp (write_with_sql_connector Sample.env_ok Sample.up Sample.df "orders"
        "upsert") []
    (fun t r => r = Ok tt /\ connects t = [None]).
Proof.
  destruct (write_accepts_any_mode Sample.env_ok Sample.up Sample.df "orders"
              "upsert") as [Heq Hrun]; [discriminate|].
  split; [exact Heq|]. apply Hrun, sample_env_ok_sql.
Defined.
